(** * Autonomous data cleaning agent: profiler, cleaning pipeline, quality score

    A shallow embedding of the decision logic of [src/auto_eda_cleaner.py]
    ([perform_eda], [detect_column_types], [auto_clean_dataset]) and of
    [src/main.py] ([IntelligentDataCleaner.perform_eda],
    [.detect_column_types], [.clean_data]).

    The program is written against pandas.  The pandas operations the two
    files call are modelled in [Module pd], each one after the behaviour of
    the library call the source makes:
    - a column ([Series]) is a dtype tag and a list of cells; a cell is
      absent (NaN / None / NaT), a number, a string or a timestamp;
    - floating point numbers are exact rationals ([Q]); the result of a
      division by zero is kept as [NaN] or an infinity ([pyfloat]);
    - timestamps are integers, nanoseconds since 1970-01-01 as in
      [datetime64[ns]];
    - strings are held as their UTF-8 bytes; [len] counts code points and
      [str.strip] removes the white space of Unicode; [str.title] is
      modelled on ASCII letters;
    - DataFrame objects live in a store ([st_heap]) and are named by
      references, so that [df.copy()], rebinding and item assignment keep
      the aliasing the Python code has.

    Three behaviours of the environment are parameters of the development
    (section variables): the conversion [pd.to_datetime] performs, Python's
    [str()] of a non-string cell, and whether the installed pandas accepts
    the keyword [ignore_index] of [DataFrame.drop].  The conversion is a
    parameter in two forms: in [Module Conv] it is any function from a
    column to a column or an exception; in [Module AutoEda] and
    [Module Main] it is the conversion that applies one parser to every
    cell and cannot fail. *)

From Stdlib Require Import QArith Lqa Lia ZArith Ascii String.
From stdpp Require Import base option list sorting gmap strings.

Local Open Scope string_scope.
Local Open Scope Z_scope.
Local Open Scope nat_scope.

(** ** Cells and numbers *)

Inductive value : Type :=
| NA                       (* NaN, None, NaT *)
| Num (q : Q)              (* int / float *)
| Str (s : string)         (* str *)
| Ts (t : Z).              (* Timestamp, nanoseconds since the epoch *)

(** [datetime64] is the dtype of timestamps without a time zone. *)
Inductive dtype : Type := float64 | datetime64 | object.

Record Series : Type := mkSeries { s_dtype : dtype; s_values : list value }.

(** A float with the special values a division by zero produces. *)
Inductive pyfloat : Type :=
| Fin (q : Q)
| PInf
| NInf
| NaN.

Inductive exn : Type := KeyError | TypeError | ValueError | AttributeError.

Inductive result (A : Type) : Type :=
| Ok (a : A)
| Raise (e : exn).
Arguments Ok {A} a.
Arguments Raise {A} e.

(** The lines the cleaner prints, kept as structured events. *)
Inductive event : Type :=
| RemovedDuplicates (n : nat)
| FilledNumeric (col : string) (missing : nat)
| FilledCategorical (col : string) (missing : nat) (fill : value)
| FilledDates (col : string) (missing : nat)
| CouldNotParse (col : string)
| FilledText (col : string) (missing : nat)
| RemovedRows (n : nat).

Definition dtype_eqb (a b : dtype) : bool :=
  match a, b with
  | float64, float64 | datetime64, datetime64 | object, object => true
  | _, _ => false
  end.

(** Equality of two cells as pandas' hashing of rows sees it: absent cells
    are equal to each other. *)
Definition value_eqb (a b : value) : bool :=
  match a, b with
  | NA, NA => true
  | Num p, Num q => Qeq_bool p q
  | Str s, Str t => String.eqb s t
  | Ts s, Ts t => Z.eqb s t
  | _, _ => false
  end.

Fixpoint row_eqb (r1 r2 : list value) : bool :=
  match r1, r2 with
  | [], [] => true
  | a :: r1', b :: r2' => value_eqb a b && row_eqb r1' r2'
  | _, _ => false
  end.

Definition isnull (v : value) : bool :=
  match v with NA => true | _ => false end.

Definition notnull (v : value) : bool := negb (isnull v).

Definition count_null (vs : list value) : nat :=
  length (filter (fun v => isnull v = true) vs).

(** ** Float arithmetic with NaN and infinities *)

Module pyfloat_ops.

(** [a / b] of two non-negative counts under numpy's rules: a zero
    divisor gives [nan] for [0 / 0] and [inf] otherwise. *)
Definition div (a b : nat) : pyfloat :=
  match b with
  | O => match a with O => NaN | _ => PInf end
  | _ => Fin (inject_Z (Z.of_nat a) / inject_Z (Z.of_nat b))
  end.

Definition neg (x : pyfloat) : pyfloat :=
  match x with
  | Fin q => Fin (- q)
  | PInf => NInf
  | NInf => PInf
  | NaN => NaN
  end.

Definition add (x y : pyfloat) : pyfloat :=
  match x, y with
  | NaN, _ | _, NaN => NaN
  | Fin p, Fin q => Fin (p + q)
  | PInf, NInf | NInf, PInf => NaN
  | PInf, _ | _, PInf => PInf
  | NInf, _ | _, NInf => NInf
  end.

Definition sub (x y : pyfloat) : pyfloat := add x (neg y).

(** Multiplication by a positive finite constant. *)
Definition scale (x : pyfloat) (k : Q) : pyfloat :=
  match x with
  | Fin q => Fin (q * k)
  | other => other
  end.

(** [x > y]; every comparison with [nan] is false. *)
Definition gt (x y : pyfloat) : bool :=
  match x, y with
  | Fin p, Fin q => if Qlt_le_dec q p then true else false
  | PInf, Fin _ | PInf, NInf | Fin _, NInf => true
  | _, _ => false
  end.

Definition lt (x y : pyfloat) : bool := gt y x.

(** Python's builtin [max(a, b)]: the first argument is kept unless the
    second is strictly greater. *)
Definition py_max (a b : pyfloat) : pyfloat := if gt b a then b else a.

(** Python's builtin [min(a, b)]: the first argument is kept unless the
    second is strictly smaller. *)
Definition py_min (a b : pyfloat) : pyfloat := if lt b a then b else a.

(** Equality of floats up to the representation of the rational. *)
Definition eq (x y : pyfloat) : Prop :=
  match x, y with
  | Fin p, Fin q => p == q
  | PInf, PInf | NInf, NInf | NaN, NaN => True
  | _, _ => False
  end.

End pyfloat_ops.

(** ** Strings: [str.strip], [str.title], decimal digits *)

Module pystr.

Definition code (c : ascii) : nat := nat_of_ascii c.

(** The code points of one byte for which [str.isspace] holds. *)
Definition is_space (c : ascii) : bool :=
  let n := code c in
  ((9 <=? n) && (n <=? 13)) || ((28 <=? n) && (n <=? 32)).

Definition is_upper (c : ascii) : bool :=
  let n := code c in (65 <=? n) && (n <=? 90).

Definition is_lower (c : ascii) : bool :=
  let n := code c in (97 <=? n) && (n <=? 122).

Definition to_upper (c : ascii) : ascii :=
  if is_lower c then ascii_of_nat (code c - 32) else c.

Definition to_lower (c : ascii) : ascii :=
  if is_upper c then ascii_of_nat (code c + 32) else c.

(** A byte [10xxxxxx], which continues a code point in UTF-8. *)
Definition is_continuation (c : ascii) : bool :=
  let n := code c in (128 <=? n) && (n <=? 191).

(** The code points of two bytes for which [str.isspace] holds: U+0085
    and U+00A0. *)
Definition is_space2 (c1 c2 : ascii) : bool :=
  (code c1 =? 194) && ((code c2 =? 133) || (code c2 =? 160)).

(** The code points of three bytes for which [str.isspace] holds: U+1680,
    U+2000 to U+200A, U+2028, U+2029, U+202F, U+205F and U+3000. *)
Definition is_space3 (c1 c2 c3 : ascii) : bool :=
  let n := code c3 in
  ((code c1 =? 225) && (code c2 =? 154) && (n =? 128))
  || ((code c1 =? 226) && (code c2 =? 128)
      && (((128 <=? n) && (n <=? 138)) || (n =? 168) || (n =? 169)
          || (n =? 175)))
  || ((code c1 =? 226) && (code c2 =? 129) && (n =? 159))
  || ((code c1 =? 227) && (code c2 =? 128) && (n =? 128)).

(** [s.lstrip()] on the bytes: white space of one, two or three bytes is
    removed from the front. *)
Fixpoint lstrip (cs : list ascii) : list ascii :=
  match cs with
  | [] => []
  | c1 :: t1 =>
      if is_space c1 then lstrip t1
      else
        match t1 with
        | c2 :: t2 =>
            if is_space2 c1 c2 then lstrip t2
            else
              match t2 with
              | c3 :: t3 => if is_space3 c1 c2 c3 then lstrip t3 else cs
              | [] => cs
              end
        | [] => cs
        end
  end.

(** [s.rstrip()] on the bytes in reverse order.  A lead byte starts a code
    point, so the last bytes of a string are those of a white space
    character exactly when that character ends the string. *)
Fixpoint rstrip_reversed (cs : list ascii) : list ascii :=
  match cs with
  | [] => []
  | c1 :: t1 =>
      if is_space c1 then rstrip_reversed t1
      else
        match t1 with
        | c2 :: t2 =>
            if is_space2 c2 c1 then rstrip_reversed t2
            else
              match t2 with
              | c3 :: t3 =>
                  if is_space3 c3 c2 c1 then rstrip_reversed t3 else cs
              | [] => cs
              end
        | [] => cs
        end
  end.

(** [s.strip()] *)
Definition strip (s : string) : string :=
  string_of_list_ascii
    (rev (rstrip_reversed (rev (lstrip (list_ascii_of_string s))))).

(** [s.title()] on ASCII letters: a cased character is upper-cased when
    the character before it is not cased, and lower-cased otherwise.  The
    bytes of other code points are kept and count as uncased. *)
Fixpoint title_from (previous_is_cased : bool) (cs : list ascii)
  : list ascii :=
  match cs with
  | [] => []
  | c :: cs' =>
      if is_lower c then
        (if previous_is_cased then c else to_upper c) :: title_from true cs'
      else if is_upper c then
        (if previous_is_cased then to_lower c else c) :: title_from true cs'
      else c :: title_from false cs'
  end.

Definition title (s : string) : string :=
  string_of_list_ascii (title_from false (list_ascii_of_string s)).

(** [len(s)]: the number of code points, which is the number of bytes that
    do not continue one. *)
Definition len (s : string) : nat :=
  length (List.filter (fun c => negb (is_continuation c))
            (list_ascii_of_string s)).

(** Lexicographic order on code points, the order of Python's [<=] on
    [str]. *)
Definition le (s t : string) : Prop := String.leb s t = true.

Definition digit (n : Z) : ascii := ascii_of_nat (48 + Z.to_nat n).


(** The last [width] decimal digits of [n], zero padded. *)
Fixpoint digits (width : nat) (n : Z) (acc : list ascii) : list ascii :=
  match width with
  | O => acc
  | S w => digits w (n / 10)%Z (digit (n mod 10)%Z :: acc)
  end.

Definition pad (width : nat) (n : Z) : string :=
  string_of_list_ascii (digits width n []).

Definition digit_value (c : ascii) : option Z :=
  let n := code c in
  if (48 <=? n) && (n <=? 57) then Some (Z.of_nat (n - 48)) else None.

Fixpoint number_from (acc : Z) (cs : list ascii) : option Z :=
  match cs with
  | [] => Some acc
  | c :: cs' =>
      match digit_value c with
      | Some d => number_from (10 * acc + d)%Z cs'
      | None => None
      end
  end.

(** A non-empty run of decimal digits read as a number. *)
Definition number (cs : list ascii) : option Z :=
  match cs with [] => None | _ => number_from 0%Z cs end.

End pystr.

#[global] Instance pystr_le_dec : RelDecision pystr.le.
Proof. intros s t. unfold pystr.le. apply _. Defined.

(** ** Calendar dates *)

Module pydate.

Local Open Scope Z_scope.

Definition ns_per_day : Z := 86400 * 1000000000.

(** Days since 1970-01-01 of a date of the proleptic Gregorian calendar. *)
Definition days_from_civil (y m d : Z) : Z :=
  let y' := if m <=? 2 then y - 1 else y in
  let era := y' / 400 in
  let yoe := y' - era * 400 in
  let doy := (153 * (if 2 <? m then m - 3 else m + 9) + 2) / 5 + d - 1 in
  let doe := yoe * 365 + yoe / 4 - yoe / 100 + doy in
  era * 146097 + doe - 719468.

Definition civil_from_days (z : Z) : Z * Z * Z :=
  let z' := z + 719468 in
  let era := z' / 146097 in
  let doe := z' - era * 146097 in
  let yoe := (doe - doe / 1460 + doe / 36524 - doe / 146096) / 365 in
  let doy := doe - (365 * yoe + yoe / 4 - yoe / 100) in
  let mp := (5 * doy + 2) / 153 in
  let d := doy - (153 * mp + 2) / 5 + 1 in
  let m := if mp <? 10 then mp + 3 else mp - 9 in
  let y := yoe + era * 400 in
  (if m <=? 2 then y + 1 else y, m, d).

(** [Timestamp.strftime('%Y-%m-%d')] *)
Definition strftime_ymd (t : Z) : string :=
  let '(y, m, d) := civil_from_days (t / ns_per_day) in
  pystr.pad 4 y ++ "-" ++ pystr.pad 2 m ++ "-" ++ pystr.pad 2 d.

Definition is_date_sep (c : ascii) : bool :=
  (pystr.code c =? 45)%nat || (pystr.code c =? 47)%nat.

(** The dates written [YYYY-MM-DD] or [YYYY/MM/DD] that lie in the range
    of [datetime64[ns]], at midnight.  This is the part of pandas'
    permissive parser that the examples of this development run on; the
    statements about all parsers take the parser as a parameter. *)
Definition parse_ymd (s : string) : option Z :=
  match list_ascii_of_string s with
  | [y1; y2; y3; y4; s1; m1; m2; s2; d1; d2] =>
      match pystr.number [y1; y2; y3; y4], pystr.number [m1; m2],
            pystr.number [d1; d2] with
      | Some y, Some m, Some d =>
          let days := days_from_civil y m d in
          if is_date_sep s1 && is_date_sep s2
             && (1678 <=? y) && (y <=? 2261)
             && (1 <=? m) && (m <=? 12) && (1 <=? d)
             && (let '(y', m', d') := civil_from_days days in
                 (y' =? y) && (m' =? m) && (d' =? d))
          then Some (days * ns_per_day) else None
      | _, _, _ => None
      end
  | _ => None
  end.

(** Decimal digits of the fraction [r / den], at most [fuel] of them. *)
Fixpoint fraction_digits (fuel : nat) (r den : Z) : list ascii :=
  match fuel with
  | O => []
  | S fuel' =>
      if r =? 0 then []
      else pystr.digit (10 * r / den)
             :: fraction_digits fuel' (10 * r mod den) den
  end.

Fixpoint drop_leading_zeros (cs : list ascii) : list ascii :=
  match cs with
  | c :: (_ :: _) as cs' =>
      if (pystr.code c =? 48)%nat then drop_leading_zeros cs' else cs
  | _ => cs
  end.

(** Decimal rendering of a rational in the manner of [str(float)]:
    integer part, point, and at least one digit of the fraction. *)
Definition float_str (q : Q) : string :=
  let n := Z.abs (Qnum q) in
  let den := Z.pos (Qden q) in
  let frac := fraction_digits 17 (n mod den) den in
  (if Qnum q <? 0 then "-" else "")
    ++ string_of_list_ascii (drop_leading_zeros (pystr.digits 20 (n / den) []))
    ++ "."
    ++ string_of_list_ascii (match frac with [] => [pystr.digit 0] | _ => frac end).

(** [str(Timestamp)], whole seconds. *)
Definition timestamp_str (t : Z) : string :=
  let secs := (t mod ns_per_day) / 1000000000 in
  strftime_ymd t ++ " " ++ pystr.pad 2 (secs / 3600) ++ ":"
    ++ pystr.pad 2 (secs / 60 mod 60) ++ ":" ++ pystr.pad 2 (secs mod 60).

(** [str(x)] of a cell. *)
Definition py_str_model (v : value) : string :=
  match v with
  | NA => "nan"
  | Num q => float_str q
  | Str s => s
  | Ts t => timestamp_str t
  end.

End pydate.

(** ** The pandas operations on columns *)

#[global] Instance Qle_rel_dec : RelDecision Qle.
Proof.
  intros p q. destruct (Qlt_le_dec q p) as [H | H].
  - right. apply Qlt_not_le, H.
  - left. exact H.
Defined.

Module pd.

(** The cells that are present, in row order. *)
Definition dropna (vs : list value) : list value :=
  filter (fun v => notnull v = true) vs.

Definition numbers (vs : list value) : list Q :=
  omap (fun v => match v with Num q => Some q | _ => None end) vs.

Definition timestamps (vs : list value) : list Z :=
  omap (fun v => match v with Ts t => Some t | _ => None end) vs.

Definition is_number_or_null (v : value) : bool :=
  match v with NA | Num _ => true | _ => false end.

Definition same_kind (a b : value) : bool :=
  match a, b with
  | NA, NA | Num _, Num _ | Str _, Str _ | Ts _, Ts _ => true
  | _, _ => false
  end.

(** The order [np.sort] uses between two cells of one kind. *)
Definition value_le (a b : value) : Prop :=
  match a, b with
  | Num p, Num q => (p <= q)%Q
  | Str s, Str t => pystr.le s t
  | Ts s, Ts t => (s <= t)%Z
  | _, _ => True
  end.

#[global] Instance value_le_dec : RelDecision value_le.
Proof. intros [] []; simpl; apply _. Defined.

(** [np.nanmedian] of numbers: the middle element of the sorted values,
    or the mean of the two middle ones. *)
Definition median_numbers (qs : list Q) : value :=
  let sorted := merge_sort Qle qs in
  let n := length sorted in
  match n with
  | O => NA
  | _ =>
      if Nat.odd n then Num (nth (n / 2) sorted 0%Q)
      else Num (Qred ((nth (n / 2 - 1) sorted 0%Q + nth (n / 2) sorted 0%Q)
                      / 2))
  end.

(** The median of timestamps is taken on their nanosecond counts in
    the same way; the mean of the two middle ones is cast back to an
    integer. *)
Definition median_timestamps (ts : list Z) : value :=
  let sorted := merge_sort Z.le ts in
  let n := length sorted in
  match n with
  | O => NA
  | _ =>
      if Nat.odd n then Ts (nth (n / 2) sorted 0%Z)
      else Ts (Z.quot (nth (n / 2 - 1) sorted 0%Z + nth (n / 2) sorted 0%Z)
                      2)
  end.

(** [Series.median()]: absent cells are skipped; an object column that
    holds anything but numbers cannot be converted and raises. *)
Definition median (s : Series) : result value :=
  match s_dtype s with
  | float64 => Ok (median_numbers (numbers (s_values s)))
  | datetime64 => Ok (median_timestamps (timestamps (s_values s)))
  | object =>
      if forallb is_number_or_null (s_values s)
      then Ok (median_numbers (numbers (s_values s)))
      else Raise TypeError
  end.

Definition count_eq (v : value) (vs : list value) : nat :=
  length (filter (fun w => value_eqb v w = true) vs).

(** The distinct cells of a list, each at its first occurrence. *)
Fixpoint distinct (seen vs : list value) : list value :=
  match vs with
  | [] => []
  | v :: vs' =>
      if existsb (value_eqb v) seen then distinct seen vs'
      else v :: distinct (v :: seen) vs'
  end.

Definition max_count (vs : list value) : nat :=
  foldr Nat.max 0 (map (fun v => count_eq v vs) vs).

Definition homogeneous (vs : list value) : bool :=
  match vs with
  | [] => true
  | v :: vs' => forallb (same_kind v) vs'
  end.

(** [Series.mode()]: the present values of highest frequency.  pandas
    collects them in order of first occurrence and then sorts them
    ([np.sort]); values of different kinds cannot be compared, and are
    then left as collected. *)
Definition mode (s : Series) : list value :=
  let present := dropna (s_values s) in
  let top := max_count present in
  let modes :=
    filter (fun v => count_eq v present = top) (distinct [] present) in
  if homogeneous modes then merge_sort value_le modes else modes.

Definition kind_matches (d : dtype) (v : value) : bool :=
  match d, v with
  | float64, Num _ | datetime64, Ts _ | object, _ => true
  | _, NA => true
  | _, _ => false
  end.

(** [Series.fillna(fill)]: each absent cell becomes [fill]; filling with
    NaN / NaT changes nothing; a fill of another kind than the column's
    makes the column an object column. *)
Definition fillna (s : Series) (fill : value) : Series :=
  match fill with
  | NA => s
  | _ =>
      mkSeries
        (if kind_matches (s_dtype s) fill
            || negb (existsb isnull (s_values s))
         then s_dtype s else object)
        (map (fun v => if isnull v then fill else v) (s_values s))
  end.

(** One cell under [pd.to_datetime(..., errors='coerce')]: strings go
    through the parser, numbers are nanoseconds since the epoch, and
    whatever cannot be converted becomes NaT. *)
Definition to_timestamp (parse : string -> option Z) (v : value) : value :=
  match v with
  | NA => NA
  | Num q => Ts (Z.quot (Qnum q) (Z.pos (Qden q)))
  | Str x => match parse x with Some t => Ts t | None => NA end
  | Ts t => Ts t
  end.

(** [pd.to_datetime(s, errors='coerce')] where it converts cell by cell:
    one parser is applied to every string, a cell that does not parse
    becomes NaT, and the result is a datetime64 column.  This is the
    conversion of [Module AutoEda] and [Module Main]; the conversion as a
    function of the whole column, which may also return an object column
    or raise, is the parameter of [Module Conv]. *)
Definition to_datetime (parse : string -> option Z) (s : Series)
  : result Series :=
  Ok (mkSeries datetime64 (map (to_timestamp parse) (s_values s))).

(** [s.dt]: only a datetime column has the accessor. *)
Definition dt (s : Series) : result Series :=
  if dtype_eqb (s_dtype s) datetime64 then Ok s else Raise AttributeError.

(** [s.dt.strftime('%Y-%m-%d')]: NaT is rendered as NaN. *)
Definition dt_strftime (s : Series) : Series :=
  mkSeries object
    (map (fun v => match v with
                   | Ts t => Str (pydate.strftime_ymd t)
                   | _ => NA
                   end) (s_values s)).

(** [s.astype(str)] *)
Definition astype_str (py_str : value -> string) (s : Series) : Series :=
  mkSeries object
    (map (fun v => match v with Str x => Str x | _ => Str (py_str v) end)
         (s_values s)).

Definition str_map (f : string -> string) (s : Series) : Series :=
  mkSeries object
    (map (fun v => match v with Str x => Str (f x) | _ => NA end)
         (s_values s)).

(** [s.str.strip()] and [s.str.title()] *)
Definition str_strip : Series -> Series := str_map pystr.strip.
Definition str_title : Series -> Series := str_map pystr.title.

(** [s.nunique()]: the number of distinct present values. *)
Definition nunique (s : Series) : nat :=
  length (distinct [] (dropna (s_values s))).

(** [s.isnull().sum()] *)
Definition isnull_sum (s : Series) : nat := count_null (s_values s).

Definition is_numeric_dtype (s : Series) : bool :=
  dtype_eqb (s_dtype s) float64.

Definition is_datetime64_any_dtype (s : Series) : bool :=
  dtype_eqb (s_dtype s) datetime64.

(** [s.apply(f).all()] for a predicate [f] on cells. *)
Definition apply_all (f : value -> bool) (s : Series) : bool :=
  forallb f (s_values s).

End pd.

(** ** The pandas operations on tables *)

(** A DataFrame: the length of its index and its columns in order.  In a
    well-formed table every column has as many cells as the index. *)
Record DataFrame : Type :=
  mkDataFrame { df_len : nat; df_columns : list (string * Series) }.

Definition wf_frame (df : DataFrame) : Prop :=
  Forall (fun cs => length (s_values cs.2) = df_len df) (df_columns df).

Module frame.

Fixpoint lookup_col (cols : list (string * Series)) (col : string)
  : option Series :=
  match cols with
  | [] => None
  | (c, s) :: cols' => if String.eqb c col then Some s else lookup_col cols' col
  end.

Fixpoint set_col (cols : list (string * Series)) (col : string) (s : Series)
  : list (string * Series) :=
  match cols with
  | [] => [(col, s)]
  | (c, s0) :: cols' =>
      if String.eqb c col then (c, s) :: cols'
      else (c, s0) :: set_col cols' col s
  end.

(** [df[col]] *)
Definition getitem (df : DataFrame) (col : string) : result Series :=
  match lookup_col (df_columns df) col with
  | Some s => Ok s
  | None => Raise KeyError
  end.

(** [df[col] = s] *)
Definition setitem (df : DataFrame) (col : string) (s : Series) : DataFrame :=
  mkDataFrame (df_len df) (set_col (df_columns df) col s).

(** [len(df.columns)] *)
Definition ncols (df : DataFrame) : nat := length (df_columns df).

(** [df.empty]: some axis has length zero. *)
Definition empty (df : DataFrame) : bool :=
  (df_len df =? 0) || (ncols df =? 0).

Definition row (df : DataFrame) (i : nat) : list value :=
  map (fun cs => nth i (s_values cs.2) NA) (df_columns df).

Definition rows (df : DataFrame) : list (list value) :=
  map (row df) (seq 0 (df_len df)).

(** [df.isnull().sum()], per column, and its total [.sum()]. *)
Definition isnull_sum (df : DataFrame) : list (string * nat) :=
  map (fun cs => (cs.1, pd.isnull_sum cs.2)) (df_columns df).

Definition missing_total (df : DataFrame) : nat :=
  foldr Nat.add 0 (map snd (isnull_sum df)).

(** [df.isnull().sum(axis=1)], per row. *)
Definition isnull_sum_rows (df : DataFrame) : list nat :=
  map count_null (rows df).

Fixpoint duplicated_from (seen rs : list (list value)) : list bool :=
  match rs with
  | [] => []
  | r :: rs' => existsb (row_eqb r) seen :: duplicated_from (r :: seen) rs'
  end.

(** [df.duplicated()]: a row is marked when an earlier row has the same
    cells; a table with an axis of length zero gives an empty result. *)
Definition duplicated (df : DataFrame) : list bool :=
  if empty df then [] else duplicated_from [] (rows df).

(** [df.duplicated().sum()] *)
Definition duplicated_sum (df : DataFrame) : nat :=
  length (filter (fun b => b = true) (duplicated df)).

Fixpoint select {A} (mask : list bool) (xs : list A) : list A :=
  match mask, xs with
  | b :: mask', x :: xs' => if b then x :: select mask' xs' else select mask' xs'
  | _, _ => []
  end.

(** The rows whose mask bit is set, renumbered from zero. *)
Definition take (mask : list bool) (df : DataFrame) : DataFrame :=
  mkDataFrame
    (length (select mask (seq 0 (df_len df))))
    (map (fun cs => (cs.1, mkSeries (s_dtype cs.2) (select mask (s_values cs.2))))
         (df_columns df)).

(** [df.drop_duplicates(ignore_index=True)]: a new table. *)
Definition drop_duplicates (df : DataFrame) : DataFrame :=
  if empty df then df else take (map negb (duplicated df)) df.

(** [row_missing[row_missing > 0.5].index], where
    [row_missing = df.isnull().sum(axis=1) / len(df.columns)]. *)
Definition sparse_rows (df : DataFrame) : list nat :=
  select
    (map (fun k => pyfloat_ops.gt (pyfloat_ops.div k (ncols df)) (Fin (1 # 2)))
         (isnull_sum_rows df))
    (seq 0 (df_len df)).

(** [df.drop(labels, ignore_index=True)].  [DataFrame.drop] of the pandas
    releases up to 2.x has no keyword [ignore_index] and the call raises
    [TypeError]; with a [drop] that accepts it the labelled rows are
    removed and the rest renumbered.  [accepts_ignore_index] says which
    of the two the installed library does. *)
Definition drop (accepts_ignore_index : bool) (df : DataFrame)
  (labels : list nat) : result DataFrame :=
  if accepts_ignore_index
  then Ok (take (map (fun i => negb (existsb (Nat.eqb i) labels))
                     (seq 0 (df_len df))) df)
  else Raise TypeError.

(** Two rows of the table are exactly identical. *)
Definition has_identical_rows (df : DataFrame) : bool :=
  existsb (fun b => b) (duplicated_from [] (rows df)).

End frame.

(** ** The object store and the two levels of effects

    [M] computations act on the store of DataFrame objects and the output
    stream; [D] computations are the statements that read and assign the
    columns of one DataFrame object in place.  An exception leaves the
    mutations made so far in place. *)

Definition loc : Type := nat.

Record state : Type :=
  mkState { st_heap : list DataFrame; st_out : list event }.

Definition D (A : Type) : Type := DataFrame -> result A * DataFrame * list event.
Definition M (A : Type) : Type := state -> result A * state.

#[global] Instance D_ret : MRet D := fun A a df => (Ok a, df, []).
#[global] Instance D_bind : MBind D := fun A B f m df =>
  match m df with
  | (Ok a, df', out) =>
      let '(r, df'', out') := f a df' in (r, df'', (out ++ out')%list)
  | (Raise e, df', out) => (Raise e, df', out)
  end.

#[global] Instance M_ret : MRet M := fun A a st => (Ok a, st).
#[global] Instance M_bind : MBind M := fun A B f m st =>
  match m st with
  | (Ok a, st') => f a st'
  | (Raise e, st') => (Raise e, st')
  end.

Module eff.

(** [df[col]] on the object at hand. *)
Definition get (col : string) : D Series :=
  fun df => (frame.getitem df col, df, []).

(** [df[col] = s] on the object at hand. *)
Definition set (col : string) (s : Series) : D unit :=
  fun df => (Ok tt, frame.setitem df col s, []).

Definition emit (e : event) : D unit := fun df => (Ok tt, df, [e]).

Definition lift {A} (r : result A) : D A := fun df => (r, df, []).

(** [d[key]] on a Python dict. *)
Definition dict_get (d : gmap string (list string)) (key : string)
  : D (list string) :=
  lift (match d !! key with Some v => Ok v | None => Raise KeyError end).

(** [try: body except: handler] with a bare [except]. *)
Definition try_except {A} (body handler : D A) : D A :=
  fun df =>
    match body df with
    | (Ok a, df', out) => (Ok a, df', out)
    | (Raise _, df', out) =>
        let '(r, df'', out') := handler df' in (r, df'', (out ++ out')%list)
    end.

(** [for x in xs: body x] *)
Fixpoint for_each {A} (xs : list A) (body : A -> D unit) : D unit :=
  match xs with
  | [] => mret tt
  | x :: xs' => body x ;; for_each xs' body
  end.

Definition when (b : bool) (body : D unit) : D unit :=
  if b then body else mret tt.

(** A reference that is not in the store; Python cannot produce one. *)
Definition dangling {A} : M A := fun st => (Raise KeyError, st).

(** Allocation of a new DataFrame object. *)
Definition alloc (df : DataFrame) : M loc :=
  fun st =>
    (Ok (length (st_heap st)), mkState (st_heap st ++ [df])%list (st_out st)).

Definition read (l : loc) : M DataFrame :=
  fun st =>
    match st_heap st !! l with
    | Some df => (Ok df, st)
    | None => dangling st
    end.

Definition print (e : event) : M unit :=
  fun st => (Ok tt, mkState (st_heap st) (st_out st ++ [e])%list).

(** Statements that mutate the object at [l] in place. *)
Definition inplace {A} (l : loc) (body : D A) : M A :=
  fun st =>
    match st_heap st !! l with
    | Some df =>
        let '(r, df', out) := body df in
        (r, mkState (<[l := df']> (st_heap st)) (st_out st ++ out)%list)
    | None => dangling st
    end.

(** [df.copy()]: a new object with the same cells. *)
Definition copy (l : loc) : M loc := df ← read l; alloc df.

End eff.

(** ** The program *)

(** What [perform_eda] returns (the entries the claims are about). *)
Record eda_report : Type :=
  mkReport {
    shape : nat * nat;
    missing_values : list (string * nat);
    duplicates : nat;
    quality_score : pyfloat
  }.

(** The dict [{'numeric': [], 'datetime': [], 'categorical': [], 'text': []}]
    the detectors start from. *)
Definition empty_mapping : gmap string (list string) :=
  <["numeric" := []]> (<["datetime" := []]> (<["categorical" := []]>
    (<["text" := []]> ∅))).

(** [mapping[key].append(col)] *)
Definition mapping_append (key col : string) (m : gmap string (list string))
  : gmap string (list string) :=
  alter (fun cols => (cols ++ [col])%list) key m.

(** [isinstance(x, str) and len(x) < 50] *)
Definition short_str (x : value) : bool :=
  match x with
  | Str s => pystr.len s <? 50
  | _ => false
  end.

Definition lift_result {A} (r : result A) : M A := fun st => (r, st).

(** *** src/auto_eda_cleaner.py *)

Module AutoEda.

Section env.

Variable parse : string -> option Z.
Variable py_str : value -> string.
Variable drop_accepts_ignore_index : bool.

Definition perform_eda (df : DataFrame) : eda_report :=
  let missing := frame.isnull_sum df in
  let duplicates := frame.duplicated_sum df in
  let quality_score :=
    pyfloat_ops.scale
      (pyfloat_ops.sub (Fin 1)
         (pyfloat_ops.div (frame.missing_total df)
            (df_len df * frame.ncols df)))
      100 in
  let quality_score :=
    pyfloat_ops.sub quality_score
      (pyfloat_ops.scale (pyfloat_ops.div duplicates (df_len df)) 10) in
  let quality_score := pyfloat_ops.py_max (Fin 0) quality_score in
  mkReport (df_len df, frame.ncols df) missing duplicates quality_score.

(** The branch taken for one column [df[col]]. *)
Definition column_type (df : DataFrame) (s : Series) : string :=
  if pd.is_numeric_dtype s then "numeric"
  else if pd.is_datetime64_any_dtype s then "datetime"
  else
    match pd.to_datetime parse s with
    | Ok _ =>
        if pd.apply_all short_str s then "datetime" else "text"
    | Raise _ =>
        if pyfloat_ops.lt (Fin (inject_Z (Z.of_nat (pd.nunique s))))
             (pyfloat_ops.scale (Fin (inject_Z (Z.of_nat (df_len df))))
                (1 # 2))
        then "categorical" else "text"
    end.

Definition detect_column_types (df : DataFrame)
  : gmap string (list string) :=
  foldl (fun column_mapping cs =>
           mapping_append (column_type df cs.2) cs.1 column_mapping)
        empty_mapping (df_columns df).

(** Body of [for col in col_types['numeric']]. *)
Definition numeric_column (col : string) : D unit :=
  s ← eff.get col;
  let missing := pd.isnull_sum s in
  eff.when (0 <? missing)
    (s ← eff.get col;
     fill_value ← eff.lift (pd.median s);
     s ← eff.get col;
     eff.set col (pd.fillna s fill_value);;
     eff.emit (FilledNumeric col missing)).

(** Body of [for col in col_types['categorical']]. *)
Definition categorical_column (col : string) : D unit :=
  s ← eff.get col;
  let missing := pd.isnull_sum s in
  eff.when (0 <? missing)
    (s ← eff.get col;
     let mode_val := pd.mode s in
     let fill_value :=
       match mode_val with v :: _ => v | [] => Str "Unknown" end in
     s ← eff.get col;
     eff.set col (pd.fillna s fill_value);;
     eff.emit (FilledCategorical col missing fill_value));;
  s ← eff.get col;
  eff.when (dtype_eqb (s_dtype s) object)
    (s ← eff.get col;
     eff.set col (pd.str_title (pd.str_strip (pd.astype_str py_str s)))).

(** Body of [for col in col_types['datetime']]: the cells are counted
    as missing before they are parsed. *)
Definition datetime_column (col : string) : D unit :=
  s ← eff.get col;
  let missing := pd.isnull_sum s in
  eff.try_except
    (s ← eff.get col;
     parsed ← eff.lift (pd.to_datetime parse s);
     eff.set col parsed;;
     eff.when (0 <? missing)
       (s ← eff.get col;
        fill_value ← eff.lift (pd.median s);
        s ← eff.get col;
        eff.set col (pd.fillna s fill_value);;
        eff.emit (FilledDates col missing));;
     s ← eff.get col;
     eff.set col (pd.dt_strftime s))
    (eff.emit (CouldNotParse col)).

(** Body of [for col in col_types['text']]. *)
Definition text_column (col : string) : D unit :=
  s ← eff.get col;
  let missing := pd.isnull_sum s in
  eff.when (0 <? missing)
    (s ← eff.get col;
     eff.set col (pd.fillna s (Str "Unknown"));;
     eff.emit (FilledText col missing));;
  s ← eff.get col;
  eff.when (dtype_eqb (s_dtype s) object)
    (s ← eff.get col;
     eff.set col (pd.str_strip (pd.astype_str py_str s))).

(** Steps 2 to 5, all on the one deduplicated object. *)
Definition repair_columns (col_types : gmap string (list string)) : D unit :=
  cols ← eff.dict_get col_types "numeric";
  eff.for_each cols numeric_column;;
  cols ← eff.dict_get col_types "categorical";
  eff.for_each cols categorical_column;;
  cols ← eff.dict_get col_types "datetime";
  eff.for_each cols datetime_column;;
  cols ← eff.dict_get col_types "text";
  eff.for_each cols text_column.

(** The last step: rows where the majority of columns is missing. *)
Definition drop_sparse_rows (df : loc) : M loc :=
  d ← eff.read df;
  let rows_to_drop := frame.sparse_rows d in
  if 0 <? length rows_to_drop then
    d' ← lift_result (frame.drop drop_accepts_ignore_index d rows_to_drop);
    df ← eff.alloc d';
    eff.print (RemovedRows (length rows_to_drop));;
    mret df
  else mret df.

Definition auto_clean_dataset (df : loc) : M loc :=
  df ← eff.copy df;
  d ← eff.read df;
  let col_types := detect_column_types d in
  let duplicates_before := frame.duplicated_sum d in
  df ← eff.alloc (frame.drop_duplicates d);
  d ← eff.read df;
  let duplicates_removed := duplicates_before - frame.duplicated_sum d in
  (if 0 <? duplicates_removed
   then eff.print (RemovedDuplicates duplicates_removed) else mret tt);;
  eff.inplace df (repair_columns col_types);;
  drop_sparse_rows df.

End env.

End AutoEda.

(** *** src/main.py, class IntelligentDataCleaner

    [self.col_types] is passed to [clean_data] as an argument: it is what
    the last call of [detect_column_types] stored, or the empty dict of
    [__init__]. *)

Module Main.

Section env.

Variable parse : string -> option Z.
Variable py_str : value -> string.
Variable drop_accepts_ignore_index : bool.

Definition column_type (df : DataFrame) (s : Series) : string :=
  if pd.is_numeric_dtype s then "numeric"
  else if pd.is_datetime64_any_dtype s then "datetime"
  else
    match pd.to_datetime parse s with
    | Ok _ =>
        if pd.apply_all short_str s then "datetime" else "text"
    | Raise _ =>
        if pyfloat_ops.lt (Fin (inject_Z (Z.of_nat (pd.nunique s))))
             (pyfloat_ops.scale (Fin (inject_Z (Z.of_nat (df_len df))))
                (1 # 2))
        then "categorical" else "text"
    end.

Definition detect_column_types (df : DataFrame)
  : gmap string (list string) :=
  foldl (fun col_types cs =>
           mapping_append (column_type df cs.2) cs.1 col_types)
        empty_mapping (df_columns df).

Definition perform_eda (df : DataFrame) : eda_report :=
  let missing := frame.isnull_sum df in
  let duplicates := frame.duplicated_sum df in
  let quality_score :=
    pyfloat_ops.scale
      (pyfloat_ops.sub (Fin 1)
         (pyfloat_ops.div (frame.missing_total df)
            (df_len df * frame.ncols df)))
      100 in
  let quality_score :=
    pyfloat_ops.sub quality_score
      (pyfloat_ops.scale
         (pyfloat_ops.div duplicates (Nat.max (df_len df) 1)) 10) in
  let quality_score :=
    pyfloat_ops.py_max (Fin 0) (pyfloat_ops.py_min (Fin 100) quality_score) in
  mkReport (df_len df, frame.ncols df) missing duplicates quality_score.

Definition numeric_column (col : string) : D unit :=
  s ← eff.get col;
  let missing := pd.isnull_sum s in
  eff.when (0 <? missing)
    (s ← eff.get col;
     fill_val ← eff.lift (pd.median s);
     s ← eff.get col;
     eff.set col (pd.fillna s fill_val);;
     eff.emit (FilledNumeric col missing)).

Definition categorical_column (col : string) : D unit :=
  s ← eff.get col;
  let missing := pd.isnull_sum s in
  eff.when (0 <? missing)
    (s ← eff.get col;
     let mode_val := pd.mode s in
     let fill_val :=
       match mode_val with v :: _ => v | [] => Str "Unknown" end in
     s ← eff.get col;
     eff.set col (pd.fillna s fill_val);;
     eff.emit (FilledCategorical col missing fill_val));;
  s ← eff.get col;
  eff.when (dtype_eqb (s_dtype s) object)
    (s ← eff.get col;
     eff.set col (pd.str_title (pd.str_strip (pd.astype_str py_str s)))).

(** The cells are counted as missing after they are parsed, so a cell
    that does not parse counts. *)
Definition datetime_column (col : string) : D unit :=
  eff.try_except
    (s ← eff.get col;
     parsed ← eff.lift (pd.to_datetime parse s);
     eff.set col parsed;;
     s ← eff.get col;
     let missing := pd.isnull_sum s in
     eff.when (0 <? missing)
       (s ← eff.get col;
        fill_val ← eff.lift (pd.median s);
        s ← eff.get col;
        eff.set col (pd.fillna s fill_val));;
     s ← eff.get col;
     eff.set col (pd.dt_strftime s);;
     eff.when (0 <? missing) (eff.emit (FilledDates col missing)))
    (eff.emit (CouldNotParse col)).

Definition text_column (col : string) : D unit :=
  s ← eff.get col;
  let missing := pd.isnull_sum s in
  eff.when (0 <? missing)
    (s ← eff.get col;
     eff.set col (pd.fillna s (Str "Unknown"));;
     eff.emit (FilledText col missing));;
  s ← eff.get col;
  eff.when (dtype_eqb (s_dtype s) object)
    (s ← eff.get col;
     eff.set col (pd.str_strip (pd.astype_str py_str s))).

(** Steps 2 to 5, all on the one deduplicated object. *)
Definition repair_columns (col_types : gmap string (list string)) : D unit :=
  cols ← eff.dict_get col_types "numeric";
  eff.for_each cols numeric_column;;
  cols ← eff.dict_get col_types "categorical";
  eff.for_each cols categorical_column;;
  cols ← eff.dict_get col_types "datetime";
  eff.for_each cols datetime_column;;
  cols ← eff.dict_get col_types "text";
  eff.for_each cols text_column.

(** Step 6: rows with more than 50% missing. *)
Definition drop_sparse_rows (df : loc) : M loc :=
  d ← eff.read df;
  let rows_drop := frame.sparse_rows d in
  if 0 <? length rows_drop then
    d' ← lift_result (frame.drop drop_accepts_ignore_index d rows_drop);
    df ← eff.alloc d';
    eff.print (RemovedRows (length rows_drop));;
    mret df
  else mret df.

Definition clean_data (col_types : gmap string (list string)) (df : loc)
  : M loc :=
  df ← eff.copy df;
  d ← eff.read df;
  let duplicates := frame.duplicated_sum d in
  df ← eff.alloc (frame.drop_duplicates d);
  (if 0 <? duplicates
   then eff.print (RemovedDuplicates duplicates) else mret tt);;
  eff.inplace df (repair_columns col_types);;
  drop_sparse_rows df.

End env.

End Main.

(** ** The quantities the specification names *)

Module spec.

(** [clamp(lo, hi, x)] *)
Definition clamp (lo hi x : Q) : Q :=
  if Qlt_le_dec x lo then lo else if Qlt_le_dec hi x then hi else x.

Definition lower_clamp (lo x : Q) : Q := if Qlt_le_dec x lo then lo else x.

Definition ratio (a b : nat) : Q :=
  inject_Z (Z.of_nat a) / inject_Z (Z.of_nat b).

(** [total_absent_cells / (row_count * column_count)] *)
Definition missing_ratio (df : DataFrame) : Q :=
  ratio (frame.missing_total df) (df_len df * frame.ncols df).

(** [duplicate_row_count / row_count] *)
Definition duplicate_ratio (df : DataFrame) : Q :=
  ratio (frame.duplicated_sum df) (df_len df).

Definition raw_score (df : DataFrame) : Q :=
  (1 - missing_ratio df) * 100 - duplicate_ratio df * 10.

(** [clamp(0, 100, (1 - missing_ratio) * 100 - duplicate_ratio * 10)] *)
Definition quality_score (df : DataFrame) : Q := clamp 0 100 (raw_score df).

(** The mode with ties broken by first occurrence in row order. *)
Definition first_occurring_mode (vs : list value) : option value :=
  let present := pd.dropna vs in
  head (filter (fun v => pd.count_eq v present = pd.max_count present)
          (pd.distinct [] present)).

(** Row pruning against a snapshot: the rows of [filled] whose row in
    [snapshot] has at most half of its columns absent. *)
Definition prune_by_snapshot (snapshot filled : DataFrame) : DataFrame :=
  frame.take
    (map (fun k => negb (pyfloat_ops.gt
                           (pyfloat_ops.div k (frame.ncols snapshot))
                           (Fin (1 # 2))))
         (frame.isnull_sum_rows snapshot))
    filled.

(** The earlier of the two central values of an even number of
    timestamps. *)
Definition lower_median (ts : list Z) : option Z :=
  let sorted := merge_sort Z.le ts in
  sorted !! (length sorted / 2 - 1).

End spec.

(** The DataFrame a run returned, read from the final store. *)
Definition returned_frame (r : result loc * state) : option DataFrame :=
  match r.1 with
  | Ok l => st_heap r.2 !! l
  | Raise _ => None
  end.

(** A store holding the single table [df], and nothing printed yet. *)
Definition initial_state (df : DataFrame) : state := mkState [df] [].

(** [df[col]] of an optional table. *)
Definition column_of (df : option DataFrame) (col : string) : option Series :=
  match df with
  | Some d => frame.lookup_col (df_columns d) col
  | None => None
  end.

(** ** Auxiliary definitions used in the statements *)

Definition is_str (v : value) : Prop :=
  match v with Str _ => True | _ => False end.

(** A column of strings, some of them absent. *)
Definition strings_or_absent (s : Series) : Prop :=
  Forall (fun v => v = NA \/ is_str v) (s_values s).

(** The cells of a column after [pd.to_datetime(..., errors='coerce')]. *)
Definition parsed_cells (parse : string -> option Z) (s : Series) : list value :=
  map (pd.to_timestamp parse) (s_values s).

(** The events printed after deduplication. *)
Definition dedup_events (n : nat) : list event :=
  if 0 <? n then [RemovedDuplicates n] else [].

(** The outcome of the last step on the repaired table [d5] held in the
    store [h5] under the reference [at_ref]. *)
Definition prune_outcome (drop_accepts_ignore_index : bool)
  (h5 : list DataFrame) (out : list event) (at_ref : loc) (d5 : DataFrame)
  : result loc * state :=
  if 0 <? length (frame.sparse_rows d5) then
    match frame.drop drop_accepts_ignore_index d5 (frame.sparse_rows d5) with
    | Ok d6 =>
        (Ok (length h5),
         mkState (h5 ++ [d6])%list
           (out ++ [RemovedRows (length (frame.sparse_rows d5))])%list)
    | Raise e => (Raise e, mkState h5 out)
    end
  else (Ok at_ref, mkState h5 out).

(** The bit of a row with [k] absent cells: more than half of the columns
    are absent. *)
Definition sparse_bit (df : DataFrame) (k : nat) : bool :=
  pyfloat_ops.gt (pyfloat_ops.div k (frame.ncols df)) (Fin (1 # 2)).

Definition sparse_bits (df : DataFrame) : list bool :=
  map (sparse_bit df) (frame.isnull_sum_rows df).

(** A run started on the store [h] left every object of [h] as it was, and
    the table it returned is a new object. *)
Definition input_preserved (h : list DataFrame) (l : loc)
  (run : result loc * state) : Prop :=
  (forall l', l' < length h -> st_heap run.2 !! l' = h !! l')
  /\ st_heap run.2 !! l = h !! l
  /\ match run.1 with
     | Ok res => res <> l /\ length h <= res /\ is_Some (st_heap run.2 !! res)
     | Raise _ => True
     end.

(** ** Sample tables *)

Module samples.

Definition floats (vs : list value) : Series := mkSeries float64 vs.
Definition objects (vs : list value) : Series := mkSeries object vs.
Definition datetimes (vs : list value) : Series := mkSeries datetime64 vs.

(** A CSV file with a header line and no data line. *)
Definition header_only : DataFrame :=
  mkDataFrame 0 [("name", objects [])].

(** Six numeric columns; the second row has four of them absent. *)
Definition sparse : DataFrame :=
  mkDataFrame 3
    [("a", floats [Num 1; Num 7; Num 9]);
     ("b", floats [Num 2; Num 8; Num 10]);
     ("c", floats [Num 3; NA; Num 11]);
     ("d", floats [Num 4; NA; Num 12]);
     ("e", floats [Num 5; NA; Num 13]);
     ("f", floats [Num 6; NA; Num 14])].

Definition sparse_repaired : DataFrame :=
  mkDataFrame 3
    [("a", floats [Num 1; Num 7; Num 9]);
     ("b", floats [Num 2; Num 8; Num 10]);
     ("c", floats [Num 3; Num 7; Num 11]);
     ("d", floats [Num 4; Num 8; Num 12]);
     ("e", floats [Num 5; Num 9; Num 13]);
     ("f", floats [Num 6; Num 10; Num 14])].

(** A column of short strings none of which is a date. *)
Definition unparsed : DataFrame :=
  mkDataFrame 2
    [("id", floats [Num 1; Num 2]);
     ("when", objects [Str "hello"; Str "world"]);
     ("score", floats [Num 3; Num 4])].

(** ["B"] and ["A"] occur twice each, ["B"] first. *)
Definition grades : Series :=
  objects [Str "B"; Str "A"; Str "B"; Str "A"; NA].

Definition ties : DataFrame :=
  mkDataFrame 5
    [("id", floats [Num 1; Num 2; Num 3; Num 4; Num 5]); ("grade", grades)].

(** One distinct value in four rows; an all-absent object column; an
    all-absent float column. *)
Definition lowcard : DataFrame :=
  mkDataFrame 4
    [("x", objects [Str "x"; Str "x"; Str "x"; NA]);
     ("y", objects [NA; NA; NA; NA]);
     ("z", floats [NA; NA; NA; NA])].

Definition joined : Series :=
  objects [Str "2023-01-01"; Str "2023-01-03"; Str "not-a-date"].

Definition dates : DataFrame := mkDataFrame 3 [("joined", joined)].

(** 2023-01-01, 2023-01-03 and NaT in a native datetime column. *)
Definition joined64 : Series :=
  datetimes [Ts 1672531200000000000; Ts 1672704000000000000; NA].

Definition dates64 : DataFrame := mkDataFrame 3 [("joined", joined64)].

(** Two names that differ in a leading blank, and an absent one. *)
Definition spaces : DataFrame :=
  mkDataFrame 3 [("name", objects [Str " x"; Str "x"; NA])].

(** Two rows that differ in an absent cell. *)
Definition gaps : DataFrame :=
  mkDataFrame 2
    [("id", floats [Num 1; Num 1]); ("v", floats [NA; Num 5])].

Definition categorical_only (col : string) : gmap string (list string) :=
  <["categorical" := [col]]> empty_mapping.

Definition datetime_only (col : string) : gmap string (list string) :=
  <["datetime" := [col]]> empty_mapping.

End samples.

(** ** Further definitions for the statements on the remaining behaviour *)

(** The length of the index with the name and the length of every column,
    in order. *)
Definition frame_shape (df : DataFrame) : nat * list (string * nat) :=
  (df_len df, map (fun cs => (cs.1, length (s_values cs.2))) (df_columns df)).

(** [list(df.columns)] *)
Definition column_names (df : DataFrame) : list string :=
  map fst (df_columns df).

(** The class of a column as read off its dtype and its cells. *)
Definition dtype_class (s : Series) : string :=
  if pd.is_numeric_dtype s then "numeric"
  else if pd.is_datetime64_any_dtype s then "datetime"
  else if pd.apply_all short_str s then "datetime"
  else "text".

(** The names of the columns of one class, in column order. *)
Definition names_of_class (key : string) (df : DataFrame) : list string :=
  map fst (filter (fun cs => dtype_class cs.2 = key) (df_columns df)).

(** Every cell of the table is absent. *)
Definition all_absent (df : DataFrame) : Prop :=
  Forall (fun cs => Forall (fun v => v = NA) (s_values cs.2)) (df_columns df).

(** No cell of the column is absent. *)
Definition no_absent (s : Series) : Prop := NA ∉ s_values s.

(** The fill value of the categorical step for a column. *)
Definition categorical_fill (s : Series) : value :=
  match pd.mode s with v :: _ => v | [] => Str "Unknown" end.

(** A statement sequence leaves the shape of the table it runs on as it
    was, whether it ends normally or raises. *)
Definition keeps_shape {A} (m : D A) : Prop :=
  forall df, frame_shape (m df).1.2 = frame_shape df.

(** What a table obtained from [df] by removing rows keeps of it. *)
Definition rows_removed_from (df out : DataFrame) : Prop :=
  column_names out = column_names df
  /\ df_len out <= df_len df
  /\ (wf_frame df -> wf_frame out).

(** Every column of the list is in the table and has a numeric dtype. *)
Definition all_float (cols : list string) (df : DataFrame) : Prop :=
  forall col, col ∈ cols ->
    exists s, frame.getitem df col = Ok s /\ s_dtype s = float64.

(** A run that ends with a table, or with the [TypeError] of a
    [DataFrame.drop] that has no [ignore_index]. *)
Definition ends_without_key_error (flag : bool) (run : result loc * state)
  : Prop :=
  match run.1 with
  | Ok l => is_Some (st_heap run.2 !! l)
  | Raise e => e = TypeError /\ flag = false
  end.

(** The row view of columns given as lists of cells: row [i] holds the
    [i]-th cell of every column. *)
Definition rows_of (n : nat) (vals : list (list value)) : list (list value) :=
  map (fun i => map (fun vs => nth i vs NA) vals) (seq 0 n).

(** What the numeric step assigns to a float column. *)
Definition numeric_repair (s : Series) : Series :=
  if 0 <? pd.isnull_sum s
  then pd.fillna s (pd.median_numbers (pd.numbers (s_values s)))
  else s.

(** What the text step assigns to a column. *)
Definition text_repair (py_str : value -> string) (s : Series) : Series :=
  let filled :=
    if 0 <? pd.isnull_sum s then pd.fillna s (Str "Unknown") else s in
  if dtype_eqb (s_dtype filled) object
  then pd.str_strip (pd.astype_str py_str filled)
  else filled.

(** The repaired column, by the class the detector gave the column. *)
Definition repaired_by_class (date_repair : Series -> Series)
  (py_str : value -> string) (class : string) (s : Series) : Series :=
  if String.eqb class "numeric" then numeric_repair s
  else if String.eqb class "datetime" then date_repair s
  else text_repair py_str s.

(** The columns of [d'] are those of [d], the ones named in [cols] mapped
    by [G]. *)
Definition columns_mapped (G : string -> Series -> Series) (cols : list string)
  (d d' : DataFrame) : Prop :=
  forall c,
    frame.lookup_col (df_columns d') c
    = if bool_decide (c ∈ cols)
      then G c <$> frame.lookup_col (df_columns d) c
      else frame.lookup_col (df_columns d) c.

(** The four loops of steps 2 to 5 with the body of the date loop as a
    parameter; the two files differ in that body only. *)
Definition repair_columns_with (py_str : value -> string)
  (date_body : string -> D unit) (col_types : gmap string (list string))
  : D unit :=
  cols ← eff.dict_get col_types "numeric";
  eff.for_each cols Main.numeric_column;;
  cols ← eff.dict_get col_types "categorical";
  eff.for_each cols (Main.categorical_column py_str);;
  cols ← eff.dict_get col_types "datetime";
  eff.for_each cols date_body;;
  cols ← eff.dict_get col_types "text";
  eff.for_each cols (Main.text_column py_str).

Definition is_num (v : value) : bool :=
  match v with Num _ => true | _ => false end.

Definition is_ts (v : value) : bool :=
  match v with Ts _ => true | _ => false end.

(** The column holds a number. *)
Definition holds_number (s : Series) : bool := existsb is_num (s_values s).

(** No cell of the table is absent. *)
Definition complete (df : DataFrame) : Prop :=
  forall c s, frame.lookup_col (df_columns df) c = Some s -> NA ∉ s_values s.

(** ** Further sample tables *)

Module tables.

Definition long_note : string :=
  "a note of more than fifty characters, which makes the column a text column".

(** A float column with a gap, a column of short strings one of which is no
    date, and a column with a long string; the last row repeats the
    first. *)
Definition mixed : DataFrame :=
  mkDataFrame 4
    [("id", samples.floats [Num 1; NA; Num 3; Num 1]);
     ("joined",
      samples.objects
        [Str "2023-01-01"; Str "2023-01-05"; Str "soon"; Str "2023-01-01"]);
     ("note", samples.objects [Str long_note; NA; Str " x "; Str long_note])].

(** The same with dates only, and a native datetime column with a gap. *)
Definition dated : DataFrame :=
  mkDataFrame 4
    [("id", samples.floats [Num 1; NA; Num 3; Num 1]);
     ("joined",
      samples.objects
        [Str "2023-01-01"; Str "2023-01-05"; Str "2023-01-03";
         Str "2023-01-01"]);
     ("seen",
      samples.datetimes
        [Ts 1672531200000000000; NA; Ts 1672704000000000000;
         Ts 1672531200000000000]);
     ("note", samples.objects [Str long_note; NA; Str " x "; Str long_note])].

End tables.

(** ** The statements that call [pd.to_datetime], over the conversion

    [pd.to_datetime(s, errors='coerce')] is a function of the whole
    column: pandas infers one format from the first cell that is present
    and applies it to every cell, so an equal string may convert in one
    column and not in another; a column of strings with different UTC
    offsets comes back as an object column or makes the call raise,
    depending on the installed pandas.  In this module the conversion is a
    parameter, any function from a column to a column or an exception, and
    the statements of the two files that call it are written over it.  The
    other statements are those of [Module AutoEda] and [Module Main].

    [detect_column_types] has the same statements in the two files. *)

Module Conv.

Section env.

Variable to_datetime : Series -> result Series.
Variable py_str : value -> string.
Variable drop_accepts_ignore_index : bool.

(** The branch taken for one column [df[col]]: the conversion is called
    for its exceptions only, and its result is dropped. *)
Definition column_type (df : DataFrame) (s : Series) : string :=
  if pd.is_numeric_dtype s then "numeric"
  else if pd.is_datetime64_any_dtype s then "datetime"
  else
    match to_datetime s with
    | Ok _ =>
        if pd.apply_all short_str s then "datetime" else "text"
    | Raise _ =>
        if pyfloat_ops.lt (Fin (inject_Z (Z.of_nat (pd.nunique s))))
             (pyfloat_ops.scale (Fin (inject_Z (Z.of_nat (df_len df))))
                (1 # 2))
        then "categorical" else "text"
    end.

Definition detect_column_types (df : DataFrame)
  : gmap string (list string) :=
  foldl (fun col_types cs =>
           mapping_append (column_type df cs.2) cs.1 col_types)
        empty_mapping (df_columns df).

(** [auto_eda_cleaner.py], body of [for col in col_types['datetime']]:
    the column is read and its absent cells are counted before the [try];
    [.dt] raises on a column that is not a datetime column. *)
Definition auto_datetime_column (col : string) : D unit :=
  s ← eff.get col;
  let missing := pd.isnull_sum s in
  eff.try_except
    (s ← eff.get col;
     parsed ← eff.lift (to_datetime s);
     eff.set col parsed;;
     eff.when (0 <? missing)
       (s ← eff.get col;
        fill_value ← eff.lift (pd.median s);
        s ← eff.get col;
        eff.set col (pd.fillna s fill_value);;
        eff.emit (FilledDates col missing));;
     s ← eff.get col;
     dates ← eff.lift (pd.dt s);
     eff.set col (pd.dt_strftime dates))
    (eff.emit (CouldNotParse col)).

(** [main.py], body of [for col in self.col_types['datetime']]: every
    statement is inside the [try], and the absent cells are counted after
    the conversion. *)
Definition main_datetime_column (col : string) : D unit :=
  eff.try_except
    (s ← eff.get col;
     parsed ← eff.lift (to_datetime s);
     eff.set col parsed;;
     s ← eff.get col;
     let missing := pd.isnull_sum s in
     eff.when (0 <? missing)
       (s ← eff.get col;
        fill_val ← eff.lift (pd.median s);
        s ← eff.get col;
        eff.set col (pd.fillna s fill_val));;
     s ← eff.get col;
     dates ← eff.lift (pd.dt s);
     eff.set col (pd.dt_strftime dates);;
     eff.when (0 <? missing) (eff.emit (FilledDates col missing)))
    (eff.emit (CouldNotParse col)).

(** Steps 2 to 5 of [auto_clean_dataset]. *)
Definition auto_repair_columns (col_types : gmap string (list string))
  : D unit :=
  cols ← eff.dict_get col_types "numeric";
  eff.for_each cols AutoEda.numeric_column;;
  cols ← eff.dict_get col_types "categorical";
  eff.for_each cols (AutoEda.categorical_column py_str);;
  cols ← eff.dict_get col_types "datetime";
  eff.for_each cols auto_datetime_column;;
  cols ← eff.dict_get col_types "text";
  eff.for_each cols (AutoEda.text_column py_str).

(** Steps 2 to 5 of [clean_data]. *)
Definition main_repair_columns (col_types : gmap string (list string))
  : D unit :=
  cols ← eff.dict_get col_types "numeric";
  eff.for_each cols Main.numeric_column;;
  cols ← eff.dict_get col_types "categorical";
  eff.for_each cols (Main.categorical_column py_str);;
  cols ← eff.dict_get col_types "datetime";
  eff.for_each cols main_datetime_column;;
  cols ← eff.dict_get col_types "text";
  eff.for_each cols (Main.text_column py_str).

Definition auto_clean_dataset (df : loc) : M loc :=
  df ← eff.copy df;
  d ← eff.read df;
  let col_types := detect_column_types d in
  let duplicates_before := frame.duplicated_sum d in
  df ← eff.alloc (frame.drop_duplicates d);
  d ← eff.read df;
  let duplicates_removed := duplicates_before - frame.duplicated_sum d in
  (if 0 <? duplicates_removed
   then eff.print (RemovedDuplicates duplicates_removed) else mret tt);;
  eff.inplace df (auto_repair_columns col_types);;
  AutoEda.drop_sparse_rows drop_accepts_ignore_index df.

Definition clean_data (col_types : gmap string (list string)) (df : loc)
  : M loc :=
  df ← eff.copy df;
  d ← eff.read df;
  let duplicates := frame.duplicated_sum d in
  df ← eff.alloc (frame.drop_duplicates d);
  (if 0 <? duplicates
   then eff.print (RemovedDuplicates duplicates) else mret tt);;
  eff.inplace df (main_repair_columns col_types);;
  Main.drop_sparse_rows drop_accepts_ignore_index df.

End env.

End Conv.

(** ** Definitions for the statements over the conversion *)

(** A timestamp at midnight.  The nanosecond counts of such timestamps and
    of the midpoint of two of them are multiples of [2 ^ 15] below
    [2 ^ 68], which floating point holds exactly. *)
Definition at_midnight (t : Z) : Prop := (t mod pydate.ns_per_day = 0)%Z.

(** The column the date step assigns when the conversion returned the
    datetime64 column [parsed] and [missing] is the count the file
    tests. *)
Definition formatted_dates (missing : nat) (parsed : Series) : Series :=
  pd.dt_strftime
    (if 0 <? missing
     then pd.fillna parsed
            (pd.median_timestamps (pd.timestamps (s_values parsed)))
     else parsed).

(** What the date step of [main.py] assigns to a column that converts. *)
Definition main_date_repair (to_datetime : Series -> result Series)
  (s : Series) : Series :=
  match to_datetime s with
  | Ok parsed => formatted_dates (pd.isnull_sum parsed) parsed
  | Raise _ => s
  end.

(** What the date step of [auto_eda_cleaner.py] assigns to a column that
    converts. *)
Definition auto_date_repair (to_datetime : Series -> result Series)
  (s : Series) : Series :=
  match to_datetime s with
  | Ok parsed => formatted_dates (pd.isnull_sum s) parsed
  | Raise _ => s
  end.

(** The cells of a datetime64 column are timestamps or NaT. *)
Definition timestamps_or_absent (s : Series) : Prop :=
  forall v, v ∈ s_values s -> v = NA \/ exists t, v = Ts t.

(** The conversion of the column gives a datetime64 column, of timestamps
    and NaT, of the length of the column and with [ok]. *)
Definition converts_with (ok : Series -> Series -> bool)
  (to_datetime : Series -> result Series) (s : Series) : bool :=
  match to_datetime s with
  | Ok parsed =>
      dtype_eqb (s_dtype parsed) datetime64
      && (length (s_values parsed) =? length (s_values s))
      && forallb (fun v => isnull v || is_ts v) (s_values parsed)
      && ok s parsed
  | Raise _ => false
  end.

(** The call ended with an exception. *)
Definition raises {A} (r : result A) : bool :=
  match r with Ok _ => false | Raise _ => true end.

(** The names of the columns to which [cls] gives the class [key], in
    column order. *)
Definition names_by (cls : Series -> string) (key : string) (df : DataFrame)
  : list string :=
  map fst (filter (fun cs => cls cs.2 = key) (df_columns df)).

(** A cell that is absent or an integer of magnitude at most [2 ^ 52].  The
    sum of two such numbers and the half of it are exact in floating
    point, so the median taken on rationals is the median pandas takes. *)
Definition small_integer (v : value) : bool :=
  match v with
  | Num q =>
      (Z.rem (Qnum q) (Z.pos (Qden q)) =? 0)%Z
      && (Z.abs (Qnum q) <=? 2 ^ 52 * Z.pos (Qden q))%Z
  | _ => true
  end.

(** The numbers of the column are small integers. *)
Definition small_integers (s : Series) : bool :=
  forallb small_integer (s_values s).

(** The column holds a number, and its numbers are small integers. *)
Definition holds_small_integers (s : Series) : bool :=
  holds_number s && small_integers s.

(** Tests on a column [s] and the datetime64 column [parsed] that the
    conversion makes of it: a cell of [parsed] is a timestamp; [s] has an
    absent cell and [parsed] a timestamp, or no cell of [parsed] is absent;
    [parsed] has as many absent cells as [s]. *)
Definition holds_date (s parsed : Series) : bool :=
  existsb is_ts (s_values parsed).

Definition dated_or_absent (s parsed : Series) : bool :=
  if existsb isnull (s_values s) then existsb is_ts (s_values parsed)
  else negb (existsb isnull (s_values parsed)).

Definition no_cell_lost (s parsed : Series) : bool :=
  count_null (s_values parsed) =? count_null (s_values s).

(** Every column of the numeric class passes [numeric_ok], and every
    column of the date class, as deduplication leaves it, passes
    [date_ok].  The classes are those [detect_column_types] finds on the
    table. *)
Definition columns_ok (to_datetime : Series -> result Series)
  (numeric_ok date_ok : Series -> bool) (d : DataFrame) : bool :=
  forallb
    (fun cs =>
       let class := Conv.column_type to_datetime d cs.2 in
       if String.eqb class "numeric" then numeric_ok cs.2
       else if String.eqb class "datetime" then
         match frame.lookup_col (df_columns (frame.drop_duplicates d)) cs.1 with
         | Some s => date_ok s
         | None => false
         end
       else true)
    (df_columns d).

(** The conversion of the column raises, or gives a datetime64 column
    with [ok]. *)
Definition raises_or_converts_with (ok : Series -> Series -> bool)
  (to_datetime : Series -> result Series) (s : Series) : bool :=
  raises (to_datetime s) || converts_with ok to_datetime s.

Definition any_column (s : Series) : bool := true.

Definition any_conversion (s parsed : Series) : bool := true.

(** The timestamps of the converted column are at midnight. *)
Definition dates_at_midnight (s parsed : Series) : bool :=
  forallb (fun t => (t mod pydate.ns_per_day =? 0)%Z)
    (pd.timestamps (s_values parsed)).

(** A number [z / 2] with an integer [z] of magnitude at most [2 ^ 53]:
    floating point holds it exactly. *)
Definition exact_half (m : Q) : Prop :=
  exists z : Z, (2 * m == inject_Z z)%Q /\ (Z.abs z <= 2 ^ 53)%Z.

(** * Properties of the quality score *)

Section score.

Lemma ratio_nonneg (a b : nat) : (0 <= spec.ratio a b)%Q.
Proof.
  unfold spec.ratio. destruct b as [| b].
  - unfold Qdiv, Qinv. simpl. rewrite Qmult_0_r. apply Qle_refl.
  - apply Qle_shift_div_l.
    + change 0%Q with (inject_Z 0). rewrite <- Zlt_Qlt. lia.
    + rewrite Qmult_0_l. change 0%Q with (inject_Z 0).
      rewrite <- Zle_Qle. lia.
Qed.

Lemma div_pos (a b : nat) :
  0 < b -> pyfloat_ops.div a b = Fin (spec.ratio a b).
Proof. destruct b; [lia | reflexivity]. Qed.

Lemma raw_score_le_100 (df : DataFrame) : (spec.raw_score df <= 100)%Q.
Proof.
  unfold spec.raw_score.
  pose proof (ratio_nonneg (frame.missing_total df)
                (df_len df * frame.ncols df)) as Hm.
  pose proof (ratio_nonneg (frame.duplicated_sum df) (df_len df)) as Hd.
  unfold spec.missing_ratio, spec.duplicate_ratio. lra.
Qed.

Lemma clamp_is_lower_clamp (x : Q) :
  (x <= 100)%Q -> (spec.clamp 0 100 x == spec.lower_clamp 0 x)%Q.
Proof.
  intros Hx. unfold spec.clamp, spec.lower_clamp.
  destruct (Qlt_le_dec x 0); [reflexivity |].
  destruct (Qlt_le_dec 100 x); lra.
Qed.

(** The score of [main.py] on a table with rows and columns. *)
Lemma main_score_nonempty (df : DataFrame) :
  0 < df_len df -> 0 < frame.ncols df ->
  pyfloat_ops.eq (quality_score (Main.perform_eda df))
    (Fin (spec.quality_score df)).
Proof.
  intros Hr Hc.
  pose proof (raw_score_le_100 df) as Hle.
  unfold Main.perform_eda, spec.quality_score; simpl.
  replace (Nat.max (df_len df) 1) with (df_len df) by lia.
  rewrite !div_pos by lia. simpl.
  unfold spec.raw_score, spec.missing_ratio, spec.duplicate_ratio in *.
  set (m := spec.ratio _ _) in *. set (d := spec.ratio _ _) in *.
  unfold pyfloat_ops.py_min, pyfloat_ops.py_max, pyfloat_ops.lt,
    pyfloat_ops.gt, spec.clamp.
  repeat (destruct (Qlt_le_dec _ _); simpl); lra.
Qed.

(** The score of [auto_eda_cleaner.py] on a table with rows and
    columns. *)
Lemma auto_score_nonempty (df : DataFrame) :
  0 < df_len df -> 0 < frame.ncols df ->
  pyfloat_ops.eq (quality_score (AutoEda.perform_eda df))
    (Fin (spec.quality_score df)).
Proof.
  intros Hr Hc.
  pose proof (raw_score_le_100 df) as Hle.
  unfold AutoEda.perform_eda, spec.quality_score; simpl.
  rewrite !div_pos by lia. simpl.
  unfold spec.raw_score, spec.missing_ratio, spec.duplicate_ratio in *.
  set (m := spec.ratio _ _) in *. set (d := spec.ratio _ _) in *.
  unfold pyfloat_ops.py_max, pyfloat_ops.gt, spec.clamp.
  repeat (destruct (Qlt_le_dec _ _); simpl); lra.
Qed.

Lemma clamp_float_bounds (x : pyfloat) :
  exists q, pyfloat_ops.py_max (Fin 0) (pyfloat_ops.py_min (Fin 100) x) = Fin q
            /\ (0 <= q <= 100)%Q.
Proof.
  destruct x as [q | | |];
    unfold pyfloat_ops.py_max, pyfloat_ops.py_min, pyfloat_ops.lt,
      pyfloat_ops.gt.
  - destruct (Qlt_le_dec q 100); [destruct (Qlt_le_dec 0 q) |].
    + exists q; split; [reflexivity | lra].
    + exists 0%Q; split; [reflexivity | lra].
    + exists 100%Q; split; [reflexivity | lra].
  - exists 100%Q; split; [reflexivity | lra].
  - exists 0%Q; split; [reflexivity | lra].
  - exists 100%Q; split; [reflexivity | lra].
Qed.

(** On every table the score of [main.py] is a number between 0 and
    100. *)
Lemma main_score_bounds (df : DataFrame) :
  exists q, quality_score (Main.perform_eda df) = Fin q /\ (0 <= q <= 100)%Q.
Proof. apply clamp_float_bounds. Qed.

Lemma missing_total_no_columns (df : DataFrame) :
  frame.ncols df = 0 -> frame.missing_total df = 0.
Proof.
  unfold frame.ncols, frame.missing_total, frame.isnull_sum.
  destruct (df_columns df); [reflexivity | discriminate].
Qed.

Lemma missing_total_no_rows (df : DataFrame) :
  wf_frame df -> df_len df = 0 -> frame.missing_total df = 0.
Proof.
  unfold wf_frame, frame.missing_total, frame.isnull_sum. intros Hwf H0.
  induction Hwf as [| [c s] cols Hs _ IH]; [reflexivity |].
  simpl in *. rewrite IH, Nat.add_0_r.
  unfold pd.isnull_sum. rewrite H0 in Hs.
  destruct (s_values s); [reflexivity | discriminate].
Qed.

Lemma duplicated_sum_empty (df : DataFrame) :
  frame.empty df = true -> frame.duplicated_sum df = 0.
Proof.
  intros He. unfold frame.duplicated_sum, frame.duplicated.
  rewrite He. reflexivity.
Qed.

Lemma empty_cases (df : DataFrame) :
  df_len df = 0 \/ frame.ncols df = 0 -> frame.empty df = true.
Proof.
  unfold frame.empty. intros [H | H]; rewrite H; simpl;
    [reflexivity | apply orb_true_r].
Qed.

(** Before the clamp, the score of a table with no rows or no columns is
    [nan] in both files. *)
Lemma main_degenerate (df : DataFrame) :
  wf_frame df -> df_len df = 0 \/ frame.ncols df = 0 ->
  quality_score (Main.perform_eda df) = Fin 100.
Proof.
  intros Hwf Hdeg. unfold Main.perform_eda; simpl.
  rewrite (duplicated_sum_empty df (empty_cases df Hdeg)).
  assert (frame.missing_total df = 0) as ->
    by (destruct Hdeg; auto using missing_total_no_rows,
          missing_total_no_columns).
  assert (df_len df * frame.ncols df = 0) as -> by (destruct Hdeg; lia).
  reflexivity.
Qed.

Lemma auto_degenerate (df : DataFrame) :
  wf_frame df -> df_len df = 0 \/ frame.ncols df = 0 ->
  quality_score (AutoEda.perform_eda df) = Fin 0.
Proof.
  intros Hwf Hdeg. unfold AutoEda.perform_eda; simpl.
  rewrite (duplicated_sum_empty df (empty_cases df Hdeg)).
  assert (frame.missing_total df = 0) as ->
    by (destruct Hdeg; auto using missing_total_no_rows,
          missing_total_no_columns).
  assert (df_len df * frame.ncols df = 0) as -> by (destruct Hdeg; lia).
  simpl. destruct (pyfloat_ops.div 0 (df_len df)); reflexivity.
Qed.

(** On every well-formed table the score of [auto_eda_cleaner.py] is a
    number between 0 and 100. *)
Lemma auto_score_bounds (df : DataFrame) :
  wf_frame df ->
  exists q, quality_score (AutoEda.perform_eda df) = Fin q
            /\ (0 <= q <= 100)%Q.
Proof.
  intros Hwf.
  destruct (Nat.eq_dec (df_len df) 0) as [Hr | Hr];
    [| destruct (Nat.eq_dec (frame.ncols df) 0) as [Hc | Hc]].
  - exists 0%Q. rewrite auto_degenerate by auto. split; [reflexivity | lra].
  - exists 0%Q. rewrite auto_degenerate by auto. split; [reflexivity | lra].
  - pose proof (raw_score_le_100 df) as Hle.
    unfold AutoEda.perform_eda; simpl.
    rewrite !div_pos by lia. simpl.
    unfold spec.raw_score, spec.missing_ratio, spec.duplicate_ratio in Hle.
    set (m := spec.ratio _ _) in *. set (d := spec.ratio _ _) in *.
    unfold pyfloat_ops.py_max, pyfloat_ops.gt.
    destruct (Qlt_le_dec _ _).
    + eexists; split; [reflexivity | lra].
    + exists 0%Q; split; [reflexivity | lra].
Qed.

End score.

(** * Order and frequency lemmas *)

Section order.

Lemma ascii_compare_lt_trans (a b c : ascii) :
  Ascii.compare a b = Lt -> Ascii.compare b c = Lt -> Ascii.compare a c = Lt.
Proof.
  unfold Ascii.compare. rewrite !N.compare_lt_iff. apply N.lt_trans.
Qed.

Lemma str_compare_le_trans (s t u : string) :
  String.compare s t <> Gt -> String.compare t u <> Gt ->
  String.compare s u <> Gt.
Proof.
  revert t u. induction s as [| a s IH]; intros [| b t] [| c u]; simpl;
    try congruence.
  destruct (Ascii.compare a b) eqn:Hab; try congruence.
  - apply Ascii.compare_eq_iff in Hab. subst b.
    destruct (Ascii.compare a c) eqn:Hac; try congruence. apply IH.
  - destruct (Ascii.compare b c) eqn:Hbc; try congruence.
    + apply Ascii.compare_eq_iff in Hbc. subst c. rewrite Hab. congruence.
    + rewrite (ascii_compare_lt_trans a b c Hab Hbc). congruence.
Qed.

Lemma str_le_iff (s t : string) : pystr.le s t <-> String.compare s t <> Gt.
Proof.
  unfold pystr.le, String.leb. destruct (String.compare s t);
    split; congruence.
Qed.

#[global] Instance str_le_trans : Transitive pystr.le.
Proof.
  intros s t u. rewrite !str_le_iff. apply str_compare_le_trans.
Qed.

#[global] Instance str_le_total : Total pystr.le.
Proof. intros s t. apply String.leb_total. Qed.

#[global] Instance value_le_total : Total pd.value_le.
Proof.
  intros [| p | s | t] [| q | u | v]; simpl; auto.
  - destruct (Qlt_le_dec q p); [right | left]; auto using Qlt_le_weak.
  - apply String.leb_total.
  - lia.
Qed.

(** The head of a sorted list of strings is below every element. *)
Lemma sorted_strings_head (m : value) (l : list value) :
  Sorted pd.value_le (m :: l) -> Forall is_str (m :: l) ->
  Forall (pd.value_le m) l.
Proof.
  revert m. induction l as [| x l IH]; intros m Hs Hstr; [constructor |].
  apply Sorted_inv in Hs as [Hs Hhd]. apply HdRel_inv in Hhd.
  apply Forall_cons in Hstr as [Hm Hstr].
  pose proof Hstr as Hstr'. apply Forall_cons in Hstr' as [Hx _].
  constructor; [exact Hhd |].
  specialize (IH x Hs Hstr).
  eapply Forall_impl; [exact IH |]. intros w Hw.
  destruct m, x, w; simpl in *; try contradiction; try exact I.
  etransitivity; eassumption.
Qed.

Lemma value_eqb_str (v : value) (x : string) :
  value_eqb v (Str x) = true <-> v = Str x.
Proof.
  destruct v; simpl; try (split; congruence).
  rewrite String.eqb_eq. split; congruence.
Qed.

Lemma le_foldr_max {A} (f : A -> nat) (l : list A) (v : A) :
  v ∈ l -> f v <= foldr Nat.max 0 (map f l).
Proof. induction 1 as [v l | v w l _ IH]; simpl; lia. Qed.

Lemma foldr_max_attained {A} (f : A -> nat) (l : list A) :
  l <> [] -> exists v, v ∈ l /\ f v = foldr Nat.max 0 (map f l).
Proof.
  induction l as [| v l IH]; [congruence | intros _].
  destruct l as [| w l].
  - exists v. split; [left | simpl; lia].
  - destruct IH as (u & Hu & Hcount); [congruence |].
    simpl in *.
    destruct (Nat.max_spec (f v) (Nat.max (f w) (foldr Nat.max 0 (map f l))))
      as [[_ ->] | [_ ->]].
    + exists u. split; [right; exact Hu | exact Hcount].
    + exists v. split; [left | reflexivity].
Qed.

Lemma count_le_max_count (vs : list value) (v : value) :
  v ∈ vs -> pd.count_eq v vs <= pd.max_count vs.
Proof. apply (le_foldr_max (fun w => pd.count_eq w vs)). Qed.

Lemma max_count_attained (vs : list value) :
  vs <> [] -> exists v, v ∈ vs /\ pd.count_eq v vs = pd.max_count vs.
Proof. apply (foldr_max_attained (fun w => pd.count_eq w vs)). Qed.

Lemma distinct_subset (seen vs : list value) (v : value) :
  v ∈ pd.distinct seen vs -> v ∈ vs.
Proof.
  revert seen. induction vs as [| w l IH]; intros seen; simpl.
  - intros H. exact H.
  - destruct (existsb (value_eqb w) seen).
    + intros H. right. eapply IH, H.
    + intros H. apply elem_of_cons in H as [-> | H]; [left |].
      right. eapply IH, H.
Qed.

(** A string of the list is either already seen or kept. *)
Lemma distinct_keeps_str (seen vs : list value) (x : string) :
  Str x ∈ vs -> Str x ∈ seen \/ Str x ∈ pd.distinct seen vs.
Proof.
  revert seen. induction vs as [| w l IH]; intros seen; simpl.
  - intros H. apply elem_of_nil in H as [].
  - intros H. apply elem_of_cons in H as [<- | H].
    + destruct (existsb (value_eqb (Str x)) seen) eqn:He.
      * left. apply existsb_exists in He as (u & Hu & Heq).
        assert (u = Str x) as <-.
        { destruct u; simpl in Heq; try discriminate.
          apply String.eqb_eq in Heq. congruence. }
        apply list_elem_of_In, Hu.
      * right. left.
    + destruct (existsb (value_eqb w) seen) eqn:He.
      * apply IH, H.
      * destruct (IH (w :: seen) H) as [Hs | Hd].
        -- apply elem_of_cons in Hs as [<- | Hs]; [right; left | left; exact Hs].
        -- right. right. exact Hd.
Qed.

End order.

(** * The categorical fill value *)

Section mode.

Lemma dropna_strings (s : Series) :
  strings_or_absent s -> Forall is_str (pd.dropna (s_values s)).
Proof.
  unfold strings_or_absent, pd.dropna. intros H.
  apply Forall_forall. intros v Hv.
  apply list_elem_of_filter in Hv as [Hpresent Hv].
  rewrite Forall_forall in H. destruct (H v Hv) as [-> | Hs];
    [discriminate | exact Hs].
Qed.

Lemma elem_of_dropna_str (vs : list value) (x : string) :
  Str x ∈ pd.dropna vs <-> Str x ∈ vs.
Proof.
  unfold pd.dropna. rewrite list_elem_of_filter. simpl. tauto.
Qed.

Lemma homogeneous_strings (l : list value) :
  Forall is_str l -> pd.homogeneous l = true.
Proof.
  destruct l as [| v l]; [reflexivity |]. intros H.
  apply Forall_cons in H as [Hv Hl]. simpl.
  apply forallb_forall. intros w Hw.
  rewrite Forall_forall in Hl. apply list_elem_of_In, Hl in Hw.
  destruct v, w; simpl in *; try contradiction; reflexivity.
Qed.

(** On a column of strings, the first entry of [Series.mode()] is a most
    frequent string and is below every most frequent string in the
    order of [str]. *)
Lemma mode_head_least (s : Series) :
  strings_or_absent s ->
  (exists x, Str x ∈ s_values s) ->
  exists m,
    head (pd.mode s) = Some (Str m)
    /\ Str m ∈ s_values s
    /\ pd.count_eq (Str m) (pd.dropna (s_values s))
       = pd.max_count (pd.dropna (s_values s))
    /\ forall w,
        Str w ∈ s_values s ->
        pd.count_eq (Str w) (pd.dropna (s_values s))
        = pd.max_count (pd.dropna (s_values s)) ->
        pystr.le m w.
Proof.
  intros Hs [x Hx]. unfold pd.mode.
  set (present := pd.dropna (s_values s)).
  set (top := pd.max_count present).
  set (modes := filter (fun v => pd.count_eq v present = top)
                  (pd.distinct [] present)).
  pose proof (dropna_strings s Hs) as Hpresent. fold present in Hpresent.
  assert (Hin : forall w, Str w ∈ s_values s ->
                          pd.count_eq (Str w) present = top -> Str w ∈ modes).
  { intros w Hw Hc. apply list_elem_of_filter. split; [exact Hc |].
    destruct (distinct_keeps_str [] present w) as [Hn | Hd].
    - apply elem_of_dropna_str, Hw.
    - apply elem_of_nil in Hn as [].
    - exact Hd. }
  assert (Hmodes : Forall is_str modes).
  { apply Forall_forall. intros v Hv.
    apply list_elem_of_filter in Hv as [_ Hv].
    apply distinct_subset in Hv. rewrite Forall_forall in Hpresent. auto. }
  rewrite (homogeneous_strings modes Hmodes).
  pose proof (merge_sort_Permutation pd.value_le modes) as Hperm.
  pose proof (Sorted_merge_sort pd.value_le modes) as Hsorted.
  destruct (max_count_attained present) as (v & Hv & Hcount).
  { intros Hnil. apply elem_of_dropna_str in Hx. fold present in Hx.
    rewrite Hnil in Hx. apply elem_of_nil in Hx as []. }
  assert (is_str v) as Hvs by (rewrite Forall_forall in Hpresent; auto).
  destruct v as [| | y |]; try contradiction.
  assert (Str y ∈ modes) as Hy.
  { apply Hin; [| exact Hcount].
    apply (elem_of_dropna_str (s_values s) y), Hv. }
  destruct (merge_sort pd.value_le modes) as [| m0 rest] eqn:Hsort.
  { rewrite <- Hperm in Hy. apply elem_of_nil in Hy as []. }
  assert (m0 ∈ modes) as Hm0 by (rewrite <- Hperm; left).
  assert (Forall is_str (m0 :: rest)) as Hstrs by (rewrite Hperm; exact Hmodes).
  pose proof (sorted_strings_head m0 rest Hsorted Hstrs) as Hleast.
  destruct m0 as [| | m |];
    try (apply Forall_cons in Hstrs as [[] _]).
  exists m. apply list_elem_of_filter in Hm0 as [Hm0c Hm0d].
  split; [reflexivity |]. split.
  { apply distinct_subset in Hm0d. apply elem_of_dropna_str, Hm0d. }
  split; [exact Hm0c |].
  intros w Hw Hc. specialize (Hin w Hw Hc).
  rewrite <- Hperm in Hin. apply elem_of_cons in Hin as [Heq | Hrest].
  - inversion Heq; subst.
    destruct (String.leb_total m m) as [H | H]; exact H.
  - rewrite Forall_forall in Hleast. exact (Hleast (Str w) Hrest).
Qed.

End mode.

(** * Lemmas on item access and on the statements of one DataFrame *)

Section frame_lemmas.

Lemma lookup_set_col_eq (cols : list (string * Series)) (col : string)
  (s : Series) :
  frame.lookup_col (frame.set_col cols col s) col = Some s.
Proof.
  induction cols as [| [c s0] cols IH]; simpl.
  - rewrite String.eqb_refl. reflexivity.
  - destruct (String.eqb c col) eqn:E; simpl; rewrite E; auto.
Qed.

Lemma lookup_set_col_ne (cols : list (string * Series)) (c col : string)
  (s : Series) :
  c <> col ->
  frame.lookup_col (frame.set_col cols c s) col = frame.lookup_col cols col.
Proof.
  intros Hne. induction cols as [| [c0 s0] cols IH]; simpl.
  - apply String.eqb_neq in Hne. rewrite Hne. reflexivity.
  - destruct (String.eqb c0 c) eqn:E; simpl.
    + apply String.eqb_eq in E. subst c0.
      apply String.eqb_neq in Hne. rewrite Hne. reflexivity.
    + destruct (String.eqb c0 col); auto.
Qed.

Lemma set_col_set_col (cols : list (string * Series)) (col : string)
  (a b : Series) :
  frame.set_col (frame.set_col cols col a) col b = frame.set_col cols col b.
Proof.
  induction cols as [| [c s0] cols IH]; simpl.
  - rewrite String.eqb_refl. reflexivity.
  - destruct (String.eqb c col) eqn:E; simpl; rewrite E; congruence.
Qed.

Lemma getitem_setitem (df : DataFrame) (col : string) (s : Series) :
  frame.getitem (frame.setitem df col s) col = Ok s.
Proof.
  unfold frame.getitem, frame.setitem. simpl.
  rewrite lookup_set_col_eq. reflexivity.
Qed.

Lemma setitem_setitem (df : DataFrame) (col : string) (a b : Series) :
  frame.setitem (frame.setitem df col a) col b = frame.setitem df col b.
Proof.
  unfold frame.setitem. simpl. rewrite set_col_set_col. reflexivity.
Qed.

Lemma getitem_lookup (df : DataFrame) (col : string) (s : Series) :
  frame.getitem df col = Ok s <-> frame.lookup_col (df_columns df) col = Some s.
Proof.
  unfold frame.getitem. destruct (frame.lookup_col _ _); split; congruence.
Qed.

Lemma isnull_sum_pos (s : Series) :
  0 < pd.isnull_sum s <-> NA ∈ s_values s.
Proof.
  unfold pd.isnull_sum, count_null.
  induction (s_values s) as [| v l IH].
  - simpl. split; [lia | intros H; apply elem_of_nil in H as []].
  - rewrite filter_cons. destruct v; simpl.
    + split; [left | lia].
    + rewrite IH. split; [right; auto |].
      intros H. apply elem_of_cons in H as [H | H]; [discriminate | auto].
    + rewrite IH. split; [right; auto |].
      intros H. apply elem_of_cons in H as [H | H]; [discriminate | auto].
    + rewrite IH. split; [right; auto |].
      intros H. apply elem_of_cons in H as [H | H]; [discriminate | auto].
Qed.

End frame_lemmas.

(** Runs the statements of a [D] computation whose reads are known. *)
Ltac run_statements :=
  repeat first
    [ progress (unfold eff.get, eff.set, eff.emit, eff.lift, eff.when,
                eff.try_except, mbind, mret, D_bind, D_ret)
    | rewrite getitem_setitem
    | rewrite setitem_setitem
    | progress simpl ].

Section categorical_fill.

Variable py_str : value -> string.

Lemma categorical_column_same :
  AutoEda.categorical_column py_str = Main.categorical_column py_str.
Proof. reflexivity. Qed.

(** What the categorical step does to a column with absent cells, given
    the first entry [fill] of its mode. *)
Lemma categorical_column_fill (df : DataFrame) (col : string) (s : Series)
  (fill : value) :
  frame.getitem df col = Ok s ->
  s_dtype s = object ->
  0 < pd.isnull_sum s ->
  head (pd.mode s) = Some fill ->
  fill <> NA ->
  Main.categorical_column py_str col df
  = (Ok tt,
     frame.setitem df col
       (pd.str_title (pd.str_strip (pd.astype_str py_str (pd.fillna s fill)))),
     [FilledCategorical col (pd.isnull_sum s) fill]).
Proof.
  intros Hget Hobj Hmissing Hmode Hfill.
  unfold Main.categorical_column. run_statements. rewrite Hget.
  apply Nat.ltb_lt in Hmissing. rewrite Hmissing. simpl.
  rewrite Hget.
  destruct (pd.mode s) as [| v rest]; [discriminate |].
  simpl in Hmode. injection Hmode as ->.
  run_statements.
  assert (s_dtype (pd.fillna s fill) = object) as ->.
  { destruct fill; try congruence; simpl; rewrite Hobj; reflexivity. }
  run_statements. reflexivity.
Qed.

End categorical_fill.

Section datetime_fill.

Variable parse : string -> option Z.

Lemma median_timestamps_even (ts : list Z) (a b : Z) :
  let sorted := merge_sort Z.le ts in
  0 < length sorted ->
  Nat.even (length sorted) = true ->
  sorted !! (length sorted / 2 - 1) = Some a ->
  sorted !! (length sorted / 2) = Some b ->
  pd.median_timestamps ts = Ts (Z.quot (a + b) 2).
Proof.
  intros sorted Hpos Heven Ha Hb. unfold pd.median_timestamps.
  fold sorted. destruct (length sorted) as [| n] eqn:Hn; [lia |].
  rewrite <- Nat.negb_even, Heven. simpl negb. cbv iota.
  rewrite !nth_lookup, Ha, Hb. reflexivity.
Qed.

(** What the date step of [main.py] does when an even number of cells
    parse and some cell is absent after parsing. *)
Lemma main_datetime_column_even (df : DataFrame) (col : string) (s : Series)
  (a b : Z) :
  let sorted := merge_sort Z.le (pd.timestamps (parsed_cells parse s)) in
  frame.getitem df col = Ok s ->
  0 < length sorted ->
  Nat.even (length sorted) = true ->
  NA ∈ parsed_cells parse s ->
  sorted !! (length sorted / 2 - 1) = Some a ->
  sorted !! (length sorted / 2) = Some b ->
  Main.datetime_column parse col df
  = (Ok tt,
     frame.setitem df col
       (pd.dt_strftime
          (pd.fillna (mkSeries datetime64 (parsed_cells parse s))
             (Ts (Z.quot (a + b) 2%Z)))),
     [FilledDates col (count_null (parsed_cells parse s))]).
Proof.
  intros sorted Hget Hpos Heven Hna Ha Hb.
  unfold Main.datetime_column. run_statements. rewrite Hget.
  run_statements. fold (parsed_cells parse s).
  assert ((0 <? pd.isnull_sum (mkSeries datetime64 (parsed_cells parse s))) = true)
    as Hmissing by (apply Nat.ltb_lt, isnull_sum_pos, Hna).
  rewrite Hmissing. run_statements.
  unfold pd.median. simpl.
  rewrite (median_timestamps_even _ a b Hpos Heven Ha Hb).
  run_statements. reflexivity.
Qed.

(** The same for [auto_eda_cleaner.py], which fills only when a cell was
    absent before parsing. *)
Lemma auto_datetime_column_even (df : DataFrame) (col : string) (s : Series)
  (a b : Z) :
  let sorted := merge_sort Z.le (pd.timestamps (parsed_cells parse s)) in
  frame.getitem df col = Ok s ->
  0 < length sorted ->
  Nat.even (length sorted) = true ->
  NA ∈ s_values s ->
  sorted !! (length sorted / 2 - 1) = Some a ->
  sorted !! (length sorted / 2) = Some b ->
  AutoEda.datetime_column parse col df
  = (Ok tt,
     frame.setitem df col
       (pd.dt_strftime
          (pd.fillna (mkSeries datetime64 (parsed_cells parse s))
             (Ts (Z.quot (a + b) 2%Z)))),
     [FilledDates col (pd.isnull_sum s)]).
Proof.
  intros sorted Hget Hpos Heven Hna Ha Hb.
  unfold AutoEda.datetime_column. run_statements. rewrite Hget.
  run_statements. rewrite ?Hget. run_statements. fold (parsed_cells parse s).
  assert ((0 <? pd.isnull_sum s) = true)
    as Hmissing by (apply Nat.ltb_lt, isnull_sum_pos, Hna).
  rewrite Hmissing. run_statements.
  unfold pd.median. simpl.
  rewrite (median_timestamps_even _ a b Hpos Heven Ha Hb).
  run_statements. reflexivity.
Qed.

(** A cell that is absent after parsing is rendered as the formatted
    fill value. *)
Lemma filled_cell (cells : list value) (fill : Z) (i : nat) :
  cells !! i = Some NA ->
  s_values (pd.dt_strftime (pd.fillna (mkSeries datetime64 cells) (Ts fill)))
    !! i
  = Some (Str (pydate.strftime_ymd fill)).
Proof.
  intros Hi. simpl. rewrite map_map.
  change (map ?f cells) with (f <$> cells).
  rewrite list_lookup_fmap, Hi. reflexivity.
Qed.

Lemma parsed_cells_none (s : Series) :
  Forall (fun v => pd.to_timestamp parse v = NA) (s_values s) ->
  parsed_cells parse s = map (fun _ => NA) (s_values s).
Proof.
  unfold parsed_cells. induction 1 as [| v l Hv _ IH]; simpl; congruence.
Qed.

Lemma count_null_all_absent {A} (l : list A) :
  count_null (map (fun _ => NA) l) = length l.
Proof.
  unfold count_null. induction l as [| x l IH]; [reflexivity |].
  cbn [map]. rewrite filter_cons. simpl. rewrite IH. reflexivity.
Qed.

Lemma timestamps_all_absent {A} (l : list A) :
  pd.timestamps (map (fun _ => NA) l) = [].
Proof. unfold pd.timestamps. induction l; simpl; auto. Qed.

(** A date column in which no cell parses: [main.py] replaces every cell
    by an absent value and reports the cells as filled; no exception is
    raised and the handler of the [try] is not run. *)
Lemma main_datetime_column_none_parse (df : DataFrame) (col : string)
  (s : Series) :
  frame.getitem df col = Ok s ->
  s_values s <> [] ->
  Forall (fun v => pd.to_timestamp parse v = NA) (s_values s) ->
  Main.datetime_column parse col df
  = (Ok tt,
     frame.setitem df col (mkSeries object (map (fun _ => NA) (s_values s))),
     [FilledDates col (length (s_values s))]).
Proof.
  intros Hget Hne Hnone.
  unfold Main.datetime_column. run_statements. rewrite Hget.
  run_statements. fold (parsed_cells parse s).
  rewrite (parsed_cells_none s Hnone).
  unfold pd.isnull_sum. simpl. rewrite count_null_all_absent.
  assert ((0 <? length (s_values s)) = true) as ->.
  { apply Nat.ltb_lt. destruct (s_values s); [congruence | simpl; lia]. }
  run_statements. unfold pd.median. simpl.
  rewrite timestamps_all_absent. simpl. run_statements.
  unfold pd.dt_strftime. simpl. rewrite map_map. reflexivity.
Qed.

End datetime_fill.
(** * The date steps over the conversion, in closed form *)

Section conv_dates.

Variable to_datetime : Series -> result Series.

Lemma fillna_median_dtype (parsed : Series) :
  s_dtype parsed = datetime64 ->
  s_dtype
    (pd.fillna parsed (pd.median_timestamps (pd.timestamps (s_values parsed))))
  = datetime64.
Proof.
  intros Hdt. unfold pd.median_timestamps.
  destruct (length (merge_sort Z.le _)); [exact Hdt |].
  destruct (Nat.odd _); simpl; rewrite Hdt; reflexivity.
Qed.

Lemma dt_datetime64 (s : Series) : s_dtype s = datetime64 -> pd.dt s = Ok s.
Proof. intros H. unfold pd.dt. rewrite H. reflexivity. Qed.

(** The date step of [main.py] on a column that the conversion turns into
    a datetime64 column. *)
Lemma conv_main_datetime_column_ok (col : string) (df : DataFrame)
  (s parsed : Series) :
  frame.getitem df col = Ok s ->
  to_datetime s = Ok parsed ->
  s_dtype parsed = datetime64 ->
  Conv.main_datetime_column to_datetime col df
  = (Ok tt,
     frame.setitem df col (formatted_dates (pd.isnull_sum parsed) parsed),
     if 0 <? pd.isnull_sum parsed
     then [FilledDates col (pd.isnull_sum parsed)] else []).
Proof.
  intros Hget Hconv Hdt. unfold Conv.main_datetime_column, formatted_dates.
  run_statements. rewrite Hget. run_statements. rewrite Hconv.
  run_statements.
  destruct (0 <? pd.isnull_sum parsed) eqn:Hmissing; run_statements.
  - unfold pd.median. rewrite Hdt. run_statements.
    rewrite (dt_datetime64 _ (fillna_median_dtype parsed Hdt)).
    run_statements. reflexivity.
  - rewrite (dt_datetime64 _ Hdt). run_statements. reflexivity.
Qed.

(** The date step of [auto_eda_cleaner.py] on such a column. *)
Lemma conv_auto_datetime_column_ok (col : string) (df : DataFrame)
  (s parsed : Series) :
  frame.getitem df col = Ok s ->
  to_datetime s = Ok parsed ->
  s_dtype parsed = datetime64 ->
  Conv.auto_datetime_column to_datetime col df
  = (Ok tt,
     frame.setitem df col (formatted_dates (pd.isnull_sum s) parsed),
     if 0 <? pd.isnull_sum s then [FilledDates col (pd.isnull_sum s)] else []).
Proof.
  intros Hget Hconv Hdt. unfold Conv.auto_datetime_column, formatted_dates.
  run_statements. rewrite Hget. run_statements. rewrite ?Hget.
  run_statements. rewrite Hconv. run_statements.
  destruct (0 <? pd.isnull_sum s) eqn:Hmissing; run_statements.
  - unfold pd.median. rewrite Hdt. run_statements.
    rewrite (dt_datetime64 _ (fillna_median_dtype parsed Hdt)).
    run_statements. reflexivity.
  - rewrite (dt_datetime64 _ Hdt). run_statements. reflexivity.
Qed.

(** A conversion that raises is caught in both files: the table is as it
    was. *)
Lemma conv_datetime_column_raise (col : string) (df : DataFrame) (s : Series)
  (e : exn) :
  frame.getitem df col = Ok s ->
  to_datetime s = Raise e ->
  Conv.main_datetime_column to_datetime col df
  = (Ok tt, df, [CouldNotParse col])
  /\ Conv.auto_datetime_column to_datetime col df
     = (Ok tt, df, [CouldNotParse col]).
Proof.
  intros Hget Hconv. split.
  - unfold Conv.main_datetime_column. run_statements. rewrite Hget.
    run_statements. rewrite Hconv. reflexivity.
  - unfold Conv.auto_datetime_column. run_statements. rewrite Hget.
    run_statements. rewrite ?Hget. run_statements. rewrite Hconv.
    reflexivity.
Qed.

(** A column without absent cells that the conversion turns into a column
    of another dtype, without absent cells either: no fill is tried, [.dt]
    raises after the assignment, and the converted column stays. *)
Lemma conv_datetime_column_other_dtype (col : string) (df : DataFrame)
  (s parsed : Series) :
  frame.getitem df col = Ok s ->
  to_datetime s = Ok parsed ->
  s_dtype parsed <> datetime64 ->
  (pd.isnull_sum parsed = 0 ->
   Conv.main_datetime_column to_datetime col df
   = (Ok tt, frame.setitem df col parsed, [CouldNotParse col]))
  /\ (pd.isnull_sum s = 0 ->
      Conv.auto_datetime_column to_datetime col df
      = (Ok tt, frame.setitem df col parsed, [CouldNotParse col])).
Proof.
  intros Hget Hconv Hdt.
  assert (pd.dt parsed = Raise AttributeError) as Hraise.
  { unfold pd.dt. destruct (s_dtype parsed); try reflexivity. congruence. }
  split; intros Hzero.
  - unfold Conv.main_datetime_column. run_statements. rewrite Hget.
    run_statements. rewrite Hconv. run_statements. rewrite Hzero.
    run_statements. rewrite Hraise. reflexivity.
  - unfold Conv.auto_datetime_column. run_statements. rewrite Hget.
    run_statements. rewrite ?Hget. run_statements. rewrite Hconv.
    run_statements. rewrite Hzero. run_statements. rewrite Hraise.
    reflexivity.
Qed.

Lemma midnight_sum_even (a b : Z) :
  at_midnight a -> at_midnight b ->
  (2 * Z.quot (a + b) 2 = a + b)%Z.
Proof.
  unfold at_midnight, pydate.ns_per_day. intros Ha Hb.
  Z.to_euclidean_division_equations. lia.
Qed.

End conv_dates.

(** * A run of the cleaner on the store *)

Section store.

Variable parse : string -> option Z.
Variable py_str : value -> string.
Variable drop_accepts_ignore_index : bool.

Lemma lookup_snoc (h : list DataFrame) (d : DataFrame) :
  (h ++ [d])%list !! length h = Some d.
Proof. apply list_lookup_middle. reflexivity. Qed.

Lemma lookup_snoc2 (h : list DataFrame) (a b : DataFrame) :
  (h ++ [a; b])%list !! S (length h) = Some b.
Proof.
  change (h ++ [a; b])%list with (h ++ [a] ++ [b])%list.
  rewrite app_assoc. rewrite <- (lookup_snoc (h ++ [a]) b).
  rewrite length_app. simpl. f_equal. lia.
Qed.

Lemma insert_snoc2 (h : list DataFrame) (a b x : DataFrame) :
  <[S (length h) := x]> (h ++ [a; b])%list = (h ++ [a; x])%list.
Proof.
  rewrite insert_app_r_alt by lia.
  replace (S (length h) - length h) with 1 by lia. reflexivity.
Qed.

Lemma main_drop_sparse_rows_run (h : list DataFrame) (out : list event)
  (l : loc) (d5 : DataFrame) :
  h !! l = Some d5 ->
  Main.drop_sparse_rows drop_accepts_ignore_index l (mkState h out)
  = prune_outcome drop_accepts_ignore_index h out l d5.
Proof.
  intros Hl. unfold Main.drop_sparse_rows, prune_outcome, mbind, M_bind,
    eff.read, lift_result, eff.alloc, eff.print, mret, M_ret. simpl.
  rewrite Hl.
  destruct (0 <? length (frame.sparse_rows d5)); [| reflexivity].
  destruct (frame.drop _ _ _); reflexivity.
Qed.

(** A run of [clean_data] in terms of the statements on the
    deduplicated copy: the caller's object at [l] is read once, two new
    objects are allocated behind the store, and a third when rows are
    dropped. *)
Lemma main_clean_data_run (col_types : gmap string (list string))
  (h : list DataFrame) (out : list event) (l : loc) (d : DataFrame) :
  h !! l = Some d ->
  Main.clean_data parse py_str drop_accepts_ignore_index col_types l
    (mkState h out)
  = let '(r, d5, out5) :=
      Main.repair_columns parse py_str col_types (frame.drop_duplicates d) in
    let h5 := (h ++ [d; d5])%list in
    let out' :=
      ((out ++ dedup_events (frame.duplicated_sum d)) ++ out5)%list in
    match r with
    | Ok _ => prune_outcome drop_accepts_ignore_index h5 out' (S (length h)) d5
    | Raise e => (Raise e, mkState h5 out')
    end.
Proof.
  intros Hl.
  unfold Main.clean_data, eff.copy, mbind, M_bind, eff.read, eff.alloc.
  simpl. rewrite Hl. simpl. rewrite lookup_snoc.
  assert (forall h' o',
    (if 0 <? frame.duplicated_sum d
     then eff.print (RemovedDuplicates (frame.duplicated_sum d))
     else mret ()) (mkState h' o')
    = (Ok tt, mkState h' (o' ++ dedup_events (frame.duplicated_sum d))%list))
    as Hprint.
  { intros h' o'. unfold dedup_events.
    destruct (0 <? frame.duplicated_sum d); simpl.
    - reflexivity.
    - unfold mret, M_ret. rewrite app_nil_r. reflexivity. }
  rewrite Hprint. unfold eff.inplace. simpl.
  rewrite length_app. simpl. rewrite Nat.add_1_r.
  rewrite <- app_assoc. simpl. rewrite lookup_snoc2.
  destruct (Main.repair_columns parse py_str col_types
              (frame.drop_duplicates d)) as [[r d5] out5].
  rewrite insert_snoc2. destruct r as [[] | e]; [| reflexivity].
  apply main_drop_sparse_rows_run, lookup_snoc2.
Qed.

Lemma auto_drop_sparse_rows_run (h : list DataFrame) (out : list event)
  (l : loc) (d5 : DataFrame) :
  h !! l = Some d5 ->
  AutoEda.drop_sparse_rows drop_accepts_ignore_index l (mkState h out)
  = prune_outcome drop_accepts_ignore_index h out l d5.
Proof. apply main_drop_sparse_rows_run. Qed.

(** A run of [auto_clean_dataset]; the column types are detected on the
    copy, before deduplication. *)
Lemma auto_clean_dataset_run (h : list DataFrame) (out : list event)
  (l : loc) (d : DataFrame) :
  h !! l = Some d ->
  AutoEda.auto_clean_dataset parse py_str drop_accepts_ignore_index l
    (mkState h out)
  = let '(r, d5, out5) :=
      AutoEda.repair_columns parse py_str
        (AutoEda.detect_column_types parse d) (frame.drop_duplicates d) in
    let h5 := (h ++ [d; d5])%list in
    let out' :=
      ((out ++ dedup_events
                 (frame.duplicated_sum d
                  - frame.duplicated_sum (frame.drop_duplicates d)))
         ++ out5)%list in
    match r with
    | Ok _ => prune_outcome drop_accepts_ignore_index h5 out' (S (length h)) d5
    | Raise e => (Raise e, mkState h5 out')
    end.
Proof.
  intros Hl.
  unfold AutoEda.auto_clean_dataset, eff.copy, mbind, M_bind, eff.read,
    eff.alloc.
  simpl. rewrite Hl. simpl. rewrite lookup_snoc.
  cbn [st_heap st_out]. rewrite lookup_snoc.
  rewrite length_app. simpl. rewrite Nat.add_1_r.
  rewrite <- app_assoc. simpl.
  set (n := frame.duplicated_sum d
            - frame.duplicated_sum (frame.drop_duplicates d)).
  assert (forall h' o',
    (if 0 <? n then eff.print (RemovedDuplicates n) else mret ())
      (mkState h' o')
    = (Ok tt, mkState h' (o' ++ dedup_events n)%list)) as Hprint.
  { intros h' o'. unfold dedup_events.
    destruct (0 <? n); simpl.
    - reflexivity.
    - unfold mret, M_ret. rewrite app_nil_r. reflexivity. }
  rewrite Hprint. unfold eff.inplace. simpl. rewrite lookup_snoc2.
  destruct (AutoEda.repair_columns parse py_str
              (AutoEda.detect_column_types parse d)
              (frame.drop_duplicates d)) as [[r d5] out5].
  rewrite insert_snoc2. destruct r as [[] | e]; [| reflexivity].
  apply auto_drop_sparse_rows_run, lookup_snoc2.
Qed.

Lemma prune_outcome_preserves (h : list DataFrame) (a d5 : DataFrame)
  (out : list event) (l : loc) :
  l < length h ->
  input_preserved h l
    (prune_outcome drop_accepts_ignore_index (h ++ [a; d5])%list out
       (S (length h)) d5).
Proof.
  intros Hl. unfold prune_outcome, input_preserved.
  destruct (0 <? length (frame.sparse_rows d5));
    [destruct (frame.drop _ _ _) as [d6 | e] |]; simpl.
  - split; [| split].
    + intros l' Hl'. rewrite !lookup_app_l; [reflexivity | lia |].
      rewrite length_app. simpl. lia.
    + rewrite !lookup_app_l; [reflexivity | lia |].
      rewrite length_app. simpl. lia.
    + split; [rewrite length_app; simpl; lia |].
      split; [rewrite length_app; simpl; lia |].
      rewrite lookup_snoc. eauto.
  - split; [| split; [| exact I]].
    + intros l' Hl'. rewrite lookup_app_l by lia. reflexivity.
    + rewrite lookup_app_l by lia. reflexivity.
  - split; [| split].
    + intros l' Hl'. rewrite lookup_app_l by lia. reflexivity.
    + rewrite lookup_app_l by lia. reflexivity.
    + split; [lia | split; [lia |]]. rewrite lookup_snoc2. eauto.
Qed.

Lemma raise_preserves (h : list DataFrame) (a d5 : DataFrame)
  (out : list event) (l : loc) (e : exn) :
  l < length h ->
  input_preserved h l (Raise e, mkState (h ++ [a; d5])%list out).
Proof.
  intros Hl. unfold input_preserved. simpl. split; [| split; [| exact I]].
  - intros l' Hl'. rewrite lookup_app_l by lia. reflexivity.
  - rewrite lookup_app_l by lia. reflexivity.
Qed.

Lemma main_clean_data_preserves (col_types : gmap string (list string))
  (h : list DataFrame) (out : list event) (l : loc) (d : DataFrame) :
  h !! l = Some d ->
  input_preserved h l
    (Main.clean_data parse py_str drop_accepts_ignore_index col_types l
       (mkState h out)).
Proof.
  intros Hl. rewrite (main_clean_data_run col_types h out l d Hl).
  pose proof (lookup_lt_Some _ _ _ Hl) as Hlt.
  destruct (Main.repair_columns _ _ _ _) as [[[[] | e] d5] out5].
  - apply prune_outcome_preserves, Hlt.
  - apply raise_preserves, Hlt.
Qed.

Lemma auto_clean_dataset_preserves (h : list DataFrame) (out : list event)
  (l : loc) (d : DataFrame) :
  h !! l = Some d ->
  input_preserved h l
    (AutoEda.auto_clean_dataset parse py_str drop_accepts_ignore_index l
       (mkState h out)).
Proof.
  intros Hl. rewrite (auto_clean_dataset_run h out l d Hl).
  pose proof (lookup_lt_Some _ _ _ Hl) as Hlt.
  destruct (AutoEda.repair_columns _ _ _ _) as [[[[] | e] d5] out5].
  - apply prune_outcome_preserves, Hlt.
  - apply raise_preserves, Hlt.
Qed.

End store.

(** * Which rows the last step selects *)

Section prune.

Lemma elem_of_select_seq (bits : list bool) (a i : nat) :
  i ∈ frame.select bits (seq a (length bits))
  <-> exists j, i = a + j /\ bits !! j = Some true.
Proof.
  revert a. induction bits as [| b bits IH]; intros a; simpl.
  - split; [intros H; apply elem_of_nil in H as [] |].
    intros (j & _ & Hj). discriminate.
  - destruct b.
    + rewrite elem_of_cons, IH. split.
      * intros [-> | (j & -> & Hj)].
        -- exists 0. split; [lia | reflexivity].
        -- exists (S j). split; [lia | exact Hj].
      * intros ([| j] & -> & Hj).
        -- left. lia.
        -- right. exists j. split; [lia | exact Hj].
    + rewrite IH. split.
      * intros (j & -> & Hj). exists (S j). split; [lia | exact Hj].
      * intros ([| j] & -> & Hj); [discriminate |].
        exists j. split; [lia | exact Hj].
Qed.

Lemma sparse_bits_length (df : DataFrame) :
  length (sparse_bits df) = df_len df.
Proof.
  unfold sparse_bits, frame.isnull_sum_rows, frame.rows.
  rewrite !length_map, length_seq. reflexivity.
Qed.

Lemma sparse_bits_lookup (df : DataFrame) (i : nat) :
  sparse_bits df !! i
  = if decide (i < df_len df)
    then Some (sparse_bit df (count_null (frame.row df i))) else None.
Proof.
  unfold sparse_bits, frame.isnull_sum_rows, frame.rows.
  change (map ?f ?l) with (f <$> l).
  rewrite !list_lookup_fmap.
  destruct (decide (i < df_len df)) as [Hlt | Hge].
  - rewrite lookup_seq_lt by exact Hlt. reflexivity.
  - rewrite lookup_seq_ge by lia. reflexivity.
Qed.

Lemma sparse_rows_bits (df : DataFrame) :
  frame.sparse_rows df
  = frame.select (sparse_bits df) (seq 0 (length (sparse_bits df))).
Proof. rewrite sparse_bits_length. reflexivity. Qed.

Lemma half_lt_ratio (k n : nat) :
  0 < n -> (((1 # 2) < spec.ratio k n)%Q <-> n < 2 * k).
Proof.
  intros Hn. unfold spec.ratio.
  set (a := Z.of_nat k). set (b := Z.of_nat n).
  assert (0 < b)%Z as Hb by (unfold b; lia).
  assert (0 < inject_Z b)%Q as Hpos.
  { change 0%Q with (inject_Z 0). rewrite <- Zlt_Qlt. exact Hb. }
  assert (((1 # 2) * inject_Z b < inject_Z a)%Q <-> n < 2 * k) as Hz.
  { unfold Qlt, Qmult, inject_Z. simpl Qnum. simpl Qden.
    unfold a, b. split; intros H; lia. }
  split.
  - intros H. apply Hz.
    destruct (Qlt_le_dec ((1 # 2) * inject_Z b) (inject_Z a)) as [Hlt | Hle];
      [exact Hlt |].
    exfalso. apply (Qlt_not_le _ _ H).
    apply Qle_shift_div_r; assumption.
  - intros H. apply Qlt_shift_div_l; [exact Hpos | apply Hz, H].
Qed.

Lemma sparse_bit_spec (df : DataFrame) (k : nat) :
  k <= frame.ncols df ->
  (sparse_bit df k = true <-> frame.ncols df < 2 * k).
Proof.
  intros Hk. unfold sparse_bit.
  destruct (frame.ncols df) as [| n] eqn:Hn.
  - assert (k = 0) as -> by lia. simpl. split; [discriminate | lia].
  - rewrite div_pos by lia. unfold pyfloat_ops.gt.
    rewrite <- (half_lt_ratio k (S n)) by lia.
    destruct (Qlt_le_dec (1 # 2) (spec.ratio k (S n))) as [Hlt | Hle].
    + tauto.
    + split; [discriminate |]. intros H.
      exfalso. exact (Qlt_not_le _ _ H Hle).
Qed.

Lemma count_null_row_le (df : DataFrame) (i : nat) :
  count_null (frame.row df i) <= frame.ncols df.
Proof.
  unfold count_null, frame.row, frame.ncols.
  etransitivity; [apply length_filter |]. rewrite length_map. reflexivity.
Qed.

(** A row is selected exactly when more than half of the columns of the
    table at hand are absent in it. *)
Lemma elem_of_sparse_rows (df : DataFrame) (i : nat) :
  i ∈ frame.sparse_rows df
  <-> i < df_len df /\ frame.ncols df < 2 * count_null (frame.row df i).
Proof.
  rewrite sparse_rows_bits, elem_of_select_seq. split.
  - intros (j & -> & Hj). simpl. rewrite sparse_bits_lookup in Hj.
    destruct (decide (j < df_len df)) as [Hlt | Hge]; [| discriminate].
    split; [exact Hlt |].
    apply sparse_bit_spec; [apply count_null_row_le | congruence].
  - intros [Hlt Hhalf]. exists i. split; [reflexivity |].
    rewrite sparse_bits_lookup. rewrite decide_True by exact Hlt.
    f_equal. apply sparse_bit_spec; [apply count_null_row_le | exact Hhalf].
Qed.

(** The rows [DataFrame.drop] keeps are those whose bit is not set. *)
Lemma drop_mask_bits (df : DataFrame) :
  map (fun i => negb (existsb (Nat.eqb i) (frame.sparse_rows df)))
      (seq 0 (df_len df))
  = map negb (sparse_bits df).
Proof.
  apply list_eq. intros i.
  change (map ?f ?l) with (f <$> l).
  rewrite !list_lookup_fmap, sparse_bits_lookup.
  destruct (decide (i < df_len df)) as [Hlt | Hge].
  - rewrite lookup_seq_lt by exact Hlt. simpl. f_equal. f_equal.
    destruct (sparse_bit df (count_null (frame.row df i))) eqn:Hbit.
    + apply existsb_exists. exists i. split; [| apply Nat.eqb_refl].
      apply list_elem_of_In. rewrite sparse_rows_bits, elem_of_select_seq.
      exists i. split; [reflexivity |].
      rewrite sparse_bits_lookup, decide_True by exact Hlt. congruence.
    + apply not_true_is_false. intros He.
      apply existsb_exists in He as (j & Hj & Heq).
      apply Nat.eqb_eq in Heq. subst j. apply list_elem_of_In in Hj.
      rewrite sparse_rows_bits, elem_of_select_seq in Hj.
      destruct Hj as (j & Hij & Hj). simpl in Hij. subst j.
      rewrite sparse_bits_lookup, decide_True in Hj by exact Hlt. congruence.
  - rewrite lookup_seq_ge by lia. reflexivity.
Qed.

(** Dropping the selected rows is pruning against the table at hand. *)
Lemma drop_is_prune_by_current (df : DataFrame) :
  frame.drop true df (frame.sparse_rows df)
  = Ok (spec.prune_by_snapshot df df).
Proof.
  unfold frame.drop, spec.prune_by_snapshot. rewrite drop_mask_bits.
  unfold sparse_bits, sparse_bit. rewrite map_map. reflexivity.
Qed.

End prune.

Section prune_auto.

Variable parse : string -> option Z.
Variable py_str : value -> string.

(** [auto_clean_dataset] prunes in the same way: on the table as repaired
    under the column types it detected itself. *)
Lemma auto_pruning_is_measured_after_the_repairs (flag : bool)
  (h : list DataFrame) (out : list event) (l : loc)
  (d d5 : DataFrame) (out5 : list event) :
  h !! l = Some d ->
  AutoEda.repair_columns parse py_str (AutoEda.detect_column_types parse d)
    (frame.drop_duplicates d)
  = (Ok tt, d5, out5) ->
  let run := AutoEda.auto_clean_dataset parse py_str flag l (mkState h out) in
  (frame.sparse_rows d5 = [] -> returned_frame run = Some d5)
  /\ (frame.sparse_rows d5 <> [] -> flag = true ->
      returned_frame run = Some (spec.prune_by_snapshot d5 d5)).
Proof.
  intros Hl Hrepair run. unfold run.
  rewrite (auto_clean_dataset_run parse py_str flag h out l d Hl).
  rewrite Hrepair. unfold prune_outcome. split.
  - intros ->. simpl. unfold returned_frame. simpl. apply lookup_snoc2.
  - intros Hsome ->. rewrite drop_is_prune_by_current.
    destruct (frame.sparse_rows d5) as [| i rest]; [congruence |].
    simpl. unfold returned_frame. simpl. apply lookup_snoc.
Qed.

End prune_auto.

(** * The column type detector *)

Section detect.

Variable parse : string -> option Z.

Lemma detectors_same :
  AutoEda.detect_column_types parse = Main.detect_column_types parse.
Proof. reflexivity. Qed.

(** The branch taken for a column that is neither numeric nor a native
    datetime column depends on the cells being short strings only. *)
Lemma column_type_object (df : DataFrame) (s : Series) :
  s_dtype s = object ->
  Main.column_type parse df s
  = if pd.apply_all short_str s then "datetime" else "text".
Proof.
  intros Hobj. unfold Main.column_type, pd.is_numeric_dtype,
    pd.is_datetime64_any_dtype.
  rewrite Hobj. reflexivity.
Qed.

Lemma column_type_not_categorical (df : DataFrame) (s : Series) :
  Main.column_type parse df s <> "categorical".
Proof.
  unfold Main.column_type, pd.to_datetime.
  destruct (pd.is_numeric_dtype s); [discriminate |].
  destruct (pd.is_datetime64_any_dtype s); [discriminate |].
  destruct (pd.apply_all short_str s); discriminate.
Qed.

(** No column is ever put under ['categorical']. *)
Lemma detect_categorical_empty (df : DataFrame) :
  Main.detect_column_types parse df !! "categorical" = Some [].
Proof.
  unfold Main.detect_column_types.
  assert (forall cols (m : gmap string (list string)),
    m !! "categorical" = Some [] ->
    foldl (fun col_types cs =>
             mapping_append (Main.column_type parse df cs.2) cs.1 col_types)
          m cols !! "categorical" = Some []) as Hfold.
  { induction cols as [| cs cols IH]; intros m Hm; simpl; [exact Hm |].
    apply IH. unfold mapping_append.
    rewrite lookup_alter_ne; [exact Hm |].
    apply column_type_not_categorical. }
  apply Hfold. reflexivity.
Qed.

End detect.

(** * Sample evaluations of the string and date helpers *)

Example parse_ymd_slash : pydate.parse_ymd "2023/01/05" = Some 1672876800000000000%Z.
Proof. reflexivity. Qed.

Example parse_ymd_text : pydate.parse_ymd "not-a-date" = None.
Proof. reflexivity. Qed.

Example parse_ymd_feb30 : pydate.parse_ymd "2023-02-30" = None.
Proof. reflexivity. Qed.

Example strftime_ymd_sample :
  pydate.strftime_ymd 1675987200000000000%Z = "2023-02-10".
Proof. reflexivity. Qed.

Example float_str_sample :
  pydate.float_str (61 # 2) = "30.5" /\ pydate.float_str (30 # 1) = "30.0".
Proof. split; reflexivity. Qed.

Example title_sample :
  pystr.title (pystr.strip " new york ") = "New York"
  /\ pystr.title "o'neil mcDONALD 3rd" = "O'Neil Mcdonald 3Rd".
Proof. split; reflexivity. Qed.

(** [len] and [strip] beyond ASCII: thirty times the letter U+00E9, which
    takes sixty bytes, and a word between two no-break spaces U+00A0 and an
    ideographic space U+3000. *)
Example unicode_sample :
  let e_acute := String (ascii_of_nat 195) (String (ascii_of_nat 169) "") in
  let nbsp := String (ascii_of_nat 194) (String (ascii_of_nat 160) "") in
  let wide :=
    String (ascii_of_nat 227)
      (String (ascii_of_nat 128) (String (ascii_of_nat 128) "")) in
  let thirty := String.concat "" (repeat e_acute 30) in
  String.length thirty = 60
  /\ pystr.len thirty = 30
  /\ short_str (Str thirty) = true
  /\ pystr.strip (nbsp ++ "x y" ++ nbsp ++ wide) = "x y"
  /\ pystr.strip (wide ++ e_acute ++ " ") = e_acute.
Proof. repeat split; vm_compute; reflexivity. Qed.

(** * The claims of the specification *)

(** C8: on a table with at least one row and one column, the quality score
    of both files is [clamp(0, 100, (1 - missing_ratio) * 100 -
    duplicate_ratio * 10)]; both ratios are non-negative, so the raw score
    never exceeds 100 and the lower clamp alone gives the same value. *)
Theorem C8_quality_score_is_clamped_formula (df : DataFrame) :
  0 < df_len df -> 0 < frame.ncols df ->
  pyfloat_ops.eq (quality_score (Main.perform_eda df))
    (Fin (spec.quality_score df))
  /\ pyfloat_ops.eq (quality_score (AutoEda.perform_eda df))
       (Fin (spec.quality_score df))
  /\ (0 <= spec.missing_ratio df)%Q
  /\ (0 <= spec.duplicate_ratio df)%Q
  /\ (spec.raw_score df <= 100)%Q
  /\ (spec.quality_score df == spec.lower_clamp 0 (spec.raw_score df))%Q.
Proof.
  intros Hrows Hcols.
  split; [apply main_score_nonempty; assumption |].
  split; [apply auto_score_nonempty; assumption |].
  split; [apply ratio_nonneg |].
  split; [apply ratio_nonneg |].
  split; [apply raw_score_le_100 |].
  apply clamp_is_lower_clamp, raw_score_le_100.
Qed.

Lemma C8_quality_score_is_clamped_formula_witness :
  0 < df_len samples.lowcard /\ 0 < frame.ncols samples.lowcard
  /\ pyfloat_ops.eq (quality_score (Main.perform_eda samples.lowcard))
       (Fin (spec.quality_score samples.lowcard)).
Proof.
  split; [vm_compute; lia |]. split; [vm_compute; lia |].
  apply (C8_quality_score_is_clamped_formula samples.lowcard); vm_compute; lia.
Defined.

(** C1 (the code of [auto_eda_cleaner.py] departs from the claim): on a
    table with a header and no rows the score before clamping is [nan];
    [max(0, nan)] in [auto_eda_cleaner.perform_eda] is 0, where the claim
    and [main.py], through [min(100, nan)], have 100. *)
Theorem C1_header_only_table_scores :
  wf_frame samples.header_only
  /\ quality_score (AutoEda.perform_eda samples.header_only) = Fin 0
  /\ quality_score (Main.perform_eda samples.header_only) = Fin 100.
Proof.
  split; [repeat constructor |]. split; reflexivity.
Qed.

(** C5 (the code departs from the claim): a column of short strings none
    of which parses as a date is put under ['datetime']; the result of
    [pd.to_datetime(..., errors='coerce')] is not looked at. *)
Theorem C5_unparsed_strings_are_classified_datetime :
  pydate.parse_ymd "hello" = None
  /\ pydate.parse_ymd "world" = None
  /\ Main.detect_column_types pydate.parse_ymd samples.unparsed !! "datetime"
     = Some ["when"]
  /\ AutoEda.detect_column_types pydate.parse_ymd samples.unparsed !! "datetime"
     = Some ["when"].
Proof. repeat split; vm_compute; reflexivity. Qed.

(** C6 (the code departs from the claim): the cardinality test sits in an
    [except] branch that [errors='coerce'] never lets run.  A column with
    one distinct value in four rows and an all-absent object column are
    put under ['text'], an all-absent float column under ['numeric'], and
    nothing under ['categorical']. *)
Theorem C6_low_cardinality_column_is_text :
  pd.nunique (samples.objects [Str "x"; Str "x"; Str "x"; NA]) = 1
  /\ df_len samples.lowcard = 4
  /\ Main.detect_column_types pydate.parse_ymd samples.lowcard !! "categorical"
     = Some []
  /\ Main.detect_column_types pydate.parse_ymd samples.lowcard !! "text"
     = Some ["x"; "y"]
  /\ Main.detect_column_types pydate.parse_ymd samples.lowcard !! "numeric"
     = Some ["z"]
  /\ AutoEda.detect_column_types pydate.parse_ymd samples.lowcard
     = Main.detect_column_types pydate.parse_ymd samples.lowcard.
Proof. repeat split; vm_compute; reflexivity. Qed.

(** C3 (the code departs from the claim): a ['datetime'] column in which
    nothing parses is not left as it was.  Every cell becomes absent, the
    run goes on, and no "could not parse" line is printed; [main.py] prints
    that it filled the dates. *)
Theorem C3_unparsed_dates_are_blanked :
  let col_types := Main.detect_column_types pydate.parse_ymd samples.unparsed in
  let main_run flag :=
    Main.clean_data pydate.parse_ymd pydate.py_str_model flag col_types 0
      (initial_state samples.unparsed) in
  let auto_run flag :=
    AutoEda.auto_clean_dataset pydate.parse_ymd pydate.py_str_model flag 0
      (initial_state samples.unparsed) in
  col_types !! "datetime" = Some ["when"]
  /\ parsed_cells pydate.parse_ymd
       (samples.objects [Str "hello"; Str "world"]) = [NA; NA]
  /\ (forall flag,
        column_of (returned_frame (main_run flag)) "when"
        = Some (samples.objects [NA; NA])
        /\ st_out (main_run flag).2 = [FilledDates "when" 2])
  /\ (forall flag,
        column_of (returned_frame (auto_run flag)) "when"
        = Some (samples.objects [NA; NA])
        /\ st_out (auto_run flag).2 = []).
Proof.
  repeat split; try (vm_compute; reflexivity);
    destruct flag; vm_compute; reflexivity.
Qed.

(** C10: the cleaned table is not always free of duplicates.  Two names
    that differ in a leading blank are equal after the text step, and two
    rows that differ in an absent number are equal after the numeric fill;
    no deduplication runs after the repairs. *)
Theorem C10_cleaned_table_can_hold_identical_rows
  (parse : string -> option Z) (py_str : value -> string) (flag : bool) :
  let main_clean df :=
    returned_frame
      (Main.clean_data parse py_str flag (Main.detect_column_types parse df) 0
         (initial_state df)) in
  let auto_clean df :=
    returned_frame
      (AutoEda.auto_clean_dataset parse py_str flag 0 (initial_state df)) in
  frame.has_identical_rows samples.spaces = false
  /\ frame.has_identical_rows samples.gaps = false
  /\ (exists out, main_clean samples.spaces = Some out
                  /\ frame.has_identical_rows out = true)
  /\ (exists out, main_clean samples.gaps = Some out
                  /\ frame.has_identical_rows out = true)
  /\ (exists out, auto_clean samples.spaces = Some out
                  /\ frame.has_identical_rows out = true)
  /\ (exists out, auto_clean samples.gaps = Some out
                  /\ frame.has_identical_rows out = true).
Proof.
  repeat split; try reflexivity;
    eexists; (split; [vm_compute; reflexivity | vm_compute; reflexivity]).
Qed.

Section sorted_lookup.

Lemma strongly_sorted_lookup (l : list Z) (i j : nat) (a b : Z) :
  StronglySorted Z.le l -> i < j ->
  l !! i = Some a -> l !! j = Some b -> (a <= b)%Z.
Proof.
  intros Hs. revert i j. induction Hs as [| x l Hs IH Hall];
    intros i j Hij Hi Hj; [discriminate |].
  destruct j as [| j]; [lia |]. simpl in Hj.
  destruct i as [| i]; simpl in Hi.
  - injection Hi as <-. rewrite Forall_forall in Hall.
    apply Hall. eapply list_elem_of_lookup_2, Hj.
  - apply (IH i j); [lia | assumption | assumption].
Qed.

Lemma midpoint_between (a b : Z) :
  (a <= b)%Z -> (a <= Z.quot (a + b) 2 <= b)%Z.
Proof.
  intros Hab. Z.to_euclidean_division_equations. lia.
Qed.

End sorted_lookup.

(** C9: cleaning does not mutate the caller's table.  Whatever the column
    types, after [clean_data] (and after [auto_clean_dataset]) every object
    that was in the store, the input table among them, holds the cells it
    held before, and the table returned is an object that did not exist
    before the call. *)
Theorem C9_input_table_is_preserved
  (parse : string -> option Z) (py_str : value -> string) (flag : bool)
  (col_types : gmap string (list string))
  (h : list DataFrame) (out : list event) (l : loc) (d : DataFrame) :
  h !! l = Some d ->
  input_preserved h l
    (Main.clean_data parse py_str flag col_types l (mkState h out))
  /\ input_preserved h l
       (AutoEda.auto_clean_dataset parse py_str flag l (mkState h out)).
Proof.
  intros Hl. split.
  - apply (main_clean_data_preserves parse py_str flag col_types h out l d Hl).
  - apply (auto_clean_dataset_preserves parse py_str flag h out l d Hl).
Qed.

Lemma C9_input_table_is_preserved_witness :
  [samples.spaces] !! 0 = Some samples.spaces
  /\ input_preserved [samples.spaces] 0
       (Main.clean_data pydate.parse_ymd pydate.py_str_model true
          (Main.detect_column_types pydate.parse_ymd samples.spaces) 0
          (mkState [samples.spaces] [])).
Proof.
  split; [reflexivity |].
  apply (C9_input_table_is_preserved pydate.parse_ymd pydate.py_str_model true
           (Main.detect_column_types pydate.parse_ymd samples.spaces)
           [samples.spaces] [] 0 samples.spaces).
  reflexivity.
Defined.

(** C2, as the claim states it, fails: the second row of the sample has
    four of its six columns absent after deduplication, the numeric step
    fills them, and the row is in the table the cleaner returns; pruning
    against the snapshot taken after deduplication would have removed
    it. *)
Lemma C2_sparse_row_is_kept :
  frame.isnull_sum_rows (frame.drop_duplicates samples.sparse) = [0; 4; 0]
  /\ frame.ncols samples.sparse = 6
  /\ returned_frame
       (Main.clean_data pydate.parse_ymd pydate.py_str_model true
          (Main.detect_column_types pydate.parse_ymd samples.sparse) 0
          (initial_state samples.sparse))
     = Some samples.sparse_repaired
  /\ returned_frame
       (Main.clean_data pydate.parse_ymd pydate.py_str_model false
          (Main.detect_column_types pydate.parse_ymd samples.sparse) 0
          (initial_state samples.sparse))
     = Some samples.sparse_repaired
  /\ returned_frame
       (AutoEda.auto_clean_dataset pydate.parse_ymd pydate.py_str_model true 0
          (initial_state samples.sparse))
     = Some samples.sparse_repaired
  /\ frame.row samples.sparse_repaired 1
     = [Num 7; Num 8; Num 7; Num 8; Num 9; Num 10]
  /\ frame.rows
       (spec.prune_by_snapshot (frame.drop_duplicates samples.sparse)
          samples.sparse_repaired)
     = [[Num 1; Num 2; Num 3; Num 4; Num 5; Num 6];
        [Num 9; Num 10; Num 11; Num 12; Num 13; Num 14]].
Proof. repeat split; vm_compute; reflexivity. Qed.

(** C2, amended: the last step measures the rows of the table as it is
    after the repairs of steps 2 to 5.  The rows it selects are exactly
    those in which more than half of the columns are still absent; when it
    selects none, the repaired table is returned as it is; when it selects
    some and [DataFrame.drop] accepts [ignore_index], the table returned is
    the repaired table pruned against itself. *)
Theorem C2_pruning_is_measured_after_the_repairs
  (parse : string -> option Z) (py_str : value -> string) (flag : bool)
  (col_types : gmap string (list string))
  (h : list DataFrame) (out : list event) (l : loc)
  (d d5 : DataFrame) (out5 : list event) :
  h !! l = Some d ->
  Main.repair_columns parse py_str col_types (frame.drop_duplicates d)
  = (Ok tt, d5, out5) ->
  let run := Main.clean_data parse py_str flag col_types l (mkState h out) in
  (forall i,
      i ∈ frame.sparse_rows d5
      <-> i < df_len d5 /\ frame.ncols d5 < 2 * count_null (frame.row d5 i))
  /\ (frame.sparse_rows d5 = [] -> returned_frame run = Some d5)
  /\ (frame.sparse_rows d5 <> [] -> flag = true ->
      returned_frame run = Some (spec.prune_by_snapshot d5 d5)).
Proof.
  intros Hl Hrepair run.
  split; [apply elem_of_sparse_rows |].
  unfold run. rewrite (main_clean_data_run parse py_str flag col_types h out l d Hl).
  rewrite Hrepair. unfold prune_outcome. split.
  - intros ->. simpl. unfold returned_frame. simpl. apply lookup_snoc2.
  - intros Hsome ->. rewrite drop_is_prune_by_current.
    destruct (frame.sparse_rows d5) as [| i rest]; [congruence |].
    simpl. unfold returned_frame. simpl. apply lookup_snoc.
Qed.

Lemma C2_pruning_is_measured_after_the_repairs_witness :
  frame.sparse_rows samples.sparse_repaired = []
  /\ returned_frame
       (Main.clean_data pydate.parse_ymd pydate.py_str_model false
          (Main.detect_column_types pydate.parse_ymd samples.sparse) 0
          (mkState [samples.sparse] []))
     = Some samples.sparse_repaired.
Proof.
  split; [vm_compute; reflexivity |].
  apply (proj1 (proj2
    (C2_pruning_is_measured_after_the_repairs pydate.parse_ymd
       pydate.py_str_model false
       (Main.detect_column_types pydate.parse_ymd samples.sparse)
       [samples.sparse] [] 0 samples.sparse samples.sparse_repaired
       [FilledNumeric "c" 1; FilledNumeric "d" 1; FilledNumeric "e" 1;
        FilledNumeric "f" 1]
       ltac:(reflexivity) ltac:(vm_compute; reflexivity)))).
  vm_compute; reflexivity.
Defined.

(** C4, as the claim states it, fails: in the column B, A, B, A the two
    values are tied and B occurs first, and the absent cell is filled
    with A. *)
Lemma C4_tie_is_filled_with_the_smallest :
  spec.first_occurring_mode (s_values samples.grades) = Some (Str "B")
  /\ pd.mode samples.grades = [Str "A"; Str "B"]
  /\ Main.categorical_column pydate.py_str_model "grade" samples.ties
     = (Ok tt,
        frame.setitem samples.ties "grade"
          (samples.objects [Str "B"; Str "A"; Str "B"; Str "A"; Str "A"]),
        [FilledCategorical "grade" 1 (Str "A")])
  /\ column_of
       (returned_frame
          (Main.clean_data pydate.parse_ymd pydate.py_str_model false
             (samples.categorical_only "grade") 0 (initial_state samples.ties)))
       "grade"
     = Some (samples.objects [Str "B"; Str "A"; Str "B"; Str "A"; Str "A"])
  /\ AutoEda.categorical_column pydate.py_str_model "grade" samples.ties
     = Main.categorical_column pydate.py_str_model "grade" samples.ties.
Proof. repeat split; vm_compute; reflexivity. Qed.

(** C4, amended: in a categorical column of strings with absent cells, the
    value that fills the absent cells is a most frequent string, and among
    the strings tied for the highest frequency it is the smallest in the
    order of [str] (code point by code point); the filled column is then
    stripped and title-cased. *)
Theorem C4_categorical_fill_is_the_smallest_mode
  (py_str : value -> string) (df : DataFrame) (col : string) (s : Series) :
  frame.getitem df col = Ok s ->
  s_dtype s = object ->
  strings_or_absent s ->
  0 < pd.isnull_sum s ->
  (exists x, Str x ∈ s_values s) ->
  exists m,
    Main.categorical_column py_str col df
    = (Ok tt,
       frame.setitem df col
         (pd.str_title
            (pd.str_strip (pd.astype_str py_str (pd.fillna s (Str m))))),
       [FilledCategorical col (pd.isnull_sum s) (Str m)])
    /\ AutoEda.categorical_column py_str col df
       = Main.categorical_column py_str col df
    /\ Str m ∈ s_values s
    /\ pd.count_eq (Str m) (pd.dropna (s_values s))
       = pd.max_count (pd.dropna (s_values s))
    /\ forall w,
        Str w ∈ s_values s ->
        pd.count_eq (Str w) (pd.dropna (s_values s))
        = pd.max_count (pd.dropna (s_values s)) ->
        pystr.le m w.
Proof.
  intros Hget Hobj Hstr Hmissing Hsome.
  destruct (mode_head_least s Hstr Hsome) as (m & Hhead & Hin & Hcount & Hleast).
  exists m. split.
  - apply categorical_column_fill; try assumption. discriminate.
  - split; [reflexivity |]. split; [exact Hin |]. split; assumption.
Qed.

Lemma C4_categorical_fill_is_the_smallest_mode_witness :
  exists m,
    Main.categorical_column pydate.py_str_model "grade" samples.ties
    = (Ok tt,
       frame.setitem samples.ties "grade"
         (pd.str_title
            (pd.str_strip
               (pd.astype_str pydate.py_str_model
                  (pd.fillna samples.grades (Str m))))),
       [FilledCategorical "grade" (pd.isnull_sum samples.grades) (Str m)])
    /\ pystr.le m "B".
Proof.
  destruct (C4_categorical_fill_is_the_smallest_mode pydate.py_str_model
              samples.ties "grade" samples.grades)
    as (m & Hrun & _ & _ & _ & Hleast).
  - reflexivity.
  - reflexivity.
  - unfold strings_or_absent. simpl.
    repeat (constructor; [first [left; reflexivity | right; exact I] |]).
    constructor.
  - vm_compute; lia.
  - exists "B". repeat constructor.
  - exists m. split; [exact Hrun |].
    apply Hleast; [repeat constructor | vm_compute; reflexivity].
Defined.

(** C7, as the claim states it, fails: 2023-01-01 and 2023-01-03 parse,
    the third cell does not, and the cell is filled with 2023-01-02, which
    is neither the earlier of the two central dates nor any date of the
    column. *)
Lemma C7_fill_is_not_a_date_of_the_column :
  parsed_cells pydate.parse_ymd samples.joined
  = [Ts 1672531200000000000; Ts 1672704000000000000; NA]
  /\ spec.lower_median (pd.timestamps (parsed_cells pydate.parse_ymd samples.joined))
     = Some 1672531200000000000%Z
  /\ pydate.strftime_ymd 1672531200000000000 = "2023-01-01"
  /\ pydate.strftime_ymd 1672704000000000000 = "2023-01-03"
  /\ Main.datetime_column pydate.parse_ymd "joined" samples.dates
     = (Ok tt,
        frame.setitem samples.dates "joined"
          (samples.objects
             [Str "2023-01-01"; Str "2023-01-03"; Str "2023-01-02"]),
        [FilledDates "joined" 1])
  /\ AutoEda.datetime_column pydate.parse_ymd "joined" samples.dates64
     = (Ok tt,
        frame.setitem samples.dates64 "joined"
          (samples.objects
             [Str "2023-01-01"; Str "2023-01-03"; Str "2023-01-02"]),
        [FilledDates "joined" 1])
  /\ Main.detect_column_types pydate.parse_ymd samples.dates !! "datetime"
     = Some ["joined"]
  /\ column_of
       (returned_frame
          (Main.clean_data pydate.parse_ymd pydate.py_str_model false
             (Main.detect_column_types pydate.parse_ymd samples.dates) 0
             (initial_state samples.dates)))
       "joined"
     = Some (samples.objects
               [Str "2023-01-01"; Str "2023-01-03"; Str "2023-01-02"]).
Proof. repeat split; vm_compute; reflexivity. Qed.

(** C7, amended: when [pd.to_datetime] turns a column into a datetime64
    column of dates at midnight of which an even number is present, the
    date step fills with pandas' median, the midpoint [(a + b) / 2] of the
    two central timestamps [a <= b]: [main.py] when a cell is absent after
    the conversion, [auto_eda_cleaner.py] when a cell was absent before it.
    Every cell that is absent after the conversion is rendered as the day
    of that midpoint, which lies between the two central dates, halfway,
    and need not be a date of the column. *)
Theorem C7_date_fill_is_the_midpoint
  (to_datetime : Series -> result Series) (df : DataFrame) (col : string)
  (s parsed : Series) (a b : Z) :
  let sorted := merge_sort Z.le (pd.timestamps (s_values parsed)) in
  let midpoint := Z.quot (a + b) 2%Z in
  let filled := pd.dt_strftime (pd.fillna parsed (Ts midpoint)) in
  frame.getitem df col = Ok s ->
  to_datetime s = Ok parsed ->
  s_dtype parsed = datetime64 ->
  Forall at_midnight (pd.timestamps (s_values parsed)) ->
  0 < length sorted ->
  Nat.even (length sorted) = true ->
  sorted !! (length sorted / 2 - 1) = Some a ->
  sorted !! (length sorted / 2) = Some b ->
  (NA ∈ s_values parsed ->
   Conv.main_datetime_column to_datetime col df
   = (Ok tt, frame.setitem df col filled,
      [FilledDates col (count_null (s_values parsed))]))
  /\ (NA ∈ s_values s ->
      Conv.auto_datetime_column to_datetime col df
      = (Ok tt, frame.setitem df col filled,
         [FilledDates col (count_null (s_values s))]))
  /\ (forall i,
        s_values parsed !! i = Some NA ->
        s_values filled !! i = Some (Str (pydate.strftime_ymd midpoint)))
  /\ (a <= midpoint <= b)%Z
  /\ (2 * midpoint = a + b)%Z.
Proof.
  intros sorted midpoint filled Hget Hconv Hdt Hmid Hpos Heven Ha Hb.
  pose proof (median_timestamps_even _ a b Hpos Heven Ha Hb) as Hmedian.
  split; [| split; [| split; [| split]]].
  - intros Hna.
    rewrite (conv_main_datetime_column_ok to_datetime col df s parsed
               Hget Hconv Hdt).
    unfold formatted_dates. rewrite Hmedian.
    assert ((0 <? pd.isnull_sum parsed) = true) as ->
      by (apply Nat.ltb_lt, isnull_sum_pos, Hna).
    reflexivity.
  - intros Hna.
    rewrite (conv_auto_datetime_column_ok to_datetime col df s parsed
               Hget Hconv Hdt).
    unfold formatted_dates. rewrite Hmedian.
    assert ((0 <? pd.isnull_sum s) = true) as ->
      by (apply Nat.ltb_lt, isnull_sum_pos, Hna).
    reflexivity.
  - intros i Hi. subst filled. destruct parsed as [dt cells].
    simpl in Hdt. subst dt. apply filled_cell, Hi.
  - apply midpoint_between.
    apply (strongly_sorted_lookup sorted (length sorted / 2 - 1)
             (length sorted / 2) a b); try assumption.
    + apply StronglySorted_merge_sort; apply _.
    + destruct (length sorted) as [| [| n]]; [lia | discriminate |].
      pose proof (Nat.div_str_pos (S (S n)) 2 ltac:(lia)). lia.
  - assert (forall t i, sorted !! i = Some t -> at_midnight t) as Hin.
    { intros t i Ht. rewrite Forall_forall in Hmid. apply Hmid.
      rewrite <- (merge_sort_Permutation Z.le).
      apply (list_elem_of_lookup_2 _ i), Ht. }
    apply midnight_sum_even; [apply (Hin a _ Ha) | apply (Hin b _ Hb)].
Qed.

Lemma C7_date_fill_is_the_midpoint_witness :
  Conv.main_datetime_column (pd.to_datetime pydate.parse_ymd) "joined"
    samples.dates
  = (Ok tt,
     frame.setitem samples.dates "joined"
       (samples.objects
          [Str "2023-01-01"; Str "2023-01-03"; Str "2023-01-02"]),
     [FilledDates "joined" 1])
  /\ Conv.auto_datetime_column (pd.to_datetime pydate.parse_ymd) "joined"
       samples.dates64
     = (Ok tt,
        frame.setitem samples.dates64 "joined"
          (samples.objects
             [Str "2023-01-01"; Str "2023-01-03"; Str "2023-01-02"]),
        [FilledDates "joined" 1]).
Proof.
  split.
  - apply (C7_date_fill_is_the_midpoint (pd.to_datetime pydate.parse_ymd)
             samples.dates "joined" samples.joined
             (mkSeries datetime64
                [Ts 1672531200000000000; Ts 1672704000000000000; NA])
             1672531200000000000 1672704000000000000).
    + reflexivity.
    + reflexivity.
    + reflexivity.
    + repeat constructor.
    + vm_compute; lia.
    + vm_compute; reflexivity.
    + vm_compute; reflexivity.
    + vm_compute; reflexivity.
    + right. right. left.
  - apply (C7_date_fill_is_the_midpoint (pd.to_datetime pydate.parse_ymd)
             samples.dates64 "joined" samples.joined64
             (mkSeries datetime64
                [Ts 1672531200000000000; Ts 1672704000000000000; NA])
             1672531200000000000 1672704000000000000).
    + reflexivity.
    + reflexivity.
    + reflexivity.
    + repeat constructor.
    + vm_compute; lia.
    + vm_compute; reflexivity.
    + vm_compute; reflexivity.
    + vm_compute; reflexivity.
    + right. right. left.
Defined.

(** * The column steps in closed form *)

Section column_steps.

Variable parse : string -> option Z.
Variable py_str : value -> string.

Lemma set_col_same (cols : list (string * Series)) (col : string) (s : Series) :
  frame.lookup_col cols col = Some s -> frame.set_col cols col s = cols.
Proof.
  induction cols as [| [c s0] cols IH]; simpl; [discriminate |].
  destruct (String.eqb c col) eqn:E.
  - intros [= ->]. reflexivity.
  - intros H. rewrite (IH H). reflexivity.
Qed.

Lemma setitem_same (df : DataFrame) (col : string) (s : Series) :
  frame.getitem df col = Ok s -> frame.setitem df col s = df.
Proof.
  intros H. apply getitem_lookup in H. unfold frame.setitem.
  rewrite (set_col_same _ _ _ H). destruct df; reflexivity.
Qed.

(** The numeric step of both files on one column. *)
Lemma numeric_column_eq (col : string) (df : DataFrame) :
  Main.numeric_column col df
  = match frame.getitem df col with
    | Raise e => (Raise e, df, [])
    | Ok s =>
        if 0 <? pd.isnull_sum s then
          match pd.median s with
          | Ok fill =>
              (Ok tt, frame.setitem df col (pd.fillna s fill),
               [FilledNumeric col (pd.isnull_sum s)])
          | Raise e => (Raise e, df, [])
          end
        else (Ok tt, df, [])
    end.
Proof.
  unfold Main.numeric_column. run_statements.
  destruct (frame.getitem df col) as [s | e] eqn:Hget; [| reflexivity].
  run_statements. destruct (0 <? pd.isnull_sum s); [| reflexivity].
  run_statements. rewrite ?Hget.
  destruct (pd.median s) as [fill | e]; [| reflexivity].
  run_statements. rewrite ?Hget. reflexivity.
Qed.

(** The categorical step of both files on one column. *)
Lemma categorical_column_eq (col : string) (df : DataFrame) :
  Main.categorical_column py_str col df
  = match frame.getitem df col with
    | Raise e => (Raise e, df, [])
    | Ok s =>
        let missing := pd.isnull_sum s in
        let filled :=
          if 0 <? missing then pd.fillna s (categorical_fill s) else s in
        (Ok tt,
         frame.setitem df col
           (if dtype_eqb (s_dtype filled) object
            then pd.str_title (pd.str_strip (pd.astype_str py_str filled))
            else filled),
         if 0 <? missing
         then [FilledCategorical col missing (categorical_fill s)] else [])
    end.
Proof.
  unfold Main.categorical_column, categorical_fill. run_statements.
  destruct (frame.getitem df col) as [s | e] eqn:Hget; [| reflexivity].
  run_statements. destruct (0 <? pd.isnull_sum s).
  - run_statements. rewrite ?Hget. run_statements.
    destruct (dtype_eqb _ object); run_statements; reflexivity.
  - run_statements. rewrite ?Hget.
    destruct (dtype_eqb (s_dtype s) object); run_statements.
    + rewrite ?Hget. reflexivity.
    + rewrite (setitem_same df col s Hget). reflexivity.
Qed.

(** The text step of both files on one column. *)
Lemma text_column_eq (col : string) (df : DataFrame) :
  Main.text_column py_str col df
  = match frame.getitem df col with
    | Raise e => (Raise e, df, [])
    | Ok s =>
        let missing := pd.isnull_sum s in
        let filled :=
          if 0 <? missing then pd.fillna s (Str "Unknown") else s in
        (Ok tt,
         frame.setitem df col
           (if dtype_eqb (s_dtype filled) object
            then pd.str_strip (pd.astype_str py_str filled)
            else filled),
         if 0 <? missing then [FilledText col missing] else [])
    end.
Proof.
  unfold Main.text_column. run_statements.
  destruct (frame.getitem df col) as [s | e] eqn:Hget; [| reflexivity].
  run_statements. destruct (0 <? pd.isnull_sum s).
  - run_statements. rewrite ?Hget. run_statements.
    destruct (dtype_eqb _ object); run_statements; reflexivity.
  - run_statements. rewrite ?Hget.
    destruct (dtype_eqb (s_dtype s) object); run_statements.
    + rewrite ?Hget. reflexivity.
    + rewrite (setitem_same df col s Hget). reflexivity.
Qed.

(** The date step of [main.py] on one column: a missing column is caught
    by the bare [except]. *)
Lemma main_datetime_column_eq (col : string) (df : DataFrame) :
  Main.datetime_column parse col df
  = match frame.getitem df col with
    | Raise e => (Ok tt, df, [CouldNotParse col])
    | Ok s =>
        let parsed := mkSeries datetime64 (parsed_cells parse s) in
        let missing := pd.isnull_sum parsed in
        (Ok tt,
         frame.setitem df col
           (pd.dt_strftime
              (if 0 <? missing
               then pd.fillna parsed
                      (pd.median_timestamps (pd.timestamps (parsed_cells parse s)))
               else parsed)),
         if 0 <? missing then [FilledDates col missing] else [])
    end.
Proof.
  unfold Main.datetime_column. run_statements.
  destruct (frame.getitem df col) as [s | e] eqn:Hget; [| reflexivity].
  run_statements. fold (parsed_cells parse s).
  destruct (0 <? pd.isnull_sum (mkSeries datetime64 (parsed_cells parse s)));
    run_statements; reflexivity.
Qed.

(** The date step of [auto_eda_cleaner.py] on one column: the column is
    read before the [try], and the cells are counted before parsing. *)
Lemma auto_datetime_column_eq (col : string) (df : DataFrame) :
  AutoEda.datetime_column parse col df
  = match frame.getitem df col with
    | Raise e => (Raise e, df, [])
    | Ok s =>
        let parsed := mkSeries datetime64 (parsed_cells parse s) in
        let missing := pd.isnull_sum s in
        (Ok tt,
         frame.setitem df col
           (pd.dt_strftime
              (if 0 <? missing
               then pd.fillna parsed
                      (pd.median_timestamps (pd.timestamps (parsed_cells parse s)))
               else parsed)),
         if 0 <? missing then [FilledDates col missing] else [])
    end.
Proof.
  unfold AutoEda.datetime_column. run_statements.
  destruct (frame.getitem df col) as [s | e] eqn:Hget; [| reflexivity].
  run_statements. rewrite ?Hget. run_statements. fold (parsed_cells parse s).
  destruct (0 <? pd.isnull_sum s); run_statements; reflexivity.
Qed.

End column_steps.

(** * The shape of the table through the run *)

Section shape.

Variable parse : string -> option Z.
Variable py_str : value -> string.

Lemma frame_shape_setitem (df : DataFrame) (col : string) (s s' : Series) :
  frame.getitem df col = Ok s ->
  length (s_values s') = length (s_values s) ->
  frame_shape (frame.setitem df col s') = frame_shape df.
Proof.
  intros Hget Hlen. apply getitem_lookup in Hget.
  unfold frame_shape, frame.setitem. simpl. f_equal.
  induction (df_columns df) as [| [c s0] cols IH]; simpl in *; [discriminate |].
  destruct (String.eqb c col) eqn:E; simpl.
  - injection Hget as ->. rewrite Hlen. reflexivity.
  - rewrite (IH Hget). reflexivity.
Qed.

Lemma fillna_length (s : Series) (fill : value) :
  length (s_values (pd.fillna s fill)) = length (s_values s).
Proof. destruct fill; simpl; rewrite ?length_map; reflexivity. Qed.

Lemma wf_frame_shape (d d' : DataFrame) :
  frame_shape d' = frame_shape d -> wf_frame d -> wf_frame d'.
Proof.
  unfold frame_shape, wf_frame. intros [= Hlen Hcols]. rewrite Hlen.
  revert Hcols. generalize (df_columns d'). generalize (df_len d).
  intros n cols'. induction (df_columns d) as [| cs cols IH] in cols' |- *;
    destruct cols' as [| cs' cols']; simpl; try discriminate.
  - constructor.
  - intros [= Hname Hl Hrest] Hwf. apply Forall_cons in Hwf as [Hcs Hwf].
    constructor; [congruence | apply IH; assumption].
Qed.

Lemma column_names_shape (d d' : DataFrame) :
  frame_shape d' = frame_shape d -> column_names d' = column_names d.
Proof.
  unfold frame_shape, column_names. intros [= _ Hcols].
  apply (f_equal (map fst)) in Hcols. rewrite !map_map in Hcols. exact Hcols.
Qed.

Lemma keeps_shape_ret {A} (a : A) : keeps_shape (mret a).
Proof. intros df. reflexivity. Qed.

Lemma keeps_shape_bind {A B} (m : D A) (f : A -> D B) :
  keeps_shape m -> (forall a, keeps_shape (f a)) -> keeps_shape (m ≫= f).
Proof.
  intros Hm Hf df. unfold mbind, D_bind. specialize (Hm df).
  destruct (m df) as [[[a | e] df'] out]; simpl in *; [| exact Hm].
  specialize (Hf a df'). destruct (f a df') as [[r df''] out']. simpl in *.
  congruence.
Qed.

Lemma keeps_shape_dict_get (d : gmap string (list string)) (key : string) :
  keeps_shape (eff.dict_get d key).
Proof. intros df. reflexivity. Qed.

Lemma keeps_shape_for_each {A} (xs : list A) (body : A -> D unit) :
  (forall x, keeps_shape (body x)) -> keeps_shape (eff.for_each xs body).
Proof.
  intros Hbody. induction xs as [| x xs IH]; simpl.
  - apply keeps_shape_ret.
  - apply keeps_shape_bind; [apply Hbody | intros _; exact IH].
Qed.

Lemma keeps_shape_numeric (col : string) :
  keeps_shape (Main.numeric_column col).
Proof.
  intros df. rewrite numeric_column_eq.
  destruct (frame.getitem df col) as [s | e] eqn:Hget; [| reflexivity].
  destruct (0 <? pd.isnull_sum s); [| reflexivity].
  destruct (pd.median s) as [fill | e]; [| reflexivity]. simpl.
  eapply frame_shape_setitem; [exact Hget | apply fillna_length].
Qed.

Lemma keeps_shape_categorical (col : string) :
  keeps_shape (Main.categorical_column py_str col).
Proof.
  intros df. rewrite categorical_column_eq.
  destruct (frame.getitem df col) as [s | e] eqn:Hget; [| reflexivity].
  simpl. eapply frame_shape_setitem; [exact Hget |].
  destruct (0 <? pd.isnull_sum s);
    destruct (dtype_eqb _ object); simpl;
    rewrite ?length_map, ?fillna_length; reflexivity.
Qed.

Lemma keeps_shape_text (col : string) :
  keeps_shape (Main.text_column py_str col).
Proof.
  intros df. rewrite text_column_eq.
  destruct (frame.getitem df col) as [s | e] eqn:Hget; [| reflexivity].
  simpl. eapply frame_shape_setitem; [exact Hget |].
  destruct (0 <? pd.isnull_sum s);
    destruct (dtype_eqb _ object); simpl;
    rewrite ?length_map, ?fillna_length; reflexivity.
Qed.

Lemma keeps_shape_main_datetime (col : string) :
  keeps_shape (Main.datetime_column parse col).
Proof.
  intros df. rewrite main_datetime_column_eq.
  destruct (frame.getitem df col) as [s | e] eqn:Hget; [| reflexivity].
  simpl. eapply frame_shape_setitem; [exact Hget |].
  unfold parsed_cells.
  destruct (0 <? _); simpl; rewrite ?length_map, ?fillna_length; simpl;
    rewrite ?length_map; reflexivity.
Qed.

Lemma keeps_shape_auto_datetime (col : string) :
  keeps_shape (AutoEda.datetime_column parse col).
Proof.
  intros df. rewrite auto_datetime_column_eq.
  destruct (frame.getitem df col) as [s | e] eqn:Hget; [| reflexivity].
  simpl. eapply frame_shape_setitem; [exact Hget |].
  unfold parsed_cells.
  destruct (0 <? _); simpl; rewrite ?length_map, ?fillna_length; simpl;
    rewrite ?length_map; reflexivity.
Qed.

Lemma keeps_shape_main_repair (col_types : gmap string (list string)) :
  keeps_shape (Main.repair_columns parse py_str col_types).
Proof.
  unfold Main.repair_columns.
  repeat first
    [ apply keeps_shape_numeric
    | apply keeps_shape_categorical
    | apply keeps_shape_main_datetime
    | apply keeps_shape_text
    | apply keeps_shape_dict_get
    | apply keeps_shape_for_each; intros ?
    | apply keeps_shape_bind; [| intros ?] ].
Qed.

Lemma keeps_shape_auto_repair (col_types : gmap string (list string)) :
  keeps_shape (AutoEda.repair_columns parse py_str col_types).
Proof.
  unfold AutoEda.repair_columns.
  repeat first
    [ apply keeps_shape_numeric
    | apply keeps_shape_categorical
    | apply keeps_shape_auto_datetime
    | apply keeps_shape_text
    | apply keeps_shape_dict_get
    | apply keeps_shape_for_each; intros ?
    | apply keeps_shape_bind; [| intros ?] ].
Qed.

End shape.

Section pipeline_shape.

Variable parse : string -> option Z.
Variable py_str : value -> string.
Variable flag : bool.

Lemma select_length_le {A} (mask : list bool) (xs : list A) :
  length (frame.select mask xs) <= length xs.
Proof.
  revert xs. induction mask as [| b mask IH]; intros [| x xs]; simpl; try lia.
  specialize (IH xs). destruct b; simpl; lia.
Qed.

Lemma select_length_eq {A B} (mask : list bool) (xs : list A) (ys : list B) :
  length xs = length ys ->
  length (frame.select mask xs) = length (frame.select mask ys).
Proof.
  revert xs ys. induction mask as [| b mask IH]; intros [| x xs] [| y ys];
    simpl; try discriminate; try reflexivity.
  intros [= H]. destruct b; simpl; rewrite (IH xs ys H); reflexivity.
Qed.

Lemma take_column_names (mask : list bool) (df : DataFrame) :
  column_names (frame.take mask df) = column_names df.
Proof.
  unfold column_names, frame.take. simpl. rewrite map_map. reflexivity.
Qed.

Lemma take_len_le (mask : list bool) (df : DataFrame) :
  df_len (frame.take mask df) <= df_len df.
Proof.
  unfold frame.take. simpl.
  etransitivity; [apply select_length_le |]. rewrite length_seq. reflexivity.
Qed.

Lemma take_wf (mask : list bool) (df : DataFrame) :
  wf_frame df -> wf_frame (frame.take mask df).
Proof.
  unfold wf_frame, frame.take. simpl. intros Hwf.
  induction Hwf as [| cs cols Hcs _ IH]; simpl; constructor; [| exact IH].
  simpl. apply select_length_eq. rewrite length_seq. exact Hcs.
Qed.

Lemma rows_removed_refl (df : DataFrame) : rows_removed_from df df.
Proof. split; [reflexivity | split; [lia | auto]]. Qed.

Lemma rows_removed_take (mask : list bool) (df : DataFrame) :
  rows_removed_from df (frame.take mask df).
Proof.
  split; [apply take_column_names |].
  split; [apply take_len_le | apply take_wf].
Qed.

Lemma rows_removed_trans (a b c : DataFrame) :
  rows_removed_from a b -> rows_removed_from b c -> rows_removed_from a c.
Proof.
  intros (Hn1 & Hl1 & Hw1) (Hn2 & Hl2 & Hw2).
  split; [congruence | split; [lia | auto]].
Qed.

Lemma rows_removed_shape (a b : DataFrame) :
  frame_shape b = frame_shape a -> rows_removed_from a b.
Proof.
  intros Hs. split; [apply column_names_shape, Hs |].
  split; [| apply wf_frame_shape, Hs].
  unfold frame_shape in Hs. injection Hs as -> _. lia.
Qed.

Lemma rows_removed_drop_duplicates (df : DataFrame) :
  rows_removed_from df (frame.drop_duplicates df).
Proof.
  unfold frame.drop_duplicates. destruct (frame.empty df).
  - apply rows_removed_refl.
  - apply rows_removed_take.
Qed.

Lemma returned_prune_outcome (h : list DataFrame) (a d5 out : DataFrame)
  (evs : list event) :
  returned_frame
    (prune_outcome flag (h ++ [a; d5])%list evs (S (length h)) d5) = Some out ->
  rows_removed_from d5 out.
Proof.
  unfold prune_outcome, frame.drop, returned_frame.
  destruct (0 <? length (frame.sparse_rows d5)); [destruct flag |]; simpl.
  - rewrite lookup_snoc. intros [= <-]. apply rows_removed_take.
  - discriminate.
  - rewrite lookup_snoc2. intros [= <-]. apply rows_removed_refl.
Qed.

Lemma main_clean_data_rows_removed (col_types : gmap string (list string))
  (h : list DataFrame) (evs : list event) (l : loc) (d out : DataFrame) :
  h !! l = Some d ->
  returned_frame
    (Main.clean_data parse py_str flag col_types l (mkState h evs)) = Some out ->
  rows_removed_from d out.
Proof.
  intros Hl. rewrite (main_clean_data_run parse py_str flag col_types h evs l d Hl).
  pose proof (keeps_shape_main_repair parse py_str col_types
                (frame.drop_duplicates d)) as Hshape.
  destruct (Main.repair_columns _ _ _ _) as [[[[] | e] d5] out5];
    simpl in Hshape; [| discriminate].
  intros Hret. apply returned_prune_outcome in Hret.
  eapply rows_removed_trans; [apply rows_removed_drop_duplicates |].
  eapply rows_removed_trans; [apply rows_removed_shape, Hshape | exact Hret].
Qed.

Lemma auto_clean_dataset_rows_removed
  (h : list DataFrame) (evs : list event) (l : loc) (d out : DataFrame) :
  h !! l = Some d ->
  returned_frame
    (AutoEda.auto_clean_dataset parse py_str flag l (mkState h evs)) = Some out ->
  rows_removed_from d out.
Proof.
  intros Hl. rewrite (auto_clean_dataset_run parse py_str flag h evs l d Hl).
  pose proof (keeps_shape_auto_repair parse py_str
                (AutoEda.detect_column_types parse d)
                (frame.drop_duplicates d)) as Hshape.
  destruct (AutoEda.repair_columns _ _ _ _) as [[[[] | e] d5] out5];
    simpl in Hshape; [| discriminate].
  intros Hret. apply returned_prune_outcome in Hret.
  eapply rows_removed_trans; [apply rows_removed_drop_duplicates |].
  eapply rows_removed_trans; [apply rows_removed_shape, Hshape | exact Hret].
Qed.

End pipeline_shape.

(** * The detector in closed form *)

Section detect_closed.

Variable parse : string -> option Z.

Lemma column_type_dtype_class (df : DataFrame) (s : Series) :
  Main.column_type parse df s = dtype_class s.
Proof. reflexivity. Qed.

Lemma detect_fold_lookup (df : DataFrame) (cols : list (string * Series))
  (m : gmap string (list string)) (key : string) :
  foldl (fun col_types cs =>
           mapping_append (Main.column_type parse df cs.2) cs.1 col_types)
        m cols !! key
  = (fun names =>
       (names ++ map fst (filter (fun cs => dtype_class cs.2 = key) cols))%list)
      <$> m !! key.
Proof.
  revert m. induction cols as [| [c s] cols IH]; intros m; simpl.
  - destruct (m !! key); simpl; rewrite ?app_nil_r; reflexivity.
  - rewrite IH. unfold mapping_append. rewrite column_type_dtype_class.
    cbn [snd fst].
    destruct (decide (dtype_class s = key)) as [Heq | Hne].
    + rewrite filter_cons_True by exact Heq. subst key.
      rewrite lookup_alter_eq. destruct (m !! dtype_class s); simpl;
        [rewrite <- app_assoc |]; reflexivity.
    + rewrite filter_cons_False by exact Hne.
      rewrite lookup_alter_ne by exact Hne. reflexivity.
Qed.

Lemma detect_lookup (df : DataFrame) (key : string) :
  Main.detect_column_types parse df !! key
  = (fun names => (names ++ names_of_class key df)%list)
      <$> empty_mapping !! key.
Proof. apply detect_fold_lookup. Qed.

Lemma dtype_class_cases (s : Series) :
  dtype_class s = "numeric" \/ dtype_class s = "datetime"
  \/ dtype_class s = "text".
Proof.
  unfold dtype_class. destruct (pd.is_numeric_dtype s); [auto |].
  destruct (pd.is_datetime64_any_dtype s); [auto |].
  destruct (pd.apply_all short_str s); auto.
Qed.

Lemma classes_partition (cols : list (string * Series)) :
  (map fst (filter (fun cs => dtype_class cs.2 = "numeric") cols)
   ++ map fst (filter (fun cs => dtype_class cs.2 = "datetime") cols)
   ++ map fst (filter (fun cs => dtype_class cs.2 = "text") cols))%list
  ≡ₚ map fst cols.
Proof.
  induction cols as [| [c s] cols IH]; [reflexivity |].
  rewrite !filter_cons. simpl.
  destruct (dtype_class_cases s) as [H | [H | H]]; rewrite H; simpl.
  - rewrite IH. reflexivity.
  - rewrite <- Permutation_middle. rewrite IH. reflexivity.
  - rewrite app_assoc. rewrite <- Permutation_middle.
    rewrite <- app_assoc. rewrite IH. reflexivity.
Qed.

End detect_closed.

(** * Runs on the column types detected on the same table *)

Section no_raise.

Variable parse : string -> option Z.
Variable py_str : value -> string.

Lemma lookup_col_elem (cols : list (string * Series)) (col : string)
  (s : Series) :
  NoDup (map fst cols) -> (col, s) ∈ cols ->
  frame.lookup_col cols col = Some s.
Proof.
  induction cols as [| [c s0] cols IH]; simpl; intros Hnd Hin.
  - apply elem_of_nil in Hin as [].
  - apply NoDup_cons in Hnd as [Hc Hnd].
    apply elem_of_cons in Hin as [[= -> ->] | Hin].
    + rewrite String.eqb_refl. reflexivity.
    + destruct (String.eqb c col) eqn:E; [| apply IH; assumption].
      apply String.eqb_eq in E. subst c. exfalso. apply Hc.
      apply list_elem_of_fmap. exists (col, s). split; [reflexivity | exact Hin].
Qed.

Lemma lookup_col_name (cols : list (string * Series)) (col : string) :
  col ∈ map fst cols -> exists s, frame.lookup_col cols col = Some s.
Proof.
  induction cols as [| [c s0] cols IH]; simpl; intros Hin.
  - apply elem_of_nil in Hin as [].
  - destruct (String.eqb c col) eqn:E; [eauto |].
    apply elem_of_cons in Hin as [-> | Hin]; [| auto].
    rewrite String.eqb_refl in E. discriminate.
Qed.

Lemma getitem_of_name (df : DataFrame) (col : string) :
  col ∈ column_names df -> exists s, frame.getitem df col = Ok s.
Proof.
  intros Hin. destruct (lookup_col_name _ _ Hin) as [s Hs].
  exists s. apply getitem_lookup, Hs.
Qed.

Lemma names_of_class_elem (key : string) (df : DataFrame) (col : string) :
  col ∈ names_of_class key df ->
  exists s, (col, s) ∈ df_columns df /\ dtype_class s = key.
Proof.
  unfold names_of_class. intros Hin.
  apply list_elem_of_fmap in Hin as ([c s] & -> & Hin).
  apply list_elem_of_filter in Hin as [Hclass Hin]. eauto.
Qed.

Lemma names_of_class_subset (key : string) (df : DataFrame) (col : string) :
  col ∈ names_of_class key df -> col ∈ column_names df.
Proof.
  intros Hin. apply names_of_class_elem in Hin as (s & Hin & _).
  unfold column_names. apply list_elem_of_fmap. exists (col, s). auto.
Qed.

Lemma dtype_class_numeric (s : Series) :
  dtype_class s = "numeric" <-> s_dtype s = float64.
Proof.
  unfold dtype_class, pd.is_numeric_dtype, pd.is_datetime64_any_dtype.
  destruct (s_dtype s); simpl; try (split; [reflexivity | reflexivity]);
    try (destruct (pd.apply_all short_str s)); split; discriminate.
Qed.

Lemma all_float_numeric_class (df : DataFrame) :
  NoDup (column_names df) -> all_float (names_of_class "numeric" df) df.
Proof.
  intros Hnd col Hin. apply names_of_class_elem in Hin as (s & Hin & Hclass).
  exists s. split; [| apply dtype_class_numeric, Hclass].
  apply getitem_lookup, lookup_col_elem; assumption.
Qed.

Lemma lookup_col_take (mask : list bool) (df : DataFrame) (col : string) :
  frame.lookup_col (df_columns (frame.take mask df)) col
  = (fun s => mkSeries (s_dtype s) (frame.select mask (s_values s)))
      <$> frame.lookup_col (df_columns df) col.
Proof.
  unfold frame.take. simpl.
  induction (df_columns df) as [| [c s] cols IH]; simpl; [reflexivity |].
  destruct (String.eqb c col); [reflexivity | exact IH].
Qed.

Lemma all_float_drop_duplicates (cols : list string) (df : DataFrame) :
  all_float cols df -> all_float cols (frame.drop_duplicates df).
Proof.
  unfold frame.drop_duplicates. destruct (frame.empty df); [auto |].
  intros Hall col Hin. destruct (Hall col Hin) as (s & Hget & Hdt).
  apply getitem_lookup in Hget. eexists. split.
  - apply getitem_lookup. rewrite lookup_col_take, Hget. reflexivity.
  - exact Hdt.
Qed.

Lemma all_float_setitem (cols : list string) (df : DataFrame) (col : string)
  (s : Series) :
  all_float cols df -> s_dtype s = float64 ->
  all_float cols (frame.setitem df col s).
Proof.
  intros Hall Hdt c Hin. destruct (String.eqb_spec col c) as [<- | Hne].
  - exists s. split; [apply getitem_setitem | exact Hdt].
  - destruct (Hall c Hin) as (s' & Hget & Hdt'). exists s'. split; [| exact Hdt'].
    apply getitem_lookup. unfold frame.setitem. simpl.
    rewrite lookup_set_col_ne by exact Hne. apply getitem_lookup, Hget.
Qed.

Lemma median_numbers_kind (qs : list Q) :
  pd.median_numbers qs = NA \/ exists q, pd.median_numbers qs = Num q.
Proof.
  unfold pd.median_numbers. destruct (length (merge_sort Qle qs)); [auto |].
  destruct (Nat.odd _); eauto.
Qed.

Lemma fillna_float_dtype (s : Series) (qs : list Q) :
  s_dtype s = float64 ->
  s_dtype (pd.fillna s (pd.median_numbers qs)) = float64.
Proof.
  intros Hdt. destruct (median_numbers_kind qs) as [-> | [q ->]]; simpl;
    rewrite Hdt; reflexivity.
Qed.

(** A loop whose body ends normally on every table that satisfies an
    invariant, and keeps the invariant, ends normally. *)
Lemma for_each_ok (P : DataFrame -> Prop) (body : string -> D unit)
  (cols : list string) (df : DataFrame) :
  (forall col d, col ∈ cols -> P d ->
     exists d' out, body col d = (Ok tt, d', out) /\ P d') ->
  P df ->
  exists df' out, eff.for_each cols body df = (Ok tt, df', out) /\ P df'.
Proof.
  revert df. induction cols as [| col cols IH]; intros df Hbody HP; simpl.
  - exists df, []. split; [reflexivity | exact HP].
  - destruct (Hbody col df) as (d1 & o1 & Hrun & HP1); [left | exact HP |].
    destruct (IH d1) as (d2 & o2 & Hrest & HP2); [| exact HP1 |].
    { intros c d Hc. apply Hbody. right. exact Hc. }
    exists d2, (o1 ++ o2)%list. unfold mbind, D_bind. rewrite Hrun, Hrest.
    split; [reflexivity | exact HP2].
Qed.

Lemma bind_ok {A B} (m : D A) (f : A -> D B) (df d1 : DataFrame) (a : A)
  (o1 : list event) :
  m df = (Ok a, d1, o1) ->
  (m ≫= f) df = (let '(r, d2, o2) := f a d1 in (r, d2, (o1 ++ o2)%list)).
Proof. intros H. unfold mbind, D_bind. rewrite H. reflexivity. Qed.

Lemma numeric_column_ok (cols : list string) (col : string) (d : DataFrame) :
  col ∈ cols -> all_float cols d ->
  exists d' out,
    Main.numeric_column col d = (Ok tt, d', out) /\ all_float cols d'.
Proof.
  intros Hin Hall. destruct (Hall col Hin) as (s & Hget & Hdt).
  rewrite numeric_column_eq, Hget.
  destruct (0 <? pd.isnull_sum s); [| eauto].
  unfold pd.median. rewrite Hdt. eexists _, _. split; [reflexivity |].
  apply all_float_setitem; [exact Hall |].
  apply fillna_float_dtype, Hdt.
Qed.

(** Each of the other loops ends normally when its columns are in the
    table. *)
Lemma present_column_ok (body : string -> D unit) (ns : list string)
  (col : string) (d : DataFrame) :
  (forall c, keeps_shape (body c)) ->
  (forall c d0 s, frame.getitem d0 c = Ok s -> (body c d0).1.1 = Ok tt) ->
  col ∈ ns -> column_names d = ns ->
  exists d' out, body col d = (Ok tt, d', out) /\ column_names d' = ns.
Proof.
  intros Hshape Hok Hin Hnames.
  destruct (getitem_of_name d col) as [s Hget]; [rewrite Hnames; exact Hin |].
  specialize (Hok col d s Hget). specialize (Hshape col d).
  destruct (body col d) as [[r d'] out]. simpl in *. subst r.
  exists d', out. split; [reflexivity |].
  rewrite <- Hnames. apply column_names_shape, Hshape.
Qed.

Lemma text_column_ok_if_present (c : string) (d0 : DataFrame) (s : Series) :
  frame.getitem d0 c = Ok s -> (Main.text_column py_str c d0).1.1 = Ok tt.
Proof. intros H. rewrite text_column_eq, H. reflexivity. Qed.

Lemma auto_datetime_ok_if_present (c : string) (d0 : DataFrame) (s : Series) :
  frame.getitem d0 c = Ok s -> (AutoEda.datetime_column parse c d0).1.1 = Ok tt.
Proof. intros H. rewrite auto_datetime_column_eq, H. reflexivity. Qed.

Lemma main_datetime_ok (c : string) (d0 : DataFrame) (s : Series) :
  frame.getitem d0 c = Ok s -> (Main.datetime_column parse c d0).1.1 = Ok tt.
Proof. intros H. rewrite main_datetime_column_eq, H. reflexivity. Qed.

Lemma dict_get_detect (df d : DataFrame) (key : string) :
  key ∈ ["numeric"; "datetime"; "categorical"; "text"] ->
  eff.dict_get (Main.detect_column_types parse df) key d
  = (Ok (names_of_class key df), d, []).
Proof.
  intros Hkey. unfold eff.dict_get, eff.lift. rewrite detect_lookup.
  repeat (apply elem_of_cons in Hkey as [-> | Hkey]; [reflexivity |]).
  apply elem_of_nil in Hkey as [].
Qed.

Lemma names_of_class_categorical (df : DataFrame) :
  names_of_class "categorical" df = [].
Proof.
  unfold names_of_class.
  induction (df_columns df) as [| [c s] cols IH]; [reflexivity |].
  rewrite filter_cons_False; [exact IH |]. simpl.
  destruct (dtype_class_cases s) as [H | [H | H]]; rewrite H; discriminate.
Qed.

Lemma drop_duplicates_column_names (df : DataFrame) :
  column_names (frame.drop_duplicates df) = column_names df.
Proof. apply rows_removed_drop_duplicates. Qed.

(** With the column types detected on the table itself, the four loops of
    [auto_clean_dataset] end normally. *)
Lemma auto_repair_ok (df : DataFrame) :
  NoDup (column_names df) ->
  exists d5 out5,
    AutoEda.repair_columns parse py_str (AutoEda.detect_column_types parse df)
      (frame.drop_duplicates df)
    = (Ok tt, d5, out5).
Proof.
  intros Hnd. set (d := frame.drop_duplicates df).
  change (AutoEda.detect_column_types parse df)
    with (Main.detect_column_types parse df).
  destruct (for_each_ok (all_float (names_of_class "numeric" df))
              Main.numeric_column (names_of_class "numeric" df) d)
    as (d1 & o1 & Hnum & _).
  { intros col d0. apply numeric_column_ok. }
  { apply all_float_drop_duplicates, all_float_numeric_class, Hnd. }
  assert (column_names d1 = column_names df) as Hn1.
  { rewrite <- (drop_duplicates_column_names df). fold d.
    apply column_names_shape.
    pose proof (keeps_shape_for_each (names_of_class "numeric" df)
                  Main.numeric_column keeps_shape_numeric d) as Hs.
    rewrite Hnum in Hs. exact Hs. }
  destruct (for_each_ok (fun d0 => column_names d0 = column_names df)
              (AutoEda.datetime_column parse) (names_of_class "datetime" df) d1)
    as (d3 & o3 & Hdate & Hn3); [| exact Hn1 |].
  { intros col d0 Hin Hd0.
    apply (present_column_ok (AutoEda.datetime_column parse) (column_names df));
      [apply keeps_shape_auto_datetime | apply auto_datetime_ok_if_present
      | eapply names_of_class_subset, Hin | exact Hd0]. }
  destruct (for_each_ok (fun d0 => column_names d0 = column_names df)
              (Main.text_column py_str) (names_of_class "text" df) d3)
    as (d4 & o4 & Htext & _); [| exact Hn3 |].
  { intros col d0 Hin Hd0.
    apply (present_column_ok (Main.text_column py_str) (column_names df));
      [apply keeps_shape_text | apply text_column_ok_if_present
      | eapply names_of_class_subset, Hin | exact Hd0]. }
  unfold AutoEda.repair_columns.
  rewrite (bind_ok _ _ _ _ _ _ (dict_get_detect df d "numeric" ltac:(set_solver))).
  rewrite (bind_ok _ _ _ _ _ _ Hnum).
  rewrite (bind_ok _ _ _ _ _ _
             (dict_get_detect df d1 "categorical" ltac:(set_solver))).
  rewrite names_of_class_categorical. simpl eff.for_each.
  rewrite (bind_ok _ _ _ d1 tt [] eq_refl).
  rewrite (bind_ok _ _ _ _ _ _ (dict_get_detect df d1 "datetime" ltac:(set_solver))).
  rewrite (bind_ok _ _ _ _ _ _ Hdate).
  rewrite (bind_ok _ _ _ _ _ _ (dict_get_detect df d3 "text" ltac:(set_solver))).
  change (AutoEda.text_column py_str) with (Main.text_column py_str).
  rewrite Htext. eauto.
Qed.

(** The same for [clean_data] of [main.py] when [self.col_types] was
    detected on the table that is cleaned. *)
Lemma main_repair_ok (df : DataFrame) :
  NoDup (column_names df) ->
  exists d5 out5,
    Main.repair_columns parse py_str (Main.detect_column_types parse df)
      (frame.drop_duplicates df)
    = (Ok tt, d5, out5).
Proof.
  intros Hnd. set (d := frame.drop_duplicates df).
  destruct (for_each_ok (all_float (names_of_class "numeric" df))
              Main.numeric_column (names_of_class "numeric" df) d)
    as (d1 & o1 & Hnum & _).
  { intros col d0. apply numeric_column_ok. }
  { apply all_float_drop_duplicates, all_float_numeric_class, Hnd. }
  assert (column_names d1 = column_names df) as Hn1.
  { rewrite <- (drop_duplicates_column_names df). fold d.
    apply column_names_shape.
    pose proof (keeps_shape_for_each (names_of_class "numeric" df)
                  Main.numeric_column keeps_shape_numeric d) as Hs.
    rewrite Hnum in Hs. exact Hs. }
  destruct (for_each_ok (fun d0 => column_names d0 = column_names df)
              (Main.datetime_column parse) (names_of_class "datetime" df) d1)
    as (d3 & o3 & Hdate & Hn3); [| exact Hn1 |].
  { intros col d0 Hin Hd0.
    apply (present_column_ok (Main.datetime_column parse) (column_names df));
      [apply keeps_shape_main_datetime | apply main_datetime_ok
      | eapply names_of_class_subset, Hin | exact Hd0]. }
  destruct (for_each_ok (fun d0 => column_names d0 = column_names df)
              (Main.text_column py_str) (names_of_class "text" df) d3)
    as (d4 & o4 & Htext & _); [| exact Hn3 |].
  { intros col d0 Hin Hd0.
    apply (present_column_ok (Main.text_column py_str) (column_names df));
      [apply keeps_shape_text | apply text_column_ok_if_present
      | eapply names_of_class_subset, Hin | exact Hd0]. }
  unfold Main.repair_columns.
  rewrite (bind_ok _ _ _ _ _ _ (dict_get_detect df d "numeric" ltac:(set_solver))).
  rewrite (bind_ok _ _ _ _ _ _ Hnum).
  rewrite (bind_ok _ _ _ _ _ _
             (dict_get_detect df d1 "categorical" ltac:(set_solver))).
  rewrite names_of_class_categorical. simpl eff.for_each.
  rewrite (bind_ok _ _ _ d1 tt [] eq_refl).
  rewrite (bind_ok _ _ _ _ _ _ (dict_get_detect df d1 "datetime" ltac:(set_solver))).
  rewrite (bind_ok _ _ _ _ _ _ Hdate).
  rewrite (bind_ok _ _ _ _ _ _ (dict_get_detect df d3 "text" ltac:(set_solver))).
  rewrite Htext. eauto.
Qed.

End no_raise.

(** * Deduplication *)

Section dedup.

Lemma value_eqb_trans (a b c : value) :
  value_eqb a b = true -> value_eqb b c = true -> value_eqb a c = true.
Proof.
  destruct a, b, c; simpl; try discriminate; try reflexivity.
  - rewrite !Qeq_bool_iff. intros H1 H2. rewrite H1. exact H2.
  - rewrite !String.eqb_eq. congruence.
  - rewrite !Z.eqb_eq. congruence.
Qed.

Lemma row_eqb_trans (r1 r2 r3 : list value) :
  row_eqb r1 r2 = true -> row_eqb r2 r3 = true -> row_eqb r1 r3 = true.
Proof.
  revert r2 r3. induction r1 as [| a r1 IH]; intros [| b r2] [| c r3]; simpl;
    try discriminate; try reflexivity.
  rewrite !andb_true_iff. intros [Hab H12] [Hbc H23].
  split; [eapply value_eqb_trans; eassumption | eapply IH; eassumption].
Qed.

Lemma duplicated_from_length (seen rs : list (list value)) :
  length (frame.duplicated_from seen rs) = length rs.
Proof.
  revert seen. induction rs as [| r rs IH]; intros seen; simpl; [reflexivity |].
  rewrite IH. reflexivity.
Qed.

(** Among the rows that are kept, none repeats an earlier one. *)
Lemma kept_rows_distinct (rs seen seen' : list (list value)) :
  (forall x, existsb (row_eqb x) seen = existsb (row_eqb x) seen') ->
  Forall (fun b => b = false)
    (frame.duplicated_from seen'
       (frame.select (map negb (frame.duplicated_from seen rs)) rs)).
Proof.
  revert seen seen'. induction rs as [| r rs IH]; intros seen seen' Hsame; simpl.
  - constructor.
  - destruct (existsb (row_eqb r) seen) eqn:Hr; simpl.
    + apply IH. intros x. simpl. rewrite <- Hsame.
      destruct (row_eqb x r) eqn:Hxr; [| reflexivity]. simpl. symmetry.
      apply existsb_exists in Hr as (s & Hs & Hrs).
      apply existsb_exists. exists s. split; [exact Hs |].
      eapply row_eqb_trans; eassumption.
    + constructor; [rewrite <- Hsame; exact Hr |].
      apply IH. intros x. simpl. rewrite Hsame. reflexivity.
Qed.

Lemma select_seq_count (bits : list bool) (a : nat) :
  length (frame.select (map negb bits) (seq a (length bits)))
  + length (filter (fun b => b = true) bits)
  = length bits.
Proof.
  revert a. induction bits as [| b bits IH]; intros a; simpl; [reflexivity |].
  rewrite filter_cons. specialize (IH (S a)). destruct b; simpl in *; lia.
Qed.

Lemma select_all (mask : list bool) {A} (xs : list A) :
  Forall (fun b => b = true) mask -> length mask = length xs ->
  frame.select mask xs = xs.
Proof.
  intros Hall. revert xs. induction Hall as [| b mask -> _ IH];
    intros [| x xs]; simpl; try discriminate; try reflexivity.
  intros [= H]. rewrite (IH xs H). reflexivity.
Qed.

Lemma rows_rows_of (df : DataFrame) :
  frame.rows df = rows_of (df_len df) (map (fun cs => s_values cs.2) (df_columns df)).
Proof.
  unfold frame.rows, rows_of, frame.row. apply map_ext. intros i.
  rewrite map_map. reflexivity.
Qed.

Lemma rows_of_succ (n : nat) (vals : list (list value)) :
  rows_of (S n) vals
  = map (fun vs => nth 0 vs NA) vals :: rows_of n (map (@tl value) vals).
Proof.
  unfold rows_of. simpl. f_equal. rewrite <- seq_shift, map_map.
  apply map_ext. intros i. rewrite map_map. apply map_ext. intros vs.
  destruct vs; [destruct i |]; reflexivity.
Qed.

Lemma select_rows_of (mask : list bool) (vals : list (list value)) :
  Forall (fun vs => length vs = length mask) vals ->
  frame.select mask (rows_of (length mask) vals)
  = rows_of (length (frame.select mask (seq 0 (length mask))))
      (map (frame.select mask) vals).
Proof.
  revert vals. induction mask as [| b mask IH]; intros vals Hlen.
  - reflexivity.
  - cbn [length]. rewrite rows_of_succ.
    assert (Forall (fun vs => length vs = length mask) (map (@tl value) vals))
      as Htl.
    { apply Forall_forall. intros vs Hvs.
      apply list_elem_of_fmap in Hvs as (ws & -> & Hws).
      rewrite Forall_forall in Hlen. specialize (Hlen ws Hws).
      destruct ws; simpl in *; [discriminate | lia]. }
    specialize (IH _ Htl).
    assert (length (frame.select mask (seq 1 (length mask)))
            = length (frame.select mask (seq 0 (length mask)))) as Hshift.
    { apply select_length_eq. rewrite !length_seq. reflexivity. }
    destruct b; cbn [frame.select seq].
    + rewrite IH. cbn [length]. rewrite Hshift, rows_of_succ. f_equal.
      * rewrite map_map. apply map_ext_in. intros vs Hvs.
        rewrite Forall_forall in Hlen.
        apply list_elem_of_In, Hlen in Hvs. destruct vs; [discriminate |].
        reflexivity.
      * f_equal. rewrite !map_map. apply map_ext_in. intros vs Hvs.
        rewrite Forall_forall in Hlen.
        apply list_elem_of_In, Hlen in Hvs. destruct vs; [discriminate |].
        reflexivity.
    + rewrite IH, Hshift. f_equal. rewrite !map_map. apply map_ext.
      intros vs. destruct vs; [destruct mask |]; reflexivity.
Qed.

(** Selecting rows of a well-formed table selects them in its row view. *)
Lemma rows_take (mask : list bool) (df : DataFrame) :
  wf_frame df -> length mask = df_len df ->
  frame.rows (frame.take mask df) = frame.select mask (frame.rows df).
Proof.
  intros Hwf Hmask. rewrite !rows_rows_of. unfold frame.take. simpl.
  rewrite <- Hmask, select_rows_of.
  - rewrite !map_map. reflexivity.
  - apply Forall_forall. intros vs Hvs.
    apply list_elem_of_fmap in Hvs as (cs & -> & Hcs).
    unfold wf_frame in Hwf. rewrite Forall_forall in Hwf.
    rewrite Hmask. apply Hwf, Hcs.
Qed.

Lemma rows_length (df : DataFrame) : length (frame.rows df) = df_len df.
Proof. unfold frame.rows. rewrite length_map, length_seq. reflexivity. Qed.

Lemma count_true_all_false (bits : list bool) :
  Forall (fun b => b = false) bits ->
  length (filter (fun b => b = true) bits) = 0.
Proof.
  induction 1 as [| b bits -> _ IH]; [reflexivity |].
  rewrite filter_cons. simpl. exact IH.
Qed.

Lemma duplicated_drop_duplicates (df : DataFrame) :
  wf_frame df ->
  Forall (fun b => b = false) (frame.duplicated (frame.drop_duplicates df)).
Proof.
  intros Hwf. unfold frame.drop_duplicates.
  destruct (frame.empty df) eqn:He.
  - unfold frame.duplicated. rewrite He. constructor.
  - unfold frame.duplicated at 1.
    destruct (frame.empty (frame.take _ df)); [constructor |].
    rewrite rows_take; [| exact Hwf |].
    + unfold frame.duplicated. rewrite He. apply kept_rows_distinct.
      reflexivity.
    + unfold frame.duplicated. rewrite He.
      rewrite length_map, duplicated_from_length. apply rows_length.
Qed.

Lemma take_all_true (mask : list bool) (df : DataFrame) :
  wf_frame df -> Forall (fun b => b = true) mask -> length mask = df_len df ->
  frame.take mask df = df.
Proof.
  intros Hwf Hall Hlen. unfold frame.take. destruct df as [n cols].
  simpl in *. f_equal.
  - rewrite select_all; [apply length_seq | exact Hall |].
    rewrite length_seq. exact Hlen.
  - unfold wf_frame in Hwf. simpl in Hwf.
    induction Hwf as [| [c [dt vs]] cols Hcs _ IH]; [reflexivity |].
    simpl in *. rewrite IH. rewrite select_all; [reflexivity | exact Hall |].
    congruence.
Qed.

Lemma drop_duplicates_idempotent (df : DataFrame) :
  wf_frame df ->
  frame.drop_duplicates (frame.drop_duplicates df) = frame.drop_duplicates df.
Proof.
  intros Hwf. pose proof (duplicated_drop_duplicates df Hwf) as Hnone.
  assert (wf_frame (frame.drop_duplicates df)) as Hwf'
    by (apply rows_removed_drop_duplicates, Hwf).
  set (d := frame.drop_duplicates df) in *.
  unfold frame.drop_duplicates at 1.
  destruct (frame.empty d) eqn:He; [reflexivity |].
  apply take_all_true; [exact Hwf' | |].
  - apply Forall_forall. intros b Hb.
    apply list_elem_of_fmap in Hb as (b' & -> & Hb').
    rewrite Forall_forall in Hnone. rewrite (Hnone b' Hb'). reflexivity.
  - rewrite length_map. unfold frame.duplicated. rewrite He.
    rewrite duplicated_from_length. apply rows_length.
Qed.

Lemma drop_duplicates_count (df : DataFrame) :
  df_len (frame.drop_duplicates df) + frame.duplicated_sum df = df_len df.
Proof.
  unfold frame.drop_duplicates, frame.duplicated_sum, frame.duplicated.
  destruct (frame.empty df); [simpl; lia |].
  unfold frame.take. simpl.
  pose proof (select_seq_count (frame.duplicated_from [] (frame.rows df)) 0) as H.
  rewrite duplicated_from_length, rows_length in H. exact H.
Qed.

End dedup.

(** * More on the quality score *)

Section score_more.

Lemma ratio_zero_iff (a b : nat) :
  0 < b -> (spec.ratio a b == 0)%Q <-> a = 0.
Proof.
  intros Hb. unfold spec.ratio, Qdiv.
  set (x := Z.of_nat a). set (y := Z.of_nat b).
  assert (~ inject_Z y == 0)%Q as Hy.
  { unfold y, Qeq, inject_Z. simpl. lia. }
  split.
  - intros H. apply Qmult_integral in H as [H | H].
    + unfold x, Qeq, inject_Z in H. simpl in H. lia.
    + exfalso. apply Hy. rewrite <- (Qinv_involutive (inject_Z y)), H.
      reflexivity.
  - intros ->. unfold x. simpl. apply Qmult_0_l.
Qed.

Lemma clamp_100_iff (x : Q) :
  (x <= 100)%Q -> (spec.clamp 0 100 x == 100)%Q <-> (x == 100)%Q.
Proof.
  intros Hx. unfold spec.clamp.
  destruct (Qlt_le_dec x 0); [| destruct (Qlt_le_dec 100 x)]; split; lra.
Qed.

Lemma raw_score_100_iff (df : DataFrame) :
  0 < df_len df -> 0 < frame.ncols df ->
  (spec.raw_score df == 100)%Q
  <-> frame.missing_total df = 0 /\ frame.duplicated_sum df = 0.
Proof.
  intros Hr Hc. unfold spec.raw_score, spec.missing_ratio, spec.duplicate_ratio.
  pose proof (ratio_nonneg (frame.missing_total df)
                (df_len df * frame.ncols df)) as Hm.
  pose proof (ratio_nonneg (frame.duplicated_sum df) (df_len df)) as Hd.
  rewrite <- (ratio_zero_iff (frame.missing_total df)
                (df_len df * frame.ncols df)) by lia.
  rewrite <- (ratio_zero_iff (frame.duplicated_sum df) (df_len df)) by lia.
  split; [intros H; split; lra | intros [H1 H2]; lra].
Qed.

Lemma float_eq_fin (x : pyfloat) (a b : Q) :
  pyfloat_ops.eq x (Fin a) -> (pyfloat_ops.eq x (Fin b) <-> (a == b)%Q).
Proof.
  destruct x; simpl; try contradiction. intros ->. reflexivity.
Qed.

Lemma count_null_all (vs : list value) :
  Forall (fun v => v = NA) vs -> count_null vs = length vs.
Proof.
  unfold count_null. induction 1 as [| v vs -> _ IH]; [reflexivity |].
  rewrite filter_cons. simpl. rewrite IH. reflexivity.
Qed.

Lemma missing_total_all_absent (df : DataFrame) :
  wf_frame df -> all_absent df ->
  frame.missing_total df = df_len df * frame.ncols df.
Proof.
  unfold wf_frame, all_absent, frame.missing_total, frame.isnull_sum,
    frame.ncols.
  intros Hwf Hall. induction Hwf as [| [c s] cols Hcs _ IH]; simpl; [lia |].
  apply Forall_cons in Hall as [Hs Hall]. simpl in *.
  rewrite (IH Hall). unfold pd.isnull_sum. rewrite (count_null_all _ Hs). lia.
Qed.

Lemma ratio_self (a : nat) : 0 < a -> (spec.ratio a a == 1)%Q.
Proof.
  intros Ha. unfold spec.ratio. apply Qmult_inv_r.
  unfold Qeq, inject_Z. simpl. lia.
Qed.

End score_more.

(** * What the fill steps put in a column *)

Section fills.

Variable py_str : value -> string.

Lemma numbers_elem (vs : list value) (q : Q) :
  q ∈ pd.numbers vs <-> Num q ∈ vs.
Proof.
  unfold pd.numbers. rewrite list_elem_of_omap. split.
  - intros (v & Hv & Heq). destruct v; try discriminate.
    injection Heq as ->. exact Hv.
  - intros H. exists (Num q). auto.
Qed.

Lemma nth_elem_of {A} (l : list A) (i : nat) (d : A) :
  i < length l -> nth i l d ∈ l.
Proof. intros H. apply list_elem_of_In, nth_In, H. Qed.

(** The median of a non-empty list of numbers is a number within the
    bounds of the list. *)
Lemma median_numbers_bounds (qs : list Q) (lo hi : Q) :
  qs <> [] ->
  (forall q, q ∈ qs -> (lo <= q <= hi)%Q) ->
  exists m, pd.median_numbers qs = Num m /\ (lo <= m <= hi)%Q.
Proof.
  intros Hne Hall. unfold pd.median_numbers.
  pose proof (merge_sort_Permutation Qle qs) as Hperm.
  set (sorted := merge_sort Qle qs) in *.
  assert (forall i, i < length sorted -> (lo <= nth i sorted 0 <= hi)%Q) as Hnth.
  { intros i Hi. apply Hall. rewrite <- Hperm. apply nth_elem_of, Hi. }
  assert (0 < length sorted) as Hpos.
  { rewrite (Permutation_length Hperm). destruct qs; [congruence | simpl; lia]. }
  destruct (length sorted) as [| n] eqn:Hn; [lia |].
  pose proof (Nat.div_lt (S n) 2 ltac:(lia) ltac:(lia)) as Hhalf.
  destruct (Nat.odd (S n)).
  - eexists. split; [reflexivity |]. apply Hnth. lia.
  - eexists. split; [reflexivity |]. rewrite Qred_correct.
    pose proof (Hnth (S n / 2 - 1) ltac:(lia)) as Ha.
    pose proof (Hnth (S n / 2) ltac:(lia)) as Hb.
    set (a := nth (S n / 2 - 1) sorted 0%Q) in *.
    set (b := nth (S n / 2) sorted 0%Q) in *.
    split; apply Qle_shift_div_l || apply Qle_shift_div_r; lra.
Qed.

Lemma map_fill_no_absent (vs : list value) (fill : value) :
  fill <> NA -> NA ∉ map (fun v => if isnull v then fill else v) vs.
Proof.
  intros Hfill Hin. apply list_elem_of_fmap in Hin as (v & Heq & _).
  destruct v; simpl in Heq; congruence.
Qed.

Lemma series_eta (s : Series) : mkSeries (s_dtype s) (s_values s) = s.
Proof. destruct s; reflexivity. Qed.

Lemma map_fill_id (vs : list value) (fill : value) :
  NA ∉ vs -> map (fun v => if isnull v then fill else v) vs = vs.
Proof.
  intros Hnot. induction vs as [| v vs IH]; [reflexivity |]. simpl.
  rewrite IH by (intros H; apply Hnot; right; exact H).
  destruct v; simpl; try reflexivity. exfalso. apply Hnot. left.
Qed.

Lemma isnull_sum_zero (s : Series) :
  (0 <? pd.isnull_sum s) = false -> NA ∉ s_values s.
Proof.
  intros H Hin. apply isnull_sum_pos in Hin. apply Nat.ltb_ge in H. lia.
Qed.

Lemma numbers_all_absent (vs : list value) :
  Forall (fun v => v = NA) vs -> pd.numbers vs = [].
Proof. induction 1 as [| v vs -> _ IH]; [reflexivity | exact IH]. Qed.

Lemma timestamps_all_absent_cells (vs : list value) :
  Forall (fun v => v = NA) vs -> pd.timestamps vs = [].
Proof. induction 1 as [| v vs -> _ IH]; [reflexivity | exact IH]. Qed.

Lemma median_all_absent (s : Series) :
  Forall (fun v => v = NA) (s_values s) -> pd.median s = Ok NA.
Proof.
  intros Hall. unfold pd.median.
  rewrite (numbers_all_absent _ Hall), (timestamps_all_absent_cells _ Hall).
  destruct (s_dtype s); try reflexivity.
  replace (forallb pd.is_number_or_null (s_values s)) with true; [reflexivity |].
  symmetry. apply forallb_forall. intros v Hv.
  rewrite Forall_forall in Hall. apply list_elem_of_In in Hv.
  rewrite (Hall v Hv). reflexivity.
Qed.

Lemma dropna_all_absent (vs : list value) :
  Forall (fun v => v = NA) vs -> pd.dropna vs = [].
Proof.
  unfold pd.dropna. induction 1 as [| v vs -> _ IH]; [reflexivity |].
  rewrite filter_cons. simpl. exact IH.
Qed.

Lemma existsb_isnull_all_absent (vs : list value) :
  vs <> [] -> Forall (fun v => v = NA) vs -> existsb isnull vs = true.
Proof. intros Hne Hall. destruct Hall as [| v vs -> _]; [congruence | reflexivity]. Qed.

Lemma fill_unknown_all_absent (s : Series) :
  s_values s <> [] -> Forall (fun v => v = NA) (s_values s) ->
  pd.fillna s (Str "Unknown")
  = mkSeries object (map (fun _ => Str "Unknown") (s_values s)).
Proof.
  intros Hne Hall. unfold pd.fillna. f_equal.
  - rewrite (existsb_isnull_all_absent _ Hne Hall).
    destruct (s_dtype s); reflexivity.
  - apply map_ext_in. intros v Hv. rewrite Forall_forall in Hall.
    apply list_elem_of_In in Hv. rewrite (Hall v Hv). reflexivity.
Qed.

End fills.

(** * The repair loops column by column *)

Section local.

Variable py_str : value -> string.

Lemma lookup_setitem (d : DataFrame) (col c : string) (s : Series) :
  frame.lookup_col (df_columns (frame.setitem d col s)) c
  = if bool_decide (c = col) then Some s
    else frame.lookup_col (df_columns d) c.
Proof.
  unfold frame.setitem. simpl. case_bool_decide as Hc.
  - subst c. apply lookup_set_col_eq.
  - apply lookup_set_col_ne. congruence.
Qed.

(** A loop over distinct columns whose body assigns to its own column a
    function of that column maps the columns of the list and leaves the
    others. *)
Lemma for_each_local (body : string -> D unit) (G : string -> Series -> Series)
  (R : Series -> Prop) (cols : list string) (d : DataFrame) :
  NoDup cols ->
  (forall col d0 s,
      frame.getitem d0 col = Ok s -> R s ->
      exists ev, body col d0 = (Ok tt, frame.setitem d0 col (G col s), ev)) ->
  (forall col, col ∈ cols -> exists s, frame.getitem d col = Ok s /\ R s) ->
  exists d' ev,
    eff.for_each cols body d = (Ok tt, d', ev) /\ columns_mapped G cols d d'.
Proof.
  intros Hnd Hbody. revert d.
  induction Hnd as [| col cols Hnot Hnd IH]; intros d Hpre.
  - exists d, []. split; [reflexivity |]. intros c. reflexivity.
  - destruct (Hpre col) as (s & Hget & HR); [left |].
    destruct (Hbody col d s Hget HR) as (ev & Hrun).
    destruct (IH (frame.setitem d col (G col s))) as (d' & ev' & Hrest & Hmap).
    { intros c Hc. destruct (Hpre c) as (s' & Hget' & HR'); [right; exact Hc |].
      exists s'. split; [| exact HR']. apply getitem_lookup.
      rewrite lookup_setitem. rewrite bool_decide_eq_false_2.
      - apply getitem_lookup, Hget'.
      - intros ->. contradiction. }
    exists d', (ev ++ ev')%list. split.
    { simpl. unfold mbind, D_bind. rewrite Hrun, Hrest. reflexivity. }
    intros c. rewrite (Hmap c), lookup_setitem.
    apply getitem_lookup in Hget.
    destruct (decide (c = col)) as [-> | Hne].
    + rewrite (bool_decide_eq_false_2 (col ∈ cols)) by exact Hnot.
      rewrite bool_decide_eq_true_2 by reflexivity.
      rewrite (bool_decide_eq_true_2 (col ∈ col :: cols)) by left.
      rewrite Hget. reflexivity.
    + rewrite (bool_decide_eq_false_2 (c = col)) by exact Hne.
      destruct (decide (c ∈ cols)) as [Hin | Hnin].
      * rewrite !bool_decide_eq_true_2; [reflexivity | right; exact Hin | exact Hin].
      * rewrite !bool_decide_eq_false_2; [reflexivity | | exact Hnin].
        intros H. apply elem_of_cons in H as [H | H]; contradiction.
Qed.

Lemma numeric_column_local (col : string) (d0 : DataFrame) (s : Series) :
  frame.getitem d0 col = Ok s -> s_dtype s = float64 ->
  exists ev,
    Main.numeric_column col d0
    = (Ok tt, frame.setitem d0 col (numeric_repair s), ev).
Proof.
  intros Hget Hdt. rewrite numeric_column_eq, Hget. unfold numeric_repair.
  unfold pd.median. rewrite Hdt.
  destruct (0 <? pd.isnull_sum s); eexists; [reflexivity |].
  rewrite (setitem_same d0 col s Hget). reflexivity.
Qed.

Lemma text_column_local (col : string) (d0 : DataFrame) (s : Series) :
  frame.getitem d0 col = Ok s -> True ->
  exists ev,
    Main.text_column py_str col d0
    = (Ok tt, frame.setitem d0 col (text_repair py_str s), ev).
Proof.
  intros Hget _. rewrite text_column_eq, Hget. eexists. reflexivity.
Qed.

Lemma lookup_col_Some_elem (cols : list (string * Series)) (c : string)
  (s : Series) :
  frame.lookup_col cols c = Some s -> (c, s) ∈ cols.
Proof.
  induction cols as [| [c0 s0] cols IH]; simpl; [discriminate |].
  destruct (String.eqb_spec c0 c) as [-> | Hne].
  - intros [= ->]. left.
  - intros H. right. apply IH, H.
Qed.

End local.

Section no_absent.

Variable py_str : value -> string.

Lemma median_numbers_some (qs : list Q) :
  qs <> [] -> exists m, pd.median_numbers qs = Num m.
Proof.
  intros Hne. unfold pd.median_numbers.
  pose proof (Permutation_length (merge_sort_Permutation Qle qs)) as Hlen.
  destruct (length (merge_sort Qle qs)) as [| n].
  - destruct qs; [congruence | discriminate].
  - destruct (Nat.odd (S n)); eauto.
Qed.

Lemma median_timestamps_some (ts : list Z) :
  ts <> [] -> exists m, pd.median_timestamps ts = Ts m.
Proof.
  intros Hne. unfold pd.median_timestamps.
  pose proof (Permutation_length (merge_sort_Permutation Z.le ts)) as Hlen.
  destruct (length (merge_sort Z.le ts)) as [| n].
  - destruct ts; [congruence | discriminate].
  - destruct (Nat.odd (S n)); eauto.
Qed.

Lemma timestamps_elem (vs : list value) (t : Z) :
  t ∈ pd.timestamps vs <-> Ts t ∈ vs.
Proof.
  unfold pd.timestamps. rewrite list_elem_of_omap. split.
  - intros (v & Hv & Heq). destruct v; try discriminate.
    injection Heq as ->. exact Hv.
  - intros H. exists (Ts t). auto.
Qed.

Lemma numeric_repair_no_absent (s : Series) :
  (exists q, Num q ∈ s_values s) -> NA ∉ s_values (numeric_repair s).
Proof.
  intros [q Hq]. unfold numeric_repair.
  destruct (0 <? pd.isnull_sum s) eqn:Hmissing;
    [| apply isnull_sum_zero, Hmissing].
  destruct (median_numbers_some (pd.numbers (s_values s))) as [m ->].
  { intros Hnil. apply numbers_elem in Hq. rewrite Hnil in Hq.
    apply elem_of_nil in Hq as []. }
  simpl. apply map_fill_no_absent. discriminate.
Qed.

Lemma strftime_no_absent (vs : list value) :
  (forall v, v ∈ vs -> exists t, v = Ts t) ->
  NA ∉ s_values (pd.dt_strftime (mkSeries datetime64 vs)).
Proof.
  intros Hall Hin. simpl in Hin.
  apply list_elem_of_fmap in Hin as (v & Heq & Hv).
  destruct (Hall v Hv) as [t ->]. discriminate.
Qed.

Lemma text_repair_no_absent (s : Series) :
  s_dtype s = object -> NA ∉ s_values (text_repair py_str s).
Proof.
  intros Hobj. unfold text_repair.
  assert (s_dtype (if 0 <? pd.isnull_sum s
                   then pd.fillna s (Str "Unknown") else s) = object) as ->.
  { destruct (0 <? pd.isnull_sum s); [| exact Hobj]. simpl.
    rewrite Hobj. reflexivity. }
  simpl. intros Hin. apply list_elem_of_fmap in Hin as (v & Heq & Hv).
  destruct (0 <? pd.isnull_sum s) eqn:Hmissing.
  - simpl in Hv. apply list_elem_of_fmap in Hv as (w & -> & Hw).
    destruct w; simpl in Heq; discriminate.
  - apply list_elem_of_fmap in Hv as (w & -> & Hw).
    destruct w; simpl in Heq; try discriminate.
Qed.

Lemma lookup_drop_duplicates_dtype (df : DataFrame) (c : string) (s : Series) :
  frame.lookup_col (df_columns (frame.drop_duplicates df)) c = Some s ->
  exists s0,
    frame.lookup_col (df_columns df) c = Some s0 /\ s_dtype s = s_dtype s0.
Proof.
  unfold frame.drop_duplicates. destruct (frame.empty df); [eauto |].
  rewrite lookup_col_take.
  destruct (frame.lookup_col (df_columns df) c) as [s0 |]; [| discriminate].
  intros [= <-]. eauto.
Qed.

Lemma count_null_zero (vs : list value) :
  Forall (fun v => v <> NA) vs -> count_null vs = 0.
Proof.
  unfold count_null. induction 1 as [| v vs Hv _ IH]; [reflexivity |].
  rewrite filter_cons. destruct v; simpl; try exact IH. congruence.
Qed.

(** A well-formed table without absent cells has no sparse row. *)
Lemma no_absent_no_sparse_rows (df : DataFrame) :
  wf_frame df ->
  NoDup (column_names df) ->
  (forall c s, frame.lookup_col (df_columns df) c = Some s -> NA ∉ s_values s) ->
  frame.sparse_rows df = [].
Proof.
  intros Hwf Hnd Hnone.
  assert (forall i, i ∉ frame.sparse_rows df) as Hno.
  { intros i Hi. apply elem_of_sparse_rows in Hi as [Hlt Hhalf].
    assert (count_null (frame.row df i) = 0) as Hzero; [| lia].
    apply count_null_zero. unfold frame.row. apply Forall_forall.
    intros v Hv. apply list_elem_of_fmap in Hv as ([c s] & -> & Hcs).
    simpl. intros Hna. apply (Hnone c s).
    - apply lookup_col_elem; assumption.
    - rewrite <- Hna. apply nth_elem_of.
      unfold wf_frame in Hwf. rewrite Forall_forall in Hwf.
      specialize (Hwf (c, s) Hcs). simpl in Hwf. lia. }
  destruct (frame.sparse_rows df) as [| i rest]; [reflexivity |].
  exfalso. apply (Hno i). left.
Qed.

End no_absent.

(** * What deduplication keeps of a column *)

Section kept_cells.

Lemma value_eqb_refl (v : value) : value_eqb v v = true.
Proof.
  destruct v; simpl; [reflexivity | | apply String.eqb_refl | apply Z.eqb_refl].
  apply Qeq_bool_iff. reflexivity.
Qed.

Lemma row_eqb_refl (r : list value) : row_eqb r r = true.
Proof.
  induction r as [| v r IH]; simpl; [reflexivity |].
  rewrite value_eqb_refl. exact IH.
Qed.

(** Every row equals a row at or before it that is not marked, unless it
    equals a row seen before the scan. *)
Lemma duplicated_from_first (rs seen : list (list value)) (i : nat)
  (r : list value) :
  rs !! i = Some r ->
  (exists r', r' ∈ seen /\ row_eqb r r' = true)
  \/ (exists j r', j <= i /\ rs !! j = Some r'
        /\ frame.duplicated_from seen rs !! j = Some false
        /\ row_eqb r r' = true).
Proof.
  revert seen i. induction rs as [| r0 rs IH]; intros seen i Hi;
    [destruct i; discriminate |].
  assert ((exists r', r' ∈ seen /\ row_eqb r0 r' = true)
          \/ existsb (row_eqb r0) seen = false) as Hhead.
  { destruct (existsb (row_eqb r0) seen) eqn:Hex; [left | right; reflexivity].
    apply existsb_exists in Hex as (r' & Hin & Heq).
    exists r'. split; [apply list_elem_of_In, Hin | exact Heq]. }
  destruct i as [| i]; simpl in Hi.
  - injection Hi as ->. destruct Hhead as [Hseen | Hnew]; [left; exact Hseen |].
    right. exists 0, r. simpl. rewrite Hnew.
    repeat split; [lia | apply row_eqb_refl].
  - destruct (IH (r0 :: seen) i Hi)
      as [(r' & Hin & Heq) | (j & r' & Hle & Hj & Hbit & Heq)].
    + apply elem_of_cons in Hin as [-> | Hin].
      * destruct Hhead as [(r'' & Hin & Heq') | Hnew].
        -- left. exists r''. split; [exact Hin |].
           eapply row_eqb_trans; eassumption.
        -- right. exists 0, r0. simpl. rewrite Hnew.
           repeat split; [lia | exact Heq].
      * left. exists r'. split; assumption.
    + right. exists (S j), r'. simpl. repeat split; [lia | assumption ..].
Qed.

Lemma select_keeps {A} (mask : list bool) (xs : list A) (j : nat) (x : A) :
  mask !! j = Some true -> xs !! j = Some x -> x ∈ frame.select mask xs.
Proof.
  revert xs j. induction mask as [| b mask IH]; intros [| y xs] [| j];
    simpl; try discriminate.
  - intros [= ->] [= ->]. left.
  - intros Hm Hx. destruct b; [right |]; eapply IH; eassumption.
Qed.

Lemma select_subset {A} (mask : list bool) (xs : list A) (x : A) :
  x ∈ frame.select mask xs -> x ∈ xs.
Proof.
  revert xs. induction mask as [| b mask IH]; intros [| y xs]; simpl;
    try (intros H; apply elem_of_nil in H as []).
  destruct b.
  - intros H. apply elem_of_cons in H as [-> | H]; [left | right; auto].
  - intros H. right. auto.
Qed.

Lemma row_eqb_map {A} (f g : A -> value) (l : list A) (x : A) :
  row_eqb (map f l) (map g l) = true -> x ∈ l ->
  value_eqb (f x) (g x) = true.
Proof.
  induction l as [| y l IH]; simpl; intros Heq Hin;
    [apply elem_of_nil in Hin as [] |].
  apply andb_true_iff in Heq as [Hy Hl].
  apply elem_of_cons in Hin as [-> | Hin]; [exact Hy | auto].
Qed.

(** A cell of a column of the table has an equal cell in the same column of
    the deduplicated table. *)
Lemma drop_duplicates_keeps_an_equal_cell (df : DataFrame) (c : string)
  (s0 : Series) (v : value) :
  wf_frame df ->
  frame.lookup_col (df_columns df) c = Some s0 ->
  v ∈ s_values s0 ->
  exists s v',
    frame.lookup_col (df_columns (frame.drop_duplicates df)) c = Some s
    /\ v' ∈ s_values s /\ value_eqb v v' = true.
Proof.
  intros Hwf Hs0 Hv. unfold frame.drop_duplicates, frame.duplicated.
  destruct (frame.empty df).
  { exists s0, v. repeat split; [exact Hs0 | exact Hv | apply value_eqb_refl]. }
  rewrite lookup_col_take, Hs0. simpl.
  apply list_elem_of_lookup in Hv as [i Hi].
  pose proof (lookup_lt_Some _ _ _ Hi) as Hlt.
  pose proof (lookup_col_Some_elem _ _ _ Hs0) as Hcs.
  assert (length (s_values s0) = df_len df) as Hlen.
  { unfold wf_frame in Hwf. rewrite Forall_forall in Hwf.
    exact (Hwf (c, s0) Hcs). }
  assert (forall k, k < df_len df ->
            frame.rows df !! k = Some (frame.row df k)) as Hrows.
  { intros k Hk. unfold frame.rows.
    change (map ?f ?l) with (f <$> l).
    rewrite list_lookup_fmap, lookup_seq_lt; [reflexivity | exact Hk]. }
  destruct (duplicated_from_first (frame.rows df) [] i _ (Hrows i ltac:(lia)))
    as [(r' & Hin & _) | (j & r' & Hle & Hj & Hbit & Heq)].
  { apply elem_of_nil in Hin as []. }
  rewrite (Hrows j ltac:(lia)) in Hj. injection Hj as <-.
  pose proof (row_eqb_map (fun cs => nth i (s_values cs.2) NA)
                (fun cs => nth j (s_values cs.2) NA) _ (c, s0) Heq Hcs) as Hcell.
  simpl in Hcell. rewrite (nth_lookup_Some _ _ NA _ Hi) in Hcell.
  destruct (lookup_lt_is_Some_2 (s_values s0) j ltac:(lia)) as [w Hw].
  rewrite (nth_lookup_Some _ _ NA _ Hw) in Hcell.
  eexists. exists w. split; [reflexivity |]. split; [| exact Hcell].
  simpl. apply (select_keeps _ _ j); [| exact Hw].
  change (map ?f ?l) with (f <$> l). rewrite list_lookup_fmap, Hbit. reflexivity.
Qed.

Lemma drop_duplicates_column_subset (df : DataFrame) (c : string)
  (s0 s : Series) (v : value) :
  frame.lookup_col (df_columns df) c = Some s0 ->
  frame.lookup_col (df_columns (frame.drop_duplicates df)) c = Some s ->
  v ∈ s_values s -> v ∈ s_values s0.
Proof.
  unfold frame.drop_duplicates. destruct (frame.empty df).
  - intros -> [= ->]. auto.
  - rewrite lookup_col_take. intros -> [= <-]. simpl. apply select_subset.
Qed.

Lemma kept_number (df : DataFrame) (c : string) (s0 s : Series) :
  wf_frame df ->
  frame.lookup_col (df_columns df) c = Some s0 ->
  frame.lookup_col (df_columns (frame.drop_duplicates df)) c = Some s ->
  (exists q, Num q ∈ s_values s0) -> exists q, Num q ∈ s_values s.
Proof.
  intros Hwf Hs0 Hs [q Hq].
  destruct (drop_duplicates_keeps_an_equal_cell df c s0 _ Hwf Hs0 Hq)
    as (s' & v' & Hs' & Hv' & Heq).
  rewrite Hs in Hs'. injection Hs' as <-.
  destruct v'; try discriminate. eauto.
Qed.

Lemma kept_absent (df : DataFrame) (c : string) (s0 s : Series) :
  wf_frame df ->
  frame.lookup_col (df_columns df) c = Some s0 ->
  frame.lookup_col (df_columns (frame.drop_duplicates df)) c = Some s ->
  NA ∈ s_values s0 -> NA ∈ s_values s.
Proof.
  intros Hwf Hs0 Hs Hna.
  destruct (drop_duplicates_keeps_an_equal_cell df c s0 _ Hwf Hs0 Hna)
    as (s' & v' & Hs' & Hv' & Heq).
  rewrite Hs in Hs'. injection Hs' as <-.
  destruct v'; try discriminate. exact Hv'.
Qed.

End kept_cells.

(** * The conditions on the columns, as propositions *)

Section conditions.

Lemma holds_number_spec (s : Series) :
  holds_number s = true <-> exists q, Num q ∈ s_values s.
Proof.
  unfold holds_number. rewrite existsb_exists. split.
  - intros (v & Hin & Hv). destruct v; try discriminate.
    eexists. apply list_elem_of_In, Hin.
  - intros [q Hq]. exists (Num q). split; [apply list_elem_of_In, Hq | reflexivity].
Qed.

Lemma existsb_isnull_spec (vs : list value) :
  existsb isnull vs = true <-> NA ∈ vs.
Proof.
  rewrite existsb_exists. split.
  - intros (v & Hin & Hv). destruct v; try discriminate.
    apply list_elem_of_In, Hin.
  - intros Hin. exists NA. split; [apply list_elem_of_In, Hin | reflexivity].
Qed.

Lemma count_null_cons (v : value) (vs : list value) :
  count_null (v :: vs) = (if isnull v then 1 else 0) + count_null vs.
Proof.
  unfold count_null. rewrite filter_cons. destruct v; reflexivity.
Qed.

End conditions.

(** * The lists of the detector, for any classification *)

Section classes.

Variable cls : Series -> string.

Lemma classify_fold_lookup (cols : list (string * Series))
  (m : gmap string (list string)) (key : string) :
  foldl (fun col_types cs => mapping_append (cls cs.2) cs.1 col_types) m cols
    !! key
  = (fun names =>
       (names ++ map fst (filter (fun cs => cls cs.2 = key) cols))%list)
      <$> m !! key.
Proof.
  revert m. induction cols as [| [c s] cols IH]; intros m; simpl.
  - destruct (m !! key); simpl; rewrite ?app_nil_r; reflexivity.
  - rewrite IH. unfold mapping_append. cbn [snd fst].
    destruct (decide (cls s = key)) as [Heq | Hne].
    + rewrite filter_cons_True by exact Heq. subst key.
      rewrite lookup_alter_eq. destruct (m !! cls s); simpl;
        [rewrite <- app_assoc |]; reflexivity.
    + rewrite filter_cons_False by exact Hne.
      rewrite lookup_alter_ne by exact Hne. reflexivity.
Qed.

Lemma names_by_elem (key : string) (df : DataFrame) (col : string) :
  col ∈ names_by cls key df ->
  exists s, (col, s) ∈ df_columns df /\ cls s = key.
Proof.
  unfold names_by. intros Hin.
  apply list_elem_of_fmap in Hin as ([c s] & -> & Hin).
  apply list_elem_of_filter in Hin as [Hclass Hin]. eauto.
Qed.

Lemma names_by_subset (key : string) (df : DataFrame) (col : string) :
  col ∈ names_by cls key df -> col ∈ column_names df.
Proof.
  intros Hin. apply names_by_elem in Hin as (s & Hin & _).
  unfold column_names. apply list_elem_of_fmap. exists (col, s). auto.
Qed.

Lemma NoDup_names_by (key : string) (df : DataFrame) :
  NoDup (column_names df) -> NoDup (names_by cls key df).
Proof.
  unfold column_names, names_by.
  induction (df_columns df) as [| [c s] cols IH]; simpl; [constructor |].
  intros Hnd. apply NoDup_cons in Hnd as [Hnot Hnd].
  rewrite filter_cons. destruct (decide _); simpl; [| apply IH, Hnd].
  apply NoDup_cons. split; [| apply IH, Hnd].
  intros Hin. apply Hnot.
  apply list_elem_of_fmap in Hin as ([c' s'] & -> & Hin).
  apply list_elem_of_filter in Hin as [_ Hin].
  apply list_elem_of_fmap. exists (c', s'). split; [reflexivity | exact Hin].
Qed.

(** With distinct names, a column is in the list of a class exactly when
    it has that class. *)
Lemma names_by_iff (key : string) (df : DataFrame) (c : string) (s : Series) :
  NoDup (column_names df) ->
  frame.lookup_col (df_columns df) c = Some s ->
  c ∈ names_by cls key df <-> cls s = key.
Proof.
  intros Hnd Hlook. split.
  - intros Hin. apply names_by_elem in Hin as (s' & Hin & Hclass).
    rewrite (lookup_col_elem _ _ _ Hnd Hin) in Hlook. congruence.
  - intros Hclass. unfold names_by. apply list_elem_of_fmap.
    exists (c, s). split; [reflexivity |].
    apply list_elem_of_filter. split; [exact Hclass |].
    apply lookup_col_Some_elem, Hlook.
Qed.

End classes.

(** * The detector over the conversion *)

Section conv_detect.

Variable to_datetime : Series -> result Series.

Lemma conv_detect_lookup (df : DataFrame) (key : string) :
  Conv.detect_column_types to_datetime df !! key
  = (fun names =>
       (names ++ names_by (Conv.column_type to_datetime df) key df)%list)
      <$> empty_mapping !! key.
Proof.
  unfold Conv.detect_column_types, names_by.
  apply (classify_fold_lookup (Conv.column_type to_datetime df)).
Qed.

Lemma conv_detect_key (df : DataFrame) (key : string) :
  key ∈ ["numeric"; "datetime"; "categorical"; "text"] ->
  Conv.detect_column_types to_datetime df !! key
  = Some (names_by (Conv.column_type to_datetime df) key df).
Proof.
  intros Hkey. rewrite conv_detect_lookup.
  repeat (apply elem_of_cons in Hkey as [-> | Hkey]; [reflexivity |]).
  apply elem_of_nil in Hkey as [].
Qed.

Lemma conv_dict_get (df d : DataFrame) (key : string) :
  key ∈ ["numeric"; "datetime"; "categorical"; "text"] ->
  eff.dict_get (Conv.detect_column_types to_datetime df) key d
  = (Ok (names_by (Conv.column_type to_datetime df) key df), d, []).
Proof.
  intros Hkey. unfold eff.dict_get, eff.lift.
  rewrite (conv_detect_key df key Hkey). reflexivity.
Qed.

Lemma conv_class_cases (df : DataFrame) (s : Series) :
  Conv.column_type to_datetime df s = "numeric"
  \/ Conv.column_type to_datetime df s = "datetime"
  \/ Conv.column_type to_datetime df s = "categorical"
  \/ Conv.column_type to_datetime df s = "text".
Proof.
  unfold Conv.column_type. destruct (pd.is_numeric_dtype s); [auto |].
  destruct (pd.is_datetime64_any_dtype s); [auto |].
  destruct (to_datetime s).
  - destruct (pd.apply_all short_str s); auto.
  - match goal with
    | |- context [if ?b then "categorical" else "text"] => destruct b
    end; auto.
Qed.

Lemma conv_class_numeric (df : DataFrame) (s : Series) :
  Conv.column_type to_datetime df s = "numeric" <-> s_dtype s = float64.
Proof.
  unfold Conv.column_type, pd.is_numeric_dtype, pd.is_datetime64_any_dtype.
  destruct (s_dtype s); simpl; try (split; reflexivity);
    try (split; discriminate).
  destruct (to_datetime s).
  - destruct (pd.apply_all short_str s); split; discriminate.
  - match goal with
    | |- context [if ?b then "categorical" else "text"] => destruct b
    end; split; discriminate.
Qed.

Lemma conv_class_text (df : DataFrame) (s : Series) :
  Conv.column_type to_datetime df s = "text" -> s_dtype s = object.
Proof.
  unfold Conv.column_type, pd.is_numeric_dtype, pd.is_datetime64_any_dtype.
  destruct (s_dtype s); simpl; try discriminate. reflexivity.
Qed.

(** A column is listed under ['categorical'] only when the conversion of
    it raises. *)
Lemma conv_class_categorical (df : DataFrame) (s : Series) :
  Conv.column_type to_datetime df s = "categorical" ->
  s_dtype s = object /\ exists e, to_datetime s = Raise e.
Proof.
  unfold Conv.column_type, pd.is_numeric_dtype, pd.is_datetime64_any_dtype.
  destruct (s_dtype s); simpl; try discriminate.
  destruct (to_datetime s) as [parsed | e].
  - destruct (pd.apply_all short_str s); discriminate.
  - eauto.
Qed.

Lemma conv_no_categorical (df : DataFrame) :
  Conv.detect_column_types to_datetime df !! "categorical" = Some [] ->
  names_by (Conv.column_type to_datetime df) "categorical" df = [].
Proof.
  rewrite conv_detect_key by set_solver. intros [= H]. exact H.
Qed.

Lemma conv_classes_partition (df : DataFrame) :
  (names_by (Conv.column_type to_datetime df) "numeric" df
   ++ names_by (Conv.column_type to_datetime df) "datetime" df
   ++ names_by (Conv.column_type to_datetime df) "categorical" df
   ++ names_by (Conv.column_type to_datetime df) "text" df)%list
  ≡ₚ column_names df.
Proof.
  unfold names_by, column_names. set (cls := Conv.column_type to_datetime df).
  assert (forall s, cls s = "numeric" \/ cls s = "datetime"
                   \/ cls s = "categorical" \/ cls s = "text") as Hcases
    by (intros s; apply conv_class_cases).
  clearbody cls.
  induction (df_columns df) as [| [c s] cols IH]; [reflexivity |].
  rewrite !filter_cons. simpl.
  destruct (Hcases s) as [H | [H | [H | H]]]; rewrite H; simpl.
  - rewrite IH. reflexivity.
  - rewrite <- Permutation_middle. rewrite IH. reflexivity.
  - rewrite (app_assoc (map fst (filter _ cols))).
    rewrite <- Permutation_middle. rewrite <- app_assoc. rewrite IH.
    reflexivity.
  - rewrite (app_assoc (map fst (filter _ cols))).
    rewrite (app_assoc (_ ++ _)%list).
    rewrite <- Permutation_middle. rewrite <- !app_assoc. rewrite IH.
    reflexivity.
Qed.

(** The class of a column depends on the conversion through the columns
    on which it raises only. *)
Lemma conv_column_type_ext (to_datetime' : Series -> result Series)
  (df : DataFrame) (s : Series) :
  raises (to_datetime s) = raises (to_datetime' s) ->
  Conv.column_type to_datetime df s = Conv.column_type to_datetime' df s.
Proof.
  unfold Conv.column_type. intros Hsame.
  destruct (pd.is_numeric_dtype s); [reflexivity |].
  destruct (pd.is_datetime64_any_dtype s); [reflexivity |].
  destruct (to_datetime s) as [p | e], (to_datetime' s) as [p' | e'];
    try reflexivity; discriminate.
Qed.

End conv_detect.

(** * The repair loops over the conversion *)

Section conv_pipeline.

Variable to_datetime : Series -> result Series.
Variable py_str : value -> string.

Lemma conv_main_repair_columns_with (col_types : gmap string (list string)) :
  Conv.main_repair_columns to_datetime py_str col_types
  = repair_columns_with py_str (Conv.main_datetime_column to_datetime)
      col_types.
Proof. reflexivity. Qed.

Lemma conv_auto_repair_columns_with (col_types : gmap string (list string)) :
  Conv.auto_repair_columns to_datetime py_str col_types
  = repair_columns_with py_str (Conv.auto_datetime_column to_datetime)
      col_types.
Proof. reflexivity. Qed.

(** A loop over distinct columns whose body assigns to its own column a
    column of the same length keeps the shape of the table. *)
Lemma for_each_local_shape (body : string -> D unit)
  (G : string -> Series -> Series) (R : Series -> Prop) (cols : list string)
  (d d' : DataFrame) (ev : list event) :
  NoDup cols ->
  (forall col d0 s,
      frame.getitem d0 col = Ok s -> R s ->
      exists ev, body col d0 = (Ok tt, frame.setitem d0 col (G col s), ev)) ->
  (forall col s, R s -> length (s_values (G col s)) = length (s_values s)) ->
  (forall col, col ∈ cols -> exists s, frame.getitem d col = Ok s /\ R s) ->
  eff.for_each cols body d = (Ok tt, d', ev) ->
  frame_shape d' = frame_shape d.
Proof.
  intros Hnd Hbody Hlen. revert d ev.
  induction Hnd as [| col cols Hnot Hnd IH]; intros d ev Hpre Hrun.
  - injection Hrun as <- _. reflexivity.
  - destruct (Hpre col) as (s & Hget & HR); [left |].
    destruct (Hbody col d s Hget HR) as (ev0 & Hrun0).
    simpl in Hrun. unfold mbind, D_bind in Hrun. rewrite Hrun0 in Hrun.
    destruct (eff.for_each cols body (frame.setitem d col (G col s)))
      as [[r d''] ev''] eqn:Hrest.
    injection Hrun as -> -> _.
    rewrite (IH (frame.setitem d col (G col s)) ev''); [| | exact Hrest].
    + apply (frame_shape_setitem d col s); [exact Hget | apply Hlen, HR].
    + intros c Hc. destruct (Hpre c) as (s' & Hget' & HR'); [right; exact Hc |].
      exists s'. split; [| exact HR']. apply getitem_lookup.
      rewrite lookup_setitem, bool_decide_eq_false_2.
      * apply getitem_lookup, Hget'.
      * intros ->. contradiction.
Qed.

Lemma numeric_repair_length (s : Series) :
  length (s_values (numeric_repair s)) = length (s_values s).
Proof.
  unfold numeric_repair. destruct (0 <? pd.isnull_sum s); [| reflexivity].
  apply fillna_length.
Qed.

Lemma text_repair_length (s : Series) :
  length (s_values (text_repair py_str s)) = length (s_values s).
Proof.
  unfold text_repair.
  assert (length (s_values (if 0 <? pd.isnull_sum s
                            then pd.fillna s (Str "Unknown") else s))
          = length (s_values s)) as Hfill.
  { destruct (0 <? pd.isnull_sum s); [apply fillna_length | reflexivity]. }
  destruct (dtype_eqb _ object); [| exact Hfill].
  simpl. rewrite !length_map. exact Hfill.
Qed.

Lemma formatted_dates_length (missing : nat) (parsed : Series) :
  length (s_values (formatted_dates missing parsed))
  = length (s_values parsed).
Proof.
  unfold formatted_dates. simpl. rewrite length_map.
  destruct (0 <? missing); [apply fillna_length | reflexivity].
Qed.

(** With the column types detected on the table itself, distinct column
    names and no column listed as categorical: when the date body assigns
    to every column of the date class, as deduplication leaves it, a
    function of that column, the loops end normally, the table keeps its
    shape and every column of the result is the repair, by the class of
    the column, of the same column of the deduplicated table. *)
Lemma conv_repair_by_class (date_body : string -> D unit)
  (date_repair : Series -> Series) (R : Series -> Prop) (df : DataFrame) :
  (forall col d0 s,
      frame.getitem d0 col = Ok s -> R s ->
      exists ev,
        date_body col d0 = (Ok tt, frame.setitem d0 col (date_repair s), ev)) ->
  (forall s, R s -> length (s_values (date_repair s)) = length (s_values s)) ->
  NoDup (column_names df) ->
  Conv.detect_column_types to_datetime df !! "categorical" = Some [] ->
  (forall c s0 s,
      frame.lookup_col (df_columns df) c = Some s0 ->
      frame.lookup_col (df_columns (frame.drop_duplicates df)) c = Some s ->
      Conv.column_type to_datetime df s0 = "datetime" -> R s) ->
  exists d5 ev5,
    repair_columns_with py_str date_body
      (Conv.detect_column_types to_datetime df) (frame.drop_duplicates df)
    = (Ok tt, d5, ev5)
    /\ frame_shape d5 = frame_shape (frame.drop_duplicates df)
    /\ forall c s0 s,
        frame.lookup_col (df_columns df) c = Some s0 ->
        frame.lookup_col (df_columns (frame.drop_duplicates df)) c = Some s ->
        frame.lookup_col (df_columns d5) c
        = Some (repaired_by_class date_repair py_str
                  (Conv.column_type to_datetime df s0) s).
Proof.
  intros Hdate_local Hdate_len Hnd Hnocat Hdates.
  set (cls := Conv.column_type to_datetime df).
  set (d := frame.drop_duplicates df).
  assert (forall c, c ∈ column_names df ->
            exists s0 s,
              frame.lookup_col (df_columns df) c = Some s0
              /\ frame.lookup_col (df_columns d) c = Some s) as Hboth.
  { intros c Hc. destruct (lookup_col_name _ _ Hc) as [s0 Hs0].
    destruct (lookup_col_name (df_columns d) c) as [s Hs].
    { fold (column_names d). unfold d.
      rewrite drop_duplicates_column_names. exact Hc. }
    eauto. }
  (* the numeric loop *)
  assert (forall col, col ∈ names_by cls "numeric" df ->
            exists s, frame.getitem d col = Ok s /\ s_dtype s = float64)
    as Hfloat.
  { apply all_float_drop_duplicates. intros col Hin.
    apply names_by_elem in Hin as (s0 & Hin & Hclass).
    exists s0. split; [| apply (conv_class_numeric to_datetime df), Hclass].
    apply getitem_lookup, lookup_col_elem; assumption. }
  destruct (for_each_local Main.numeric_column (fun _ => numeric_repair)
              (fun s => s_dtype s = float64) (names_by cls "numeric" df) d)
    as (d1 & e1 & Hnum & Hmap1).
  { apply NoDup_names_by, Hnd. }
  { intros col d0 s. apply numeric_column_local. }
  { exact Hfloat. }
  assert (frame_shape d1 = frame_shape d) as Hs1.
  { apply (for_each_local_shape Main.numeric_column (fun _ => numeric_repair)
             (fun s => s_dtype s = float64) (names_by cls "numeric" df)
             d d1 e1).
    - apply NoDup_names_by, Hnd.
    - intros col d0 s. apply numeric_column_local.
    - intros _ s _. apply numeric_repair_length.
    - exact Hfloat.
    - exact Hnum. }
  (* the date loop *)
  assert (forall col, col ∈ names_by cls "datetime" df ->
            exists s, frame.getitem d1 col = Ok s /\ R s) as Hdate_pre.
  { intros col Hin.
    pose proof (names_by_elem cls _ _ _ Hin) as (s0 & Hin0 & Hclass).
    pose proof (lookup_col_elem _ _ _ Hnd Hin0) as Hs0.
    destruct (Hboth col) as (s0' & s & Hs0' & Hs).
    { eapply names_by_subset, Hin. }
    exists s. split; [| apply (Hdates col s0 s Hs0 Hs Hclass)].
    apply getitem_lookup. rewrite (Hmap1 col), bool_decide_eq_false_2, Hs;
      [reflexivity |].
    intros Hnumeric.
    apply (names_by_iff cls "numeric" df col s0 Hnd Hs0) in Hnumeric.
    congruence. }
  destruct (for_each_local date_body (fun _ => date_repair) R
              (names_by cls "datetime" df) d1)
    as (d3 & e3 & Hdate & Hmap3).
  { apply NoDup_names_by, Hnd. }
  { intros col d0 s. apply Hdate_local. }
  { exact Hdate_pre. }
  assert (frame_shape d3 = frame_shape d1) as Hs3.
  { apply (for_each_local_shape date_body (fun _ => date_repair) R
             (names_by cls "datetime" df) d1 d3 e3).
    - apply NoDup_names_by, Hnd.
    - intros col d0 s. apply Hdate_local.
    - intros _ s. apply Hdate_len.
    - exact Hdate_pre.
    - exact Hdate. }
  (* the text loop *)
  assert (column_names d3 = column_names df) as Hn3.
  { rewrite (column_names_shape _ _ Hs3), (column_names_shape _ _ Hs1).
    apply drop_duplicates_column_names. }
  assert (forall col, col ∈ names_by cls "text" df ->
            exists s, frame.getitem d3 col = Ok s /\ True) as Htext_pre.
  { intros col Hin. destruct (getitem_of_name d3 col) as [s Hs]; [| eauto].
    rewrite Hn3. eapply names_by_subset, Hin. }
  destruct (for_each_local (Main.text_column py_str)
              (fun _ => text_repair py_str) (fun _ => True)
              (names_by cls "text" df) d3)
    as (d4 & e4 & Htext & Hmap4).
  { apply NoDup_names_by, Hnd. }
  { intros col d0 s. apply text_column_local. }
  { exact Htext_pre. }
  assert (frame_shape d4 = frame_shape d3) as Hs4.
  { apply (for_each_local_shape (Main.text_column py_str)
             (fun _ => text_repair py_str) (fun _ => True)
             (names_by cls "text" df) d3 d4 e4).
    - apply NoDup_names_by, Hnd.
    - intros col d0 s. apply text_column_local.
    - intros _ s _. apply text_repair_length.
    - exact Htext_pre.
    - exact Htext. }
  exists d4. eexists. split; [| split].
  - unfold repair_columns_with.
    rewrite (bind_ok _ _ _ _ _ _
               (conv_dict_get to_datetime df d "numeric" ltac:(set_solver))).
    fold cls. rewrite (bind_ok _ _ _ _ _ _ Hnum).
    rewrite (bind_ok _ _ _ _ _ _
               (conv_dict_get to_datetime df d1 "categorical"
                  ltac:(set_solver))).
    rewrite (conv_no_categorical to_datetime df Hnocat). simpl eff.for_each.
    rewrite (bind_ok _ _ _ d1 tt [] eq_refl).
    rewrite (bind_ok _ _ _ _ _ _
               (conv_dict_get to_datetime df d1 "datetime" ltac:(set_solver))).
    fold cls. rewrite (bind_ok _ _ _ _ _ _ Hdate).
    rewrite (bind_ok _ _ _ _ _ _
               (conv_dict_get to_datetime df d3 "text" ltac:(set_solver))).
    fold cls. rewrite Htext. reflexivity.
  - congruence.
  - intros c s0 s Hs0 Hs.
    rewrite (Hmap4 c), (Hmap3 c), (Hmap1 c). fold d in Hs. rewrite Hs.
    rewrite (bool_decide_ext _ _ (names_by_iff cls "text" df c s0 Hnd Hs0)).
    rewrite (bool_decide_ext _ _ (names_by_iff cls "datetime" df c s0 Hnd Hs0)).
    rewrite (bool_decide_ext _ _ (names_by_iff cls "numeric" df c s0 Hnd Hs0)).
    unfold repaired_by_class.
    destruct (conv_class_cases to_datetime df s0) as [H | [H | [H | H]]];
      fold cls in H; rewrite H; try reflexivity.
    exfalso.
    assert (c ∈ names_by cls "categorical" df) as Hin
      by (apply (names_by_iff cls "categorical" df c s0 Hnd Hs0), H).
    unfold cls in Hin. rewrite (conv_no_categorical to_datetime df Hnocat) in Hin.
    apply elem_of_nil in Hin as [].
Qed.

End conv_pipeline.

(** * Columns that convert *)

Section conv_columns.

Variable to_datetime : Series -> result Series.
Variable py_str : value -> string.

Lemma converts_with_spec (ok : Series -> Series -> bool) (s : Series) :
  converts_with ok to_datetime s = true <->
  exists parsed,
    to_datetime s = Ok parsed
    /\ s_dtype parsed = datetime64
    /\ length (s_values parsed) = length (s_values s)
    /\ timestamps_or_absent parsed
    /\ ok s parsed = true.
Proof.
  unfold converts_with, timestamps_or_absent. split.
  - destruct (to_datetime s) as [parsed | e]; [| discriminate].
    rewrite !andb_true_iff, Nat.eqb_eq, forallb_forall.
    intros [[[Hdt Hlen] Hkind] Hok].
    exists parsed. repeat split; try assumption.
    + destruct (s_dtype parsed); try discriminate. reflexivity.
    + intros v Hv. apply list_elem_of_In, Hkind in Hv.
      destruct v; try discriminate; eauto.
  - intros (parsed & -> & Hdt & Hlen & Hkind & Hok).
    rewrite Hdt, Hlen, Nat.eqb_refl, Hok. simpl.
    rewrite andb_true_r. apply forallb_forall. intros v Hv.
    apply list_elem_of_In in Hv.
    destruct (Hkind v Hv) as [-> | [t ->]]; reflexivity.
Qed.

Lemma conv_main_datetime_column_local (ok : Series -> Series -> bool)
  (col : string) (d0 : DataFrame) (s : Series) :
  frame.getitem d0 col = Ok s ->
  converts_with ok to_datetime s = true ->
  exists ev,
    Conv.main_datetime_column to_datetime col d0
    = (Ok tt, frame.setitem d0 col (main_date_repair to_datetime s), ev).
Proof.
  intros Hget Hconv.
  apply converts_with_spec in Hconv as (parsed & Hp & Hdt & _).
  rewrite (conv_main_datetime_column_ok to_datetime col d0 s parsed Hget Hp Hdt).
  unfold main_date_repair. rewrite Hp. eexists. reflexivity.
Qed.

Lemma conv_auto_datetime_column_local (ok : Series -> Series -> bool)
  (col : string) (d0 : DataFrame) (s : Series) :
  frame.getitem d0 col = Ok s ->
  converts_with ok to_datetime s = true ->
  exists ev,
    Conv.auto_datetime_column to_datetime col d0
    = (Ok tt, frame.setitem d0 col (auto_date_repair to_datetime s), ev).
Proof.
  intros Hget Hconv.
  apply converts_with_spec in Hconv as (parsed & Hp & Hdt & _).
  rewrite (conv_auto_datetime_column_ok to_datetime col d0 s parsed Hget Hp Hdt).
  unfold auto_date_repair. rewrite Hp. eexists. reflexivity.
Qed.

Lemma main_date_repair_length (ok : Series -> Series -> bool) (s : Series) :
  converts_with ok to_datetime s = true ->
  length (s_values (main_date_repair to_datetime s)) = length (s_values s).
Proof.
  intros Hconv.
  apply converts_with_spec in Hconv as (parsed & Hp & _ & Hlen & _).
  unfold main_date_repair. rewrite Hp, formatted_dates_length. exact Hlen.
Qed.

Lemma auto_date_repair_length (ok : Series -> Series -> bool) (s : Series) :
  converts_with ok to_datetime s = true ->
  length (s_values (auto_date_repair to_datetime s)) = length (s_values s).
Proof.
  intros Hconv.
  apply converts_with_spec in Hconv as (parsed & Hp & _ & Hlen & _).
  unfold auto_date_repair. rewrite Hp, formatted_dates_length. exact Hlen.
Qed.

Lemma existsb_is_ts_spec (vs : list value) :
  existsb is_ts vs = true <-> exists t, Ts t ∈ vs.
Proof.
  rewrite existsb_exists. split.
  - intros (v & Hin & Hv). destruct v; try discriminate.
    eexists. apply list_elem_of_In, Hin.
  - intros [t Ht]. exists (Ts t). split; [apply list_elem_of_In, Ht | reflexivity].
Qed.

Lemma median_timestamps_kind (ts : list Z) :
  pd.median_timestamps ts = NA \/ exists t, pd.median_timestamps ts = Ts t.
Proof.
  unfold pd.median_timestamps. destruct (length (merge_sort Z.le ts)); [auto |].
  destruct (Nat.odd _); eauto.
Qed.

Lemma fillna_timestamps_kind (parsed : Series) (fill : value) :
  timestamps_or_absent parsed ->
  fill = NA \/ (exists t, fill = Ts t) ->
  timestamps_or_absent (pd.fillna parsed fill).
Proof.
  intros Hkind [-> | [t ->]]; [exact Hkind |].
  intros v Hv. simpl in Hv. apply list_elem_of_fmap in Hv as (w & -> & Hw).
  destruct (Hkind w Hw) as [-> | [t' ->]]; simpl; eauto.
Qed.

(** Filling with the median of a column that holds a timestamp leaves no
    cell absent. *)
Lemma fill_dates_no_absent (parsed : Series) :
  (exists t, Ts t ∈ s_values parsed) ->
  NA ∉ s_values
         (pd.fillna parsed
            (pd.median_timestamps (pd.timestamps (s_values parsed)))).
Proof.
  intros [t Ht].
  destruct (median_timestamps_some (pd.timestamps (s_values parsed)))
    as [m ->].
  { intros Hnil. apply timestamps_elem in Ht. rewrite Hnil in Ht.
    apply elem_of_nil in Ht as []. }
  simpl. intros Hin. apply list_elem_of_fmap in Hin as (v & Hv & _).
  destruct v; discriminate.
Qed.

Lemma strftime_no_absent_of (s : Series) :
  timestamps_or_absent s -> (NA ∉ s_values s) ->
  NA ∉ s_values (pd.dt_strftime s).
Proof.
  intros Hkind Hnone Hin. simpl in Hin.
  apply list_elem_of_fmap in Hin as (v & Heq & Hv).
  destruct (Hkind v Hv) as [-> | [t ->]]; [contradiction | discriminate].
Qed.

(** [main.py]: a column that converts and holds a timestamp after the
    conversion has no absent cell after the date step. *)
Lemma main_date_repair_no_absent (s : Series) :
  converts_with holds_date to_datetime s = true ->
  NA ∉ s_values (main_date_repair to_datetime s).
Proof.
  intros Hconv.
  apply converts_with_spec in Hconv as (parsed & Hp & _ & _ & Hkind & Hok).
  apply existsb_is_ts_spec in Hok.
  unfold main_date_repair, formatted_dates. rewrite Hp.
  destruct (0 <? pd.isnull_sum parsed) eqn:Hmissing.
  - apply strftime_no_absent_of; [| apply fill_dates_no_absent, Hok].
    apply fillna_timestamps_kind; [exact Hkind | apply median_timestamps_kind].
  - apply strftime_no_absent_of; [exact Hkind |].
    apply isnull_sum_zero, Hmissing.
Qed.

(** [auto_eda_cleaner.py]: the same when the column had an absent cell
    before the conversion, or when every cell converts. *)
Lemma auto_date_repair_no_absent (s : Series) :
  converts_with dated_or_absent to_datetime s = true ->
  NA ∉ s_values (auto_date_repair to_datetime s).
Proof.
  intros Hconv.
  apply converts_with_spec in Hconv as (parsed & Hp & _ & _ & Hkind & Hok).
  unfold dated_or_absent in Hok.
  unfold auto_date_repair, formatted_dates. rewrite Hp.
  destruct (existsb isnull (s_values s)) eqn:Hna.
  - apply existsb_isnull_spec, isnull_sum_pos, Nat.ltb_lt in Hna.
    rewrite Hna. apply existsb_is_ts_spec in Hok.
    apply strftime_no_absent_of; [| apply fill_dates_no_absent, Hok].
    apply fillna_timestamps_kind; [exact Hkind | apply median_timestamps_kind].
  - assert ((0 <? pd.isnull_sum s) = false) as ->.
    { destruct (0 <? pd.isnull_sum s) eqn:Hpos; [| reflexivity].
      apply Nat.ltb_lt, isnull_sum_pos, existsb_isnull_spec in Hpos.
      congruence. }
    apply strftime_no_absent_of; [exact Hkind |].
    intros Hin. apply existsb_isnull_spec in Hin.
    rewrite Hin in Hok. discriminate.
Qed.

End conv_columns.

(** * A run of the cleaners over the conversion *)

Section conv_store.

Variable to_datetime : Series -> result Series.
Variable py_str : value -> string.
Variable drop_accepts_ignore_index : bool.

Lemma conv_clean_data_run (col_types : gmap string (list string))
  (h : list DataFrame) (out : list event) (l : loc) (d : DataFrame) :
  h !! l = Some d ->
  Conv.clean_data to_datetime py_str drop_accepts_ignore_index col_types l
    (mkState h out)
  = let '(r, d5, out5) :=
      Conv.main_repair_columns to_datetime py_str col_types
        (frame.drop_duplicates d) in
    let h5 := (h ++ [d; d5])%list in
    let out' :=
      ((out ++ dedup_events (frame.duplicated_sum d)) ++ out5)%list in
    match r with
    | Ok _ => prune_outcome drop_accepts_ignore_index h5 out' (S (length h)) d5
    | Raise e => (Raise e, mkState h5 out')
    end.
Proof.
  intros Hl.
  unfold Conv.clean_data, eff.copy, mbind, M_bind, eff.read, eff.alloc.
  simpl. rewrite Hl. simpl. rewrite lookup_snoc.
  assert (forall h' o',
    (if 0 <? frame.duplicated_sum d
     then eff.print (RemovedDuplicates (frame.duplicated_sum d))
     else mret ()) (mkState h' o')
    = (Ok tt, mkState h' (o' ++ dedup_events (frame.duplicated_sum d))%list))
    as Hprint.
  { intros h' o'. unfold dedup_events.
    destruct (0 <? frame.duplicated_sum d); simpl.
    - reflexivity.
    - unfold mret, M_ret. rewrite app_nil_r. reflexivity. }
  rewrite Hprint. unfold eff.inplace. simpl.
  rewrite length_app. simpl. rewrite Nat.add_1_r.
  rewrite <- app_assoc. simpl. rewrite lookup_snoc2.
  destruct (Conv.main_repair_columns to_datetime py_str col_types
              (frame.drop_duplicates d)) as [[r d5] out5].
  rewrite insert_snoc2. destruct r as [[] | e]; [| reflexivity].
  apply main_drop_sparse_rows_run, lookup_snoc2.
Qed.

Lemma conv_auto_clean_dataset_run (h : list DataFrame) (out : list event)
  (l : loc) (d : DataFrame) :
  h !! l = Some d ->
  Conv.auto_clean_dataset to_datetime py_str drop_accepts_ignore_index l
    (mkState h out)
  = let '(r, d5, out5) :=
      Conv.auto_repair_columns to_datetime py_str
        (Conv.detect_column_types to_datetime d) (frame.drop_duplicates d) in
    let h5 := (h ++ [d; d5])%list in
    let out' :=
      ((out ++ dedup_events
                 (frame.duplicated_sum d
                  - frame.duplicated_sum (frame.drop_duplicates d)))
         ++ out5)%list in
    match r with
    | Ok _ => prune_outcome drop_accepts_ignore_index h5 out' (S (length h)) d5
    | Raise e => (Raise e, mkState h5 out')
    end.
Proof.
  intros Hl.
  unfold Conv.auto_clean_dataset, eff.copy, mbind, M_bind, eff.read,
    eff.alloc.
  simpl. rewrite Hl. simpl. rewrite lookup_snoc.
  cbn [st_heap st_out]. rewrite lookup_snoc.
  rewrite length_app. simpl. rewrite Nat.add_1_r.
  rewrite <- app_assoc. simpl.
  set (n := frame.duplicated_sum d
            - frame.duplicated_sum (frame.drop_duplicates d)).
  assert (forall h' o',
    (if 0 <? n then eff.print (RemovedDuplicates n) else mret ())
      (mkState h' o')
    = (Ok tt, mkState h' (o' ++ dedup_events n)%list)) as Hprint.
  { intros h' o'. unfold dedup_events.
    destruct (0 <? n); simpl.
    - reflexivity.
    - unfold mret, M_ret. rewrite app_nil_r. reflexivity. }
  rewrite Hprint. unfold eff.inplace. simpl. rewrite lookup_snoc2.
  destruct (Conv.auto_repair_columns to_datetime py_str
              (Conv.detect_column_types to_datetime d)
              (frame.drop_duplicates d)) as [[r d5] out5].
  rewrite insert_snoc2. destruct r as [[] | e]; [| reflexivity].
  apply auto_drop_sparse_rows_run, lookup_snoc2.
Qed.

(** What a run has printed starts with what was printed before and the
    report of the duplicates. *)
Lemma prune_outcome_log (h5 : list DataFrame) (evs : list event) (at_ref : loc)
  (d5 : DataFrame) :
  exists rest,
    st_out (prune_outcome drop_accepts_ignore_index h5 evs at_ref d5).2
    = (evs ++ rest)%list.
Proof.
  unfold prune_outcome.
  destruct (0 <? length (frame.sparse_rows d5)).
  - destruct (frame.drop _ _ _); simpl.
    + eexists. reflexivity.
    + exists []. rewrite app_nil_r. reflexivity.
  - exists []. simpl. rewrite app_nil_r. reflexivity.
Qed.

Lemma no_sparse_rows_outcome (h : list DataFrame) (a d5 : DataFrame)
  (evs : list event) :
  frame.sparse_rows d5 = [] ->
  prune_outcome drop_accepts_ignore_index (h ++ [a; d5])%list evs
    (S (length h)) d5
  = (Ok (S (length h)), mkState (h ++ [a; d5])%list evs).
Proof. intros H. unfold prune_outcome. rewrite H. reflexivity. Qed.

End conv_store.

(** * Tables that the repairs complete *)

Section conv_complete.

Variable to_datetime : Series -> result Series.
Variable py_str : value -> string.

Lemma columns_ok_spec (numeric_ok date_ok : Series -> bool) (d : DataFrame)
  (c : string) (s0 s : Series) :
  columns_ok to_datetime numeric_ok date_ok d = true ->
  frame.lookup_col (df_columns d) c = Some s0 ->
  frame.lookup_col (df_columns (frame.drop_duplicates d)) c = Some s ->
  (Conv.column_type to_datetime d s0 = "numeric" -> numeric_ok s0 = true)
  /\ (Conv.column_type to_datetime d s0 = "datetime" -> date_ok s = true).
Proof.
  unfold columns_ok. rewrite forallb_forall. intros Hall Hs0 Hs.
  apply lookup_col_Some_elem, list_elem_of_In in Hs0.
  specialize (Hall _ Hs0). cbn [fst snd] in Hall. rewrite Hs in Hall.
  split; intros Hclass; rewrite Hclass in Hall; exact Hall.
Qed.

(** With the column types detected on the table itself: when no column is
    listed as categorical, every numeric column holds a number and the
    date repair leaves no absent cell in the columns of the date class,
    no cell of the repaired table is absent and no row is selected for
    removal. *)
Lemma conv_repair_complete (date_body : string -> D unit)
  (date_repair : Series -> Series) (numeric_ok date_ok : Series -> bool)
  (df : DataFrame) :
  (forall col d0 s,
      frame.getitem d0 col = Ok s -> date_ok s = true ->
      exists ev,
        date_body col d0 = (Ok tt, frame.setitem d0 col (date_repair s), ev)) ->
  (forall s, date_ok s = true ->
     length (s_values (date_repair s)) = length (s_values s)) ->
  (forall s, date_ok s = true -> NA ∉ s_values (date_repair s)) ->
  (forall s, numeric_ok s = true -> exists q, Num q ∈ s_values s) ->
  wf_frame df ->
  NoDup (column_names df) ->
  Conv.detect_column_types to_datetime df !! "categorical" = Some [] ->
  columns_ok to_datetime numeric_ok date_ok df = true ->
  exists d5 ev5,
    repair_columns_with py_str date_body
      (Conv.detect_column_types to_datetime df) (frame.drop_duplicates df)
    = (Ok tt, d5, ev5)
    /\ frame_shape d5 = frame_shape (frame.drop_duplicates df)
    /\ complete d5
    /\ frame.sparse_rows d5 = [].
Proof.
  intros Hlocal Hlen Hdate_ok Hnum_ok Hwf Hnd Hnocat Hok.
  destruct (conv_repair_by_class to_datetime py_str date_body date_repair
              (fun s => date_ok s = true) df Hlocal Hlen Hnd Hnocat)
    as (d5 & ev5 & Hrun & Hs & Hcols).
  { intros c s0 s Hs0 Hs Hclass.
    apply (columns_ok_spec numeric_ok date_ok df c s0 s Hok Hs0 Hs), Hclass. }
  exists d5, ev5. split; [exact Hrun |]. split; [exact Hs |].
  assert (column_names d5 = column_names df) as Hnames.
  { rewrite (column_names_shape _ _ Hs). apply drop_duplicates_column_names. }
  assert (complete d5) as Hnone.
  { intros c s5 H5.
    assert (c ∈ column_names df) as Hc.
    { rewrite <- Hnames. unfold column_names. apply list_elem_of_fmap.
      exists (c, s5). split; [reflexivity | apply lookup_col_Some_elem, H5]. }
    destruct (lookup_col_name (df_columns (frame.drop_duplicates df)) c)
      as [s Hs'].
    { fold (column_names (frame.drop_duplicates df)).
      rewrite drop_duplicates_column_names. exact Hc. }
    destruct (lookup_drop_duplicates_dtype df c s Hs') as (s0 & Hs0 & Hdt).
    rewrite (Hcols c s0 s Hs0 Hs') in H5. injection H5 as <-.
    destruct (columns_ok_spec numeric_ok date_ok df c s0 s Hok Hs0 Hs')
      as [Hnum Hdate].
    unfold repaired_by_class.
    destruct (conv_class_cases to_datetime df s0) as [H | [H | [H | H]]];
      rewrite H; simpl.
    - apply numeric_repair_no_absent.
      apply (kept_number df c s0 s Hwf Hs0 Hs'), Hnum_ok, Hnum, H.
    - apply Hdate_ok, Hdate, H.
    - apply text_repair_no_absent. rewrite Hdt.
      apply (conv_class_categorical to_datetime df s0 H).
    - apply text_repair_no_absent. rewrite Hdt.
      apply (conv_class_text to_datetime df s0 H). }
  split; [exact Hnone |].
  apply no_absent_no_sparse_rows; [| rewrite Hnames; exact Hnd | exact Hnone].
  apply (wf_frame_shape _ _ Hs), rows_removed_drop_duplicates, Hwf.
Qed.

End conv_complete.

(** * Where the two files agree *)

Section conv_agreement.

Variable to_datetime : Series -> result Series.
Variable py_str : value -> string.

(** On a column that converts, the date steps of the two files differ
    exactly in the count they test and print. *)
Lemma conv_datetime_columns_agree_iff (col : string) (df : DataFrame)
  (s parsed : Series) :
  frame.getitem df col = Ok s ->
  to_datetime s = Ok parsed ->
  s_dtype parsed = datetime64 ->
  Conv.auto_datetime_column to_datetime col df
  = Conv.main_datetime_column to_datetime col df
  <-> count_null (s_values parsed) = count_null (s_values s).
Proof.
  intros Hget Hp Hdt.
  rewrite (conv_auto_datetime_column_ok to_datetime col df s parsed Hget Hp Hdt).
  rewrite (conv_main_datetime_column_ok to_datetime col df s parsed Hget Hp Hdt).
  unfold pd.isnull_sum. split.
  - intros Heq. apply (f_equal snd) in Heq. cbn [snd] in Heq.
    destruct (0 <? count_null (s_values s)) eqn:Hs;
      destruct (0 <? count_null (s_values parsed)) eqn:Hc;
      try discriminate.
    + injection Heq as Heq. symmetry. exact Heq.
    + apply Nat.ltb_ge in Hs, Hc. lia.
  - intros ->. reflexivity.
Qed.

Lemma bind_congr {A B} (m : D A) (f g : A -> D B) (d : DataFrame) :
  (forall a d' ev, m d = (Ok a, d', ev) -> f a d' = g a d') ->
  (m ≫= f) d = (m ≫= g) d.
Proof.
  intros H. unfold mbind, D_bind.
  destruct (m d) as [[[a | e] d'] ev]; [| reflexivity].
  rewrite (H a d' ev eq_refl). reflexivity.
Qed.

Lemma bind_congr_l {A B} (m1 m2 : D A) (f : A -> D B) (d : DataFrame) :
  m1 d = m2 d -> (m1 ≫= f) d = (m2 ≫= f) d.
Proof. intros H. unfold mbind, D_bind. rewrite H. reflexivity. Qed.

(** Two loops over distinct columns give the same result when the bodies
    agree on every column of the list as the table has it at the start. *)
Lemma for_each_agree (body1 body2 : string -> D unit) (G : Series -> Series)
  (P : Series -> Prop) (cols : list string) (d : DataFrame) :
  NoDup cols ->
  (forall col d0 s,
      frame.getitem d0 col = Ok s -> P s -> body1 col d0 = body2 col d0) ->
  (forall col d0 s,
      frame.getitem d0 col = Ok s -> P s ->
      exists ev, body2 col d0 = (Ok tt, frame.setitem d0 col (G s), ev)) ->
  (forall col, col ∈ cols -> exists s, frame.getitem d col = Ok s /\ P s) ->
  eff.for_each cols body1 d = eff.for_each cols body2 d.
Proof.
  intros Hnd Hagree Hlocal. revert d.
  induction Hnd as [| col cols Hnot Hnd IH]; intros d Hpre; [reflexivity |].
  destruct (Hpre col) as (s & Hget & HP); [left |].
  destruct (Hlocal col d s Hget HP) as (ev & Hrun).
  simpl. unfold mbind, D_bind.
  rewrite (Hagree col d s Hget HP), Hrun. rewrite IH; [reflexivity |].
  intros c Hc. destruct (Hpre c) as (s' & Hget' & HP'); [right; exact Hc |].
  exists s'. split; [| exact HP']. apply getitem_lookup.
  rewrite lookup_setitem, bool_decide_eq_false_2.
  - apply getitem_lookup, Hget'.
  - intros ->. contradiction.
Qed.

(** A loop whose body touches its own column only leaves the columns that
    are not in its list as they were, however it ends. *)
Lemma for_each_untouched (body : string -> D unit) (cols : list string)
  (c : string) :
  (forall col d0 r0 d0' ev0,
      body col d0 = (r0, d0', ev0) -> c <> col ->
      frame.lookup_col (df_columns d0') c = frame.lookup_col (df_columns d0) c) ->
  c ∉ cols ->
  forall d r d' ev,
    eff.for_each cols body d = (r, d', ev) ->
    frame.lookup_col (df_columns d') c = frame.lookup_col (df_columns d) c.
Proof.
  intros Hbody. induction cols as [| col cols IH]; intros Hnot d r d' ev Hrun.
  - injection Hrun as _ <- _. reflexivity.
  - apply not_elem_of_cons in Hnot as [Hne Hnot].
    simpl in Hrun. unfold mbind, D_bind in Hrun.
    destruct (body col d) as [[[[] | e] d1] ev1] eqn:Hstep.
    + destruct (eff.for_each cols body d1) as [[r2 d2] ev2] eqn:Hrest.
      injection Hrun as _ <- _.
      rewrite (IH Hnot d1 r2 d2 ev2 Hrest).
      apply (Hbody col d _ d1 ev1 Hstep Hne).
    + injection Hrun as _ <- _. apply (Hbody col d _ d1 ev1 Hstep Hne).
Qed.

Lemma numeric_column_untouched (c col : string) (d0 : DataFrame)
  (r0 : result unit) (d0' : DataFrame) (ev0 : list event) :
  Main.numeric_column col d0 = (r0, d0', ev0) -> c <> col ->
  frame.lookup_col (df_columns d0') c = frame.lookup_col (df_columns d0) c.
Proof.
  rewrite numeric_column_eq. intros Hrun Hne.
  destruct (frame.getitem d0 col) as [s | e];
    [| injection Hrun as _ <- _; reflexivity].
  destruct (0 <? pd.isnull_sum s); [| injection Hrun as _ <- _; reflexivity].
  destruct (pd.median s) as [fill | e];
    [| injection Hrun as _ <- _; reflexivity].
  injection Hrun as _ <- _. rewrite lookup_setitem.
  rewrite bool_decide_eq_false_2 by exact Hne. reflexivity.
Qed.

Lemma categorical_column_untouched (c col : string) (d0 : DataFrame)
  (r0 : result unit) (d0' : DataFrame) (ev0 : list event) :
  Main.categorical_column py_str col d0 = (r0, d0', ev0) -> c <> col ->
  frame.lookup_col (df_columns d0') c = frame.lookup_col (df_columns d0) c.
Proof.
  rewrite categorical_column_eq. intros Hrun Hne.
  destruct (frame.getitem d0 col) as [s | e];
    [| injection Hrun as _ <- _; reflexivity].
  cbn zeta in Hrun. injection Hrun as _ <- _. rewrite lookup_setitem.
  rewrite bool_decide_eq_false_2 by exact Hne. reflexivity.
Qed.

Lemma raises_or_converts_spec (ok : Series -> Series -> bool) (s : Series) :
  raises_or_converts_with ok to_datetime s = true ->
  (exists e, to_datetime s = Raise e)
  \/ converts_with ok to_datetime s = true.
Proof.
  unfold raises_or_converts_with. intros H.
  apply orb_true_iff in H as [H | H]; [left | right; exact H].
  destruct (to_datetime s) as [p | e]; [discriminate | eauto].
Qed.

(** The date step of [main.py] assigns [main_date_repair] of the column
    when the conversion raises or gives a datetime64 column. *)
Lemma conv_main_datetime_column_repairs (ok : Series -> Series -> bool)
  (col : string) (d0 : DataFrame) (s : Series) :
  frame.getitem d0 col = Ok s ->
  raises_or_converts_with ok to_datetime s = true ->
  exists ev,
    Conv.main_datetime_column to_datetime col d0
    = (Ok tt, frame.setitem d0 col (main_date_repair to_datetime s), ev).
Proof.
  intros Hget Hok.
  destruct (raises_or_converts_spec ok s Hok) as [[e He] | Hconv].
  - rewrite (proj1 (conv_datetime_column_raise to_datetime col d0 s e Hget He)).
    unfold main_date_repair. rewrite He, (setitem_same d0 col s Hget).
    eexists. reflexivity.
  - apply (conv_main_datetime_column_local to_datetime ok col d0 s Hget Hconv).
Qed.

Lemma conv_auto_datetime_column_repairs (ok : Series -> Series -> bool)
  (col : string) (d0 : DataFrame) (s : Series) :
  frame.getitem d0 col = Ok s ->
  raises_or_converts_with ok to_datetime s = true ->
  exists ev,
    Conv.auto_datetime_column to_datetime col d0
    = (Ok tt, frame.setitem d0 col (auto_date_repair to_datetime s), ev).
Proof.
  intros Hget Hok.
  destruct (raises_or_converts_spec ok s Hok) as [[e He] | Hconv].
  - rewrite (proj2 (conv_datetime_column_raise to_datetime col d0 s e Hget He)).
    unfold auto_date_repair. rewrite He, (setitem_same d0 col s Hget).
    eexists. reflexivity.
  - apply (conv_auto_datetime_column_local to_datetime ok col d0 s Hget Hconv).
Qed.

Lemma date_repair_length (ok : Series -> Series -> bool) (s : Series) :
  raises_or_converts_with ok to_datetime s = true ->
  length (s_values (main_date_repair to_datetime s)) = length (s_values s)
  /\ length (s_values (auto_date_repair to_datetime s)) = length (s_values s).
Proof.
  intros Hok.
  destruct (raises_or_converts_spec ok s Hok) as [[e He] | Hconv].
  - unfold main_date_repair, auto_date_repair. rewrite He. auto.
  - split; [apply (main_date_repair_length to_datetime ok s Hconv) |
            apply (auto_date_repair_length to_datetime ok s Hconv)].
Qed.

(** The date steps agree on a column whose conversion raises, or gives a
    datetime64 column with as many absent cells as the column had. *)
Lemma conv_datetime_columns_agree (col : string) (d0 : DataFrame) (s : Series) :
  frame.getitem d0 col = Ok s ->
  raises_or_converts_with no_cell_lost to_datetime s = true ->
  Conv.auto_datetime_column to_datetime col d0
  = Conv.main_datetime_column to_datetime col d0.
Proof.
  intros Hget Hok.
  destruct (raises_or_converts_spec _ s Hok) as [[e He] | Hconv].
  - destruct (conv_datetime_column_raise to_datetime col d0 s e Hget He)
      as [-> ->]. reflexivity.
  - apply converts_with_spec in Hconv as (parsed & Hp & Hdt & _ & _ & Hsame).
    apply (conv_datetime_columns_agree_iff col d0 s parsed Hget Hp Hdt).
    apply Nat.eqb_eq, Hsame.
Qed.

(** With the column types detected on the table itself, steps 2 to 5 of
    the two files give the same table and the same output when the
    conversion of every column of the date class raises or loses no
    cell. *)
Lemma conv_repair_columns_agree (df : DataFrame) :
  NoDup (column_names df) ->
  columns_ok to_datetime any_column
    (raises_or_converts_with no_cell_lost to_datetime) df = true ->
  Conv.auto_repair_columns to_datetime py_str
    (Conv.detect_column_types to_datetime df) (frame.drop_duplicates df)
  = Conv.main_repair_columns to_datetime py_str
      (Conv.detect_column_types to_datetime df) (frame.drop_duplicates df).
Proof.
  intros Hnd Hok. set (cls := Conv.column_type to_datetime df).
  set (d := frame.drop_duplicates df).
  rewrite conv_main_repair_columns_with, conv_auto_repair_columns_with.
  unfold repair_columns_with.
  apply bind_congr. intros cols1 d1 ev1 H1.
  rewrite (conv_dict_get to_datetime df d "numeric" ltac:(set_solver)) in H1.
  injection H1 as <- <- _. fold cls.
  apply bind_congr. intros [] d2 ev2 H2.
  apply bind_congr. intros cols3 d3 ev3 H3.
  rewrite (conv_dict_get to_datetime df d2 "categorical" ltac:(set_solver))
    in H3.
  injection H3 as <- <- _. fold cls.
  apply bind_congr. intros [] d4 ev4 H4.
  apply bind_congr. intros cols5 d5 ev5 H5.
  rewrite (conv_dict_get to_datetime df d4 "datetime" ltac:(set_solver)) in H5.
  injection H5 as <- <- _. fold cls.
  apply bind_congr_l.
  apply (for_each_agree _ _ (main_date_repair to_datetime)
           (fun s => raises_or_converts_with no_cell_lost to_datetime s = true)).
  - apply NoDup_names_by, Hnd.
  - intros col d0 s. apply conv_datetime_columns_agree.
  - intros col d0 s. apply conv_main_datetime_column_repairs.
  - intros col Hin.
    pose proof (names_by_elem cls _ _ _ Hin) as (s0 & Hin0 & Hclass).
    pose proof (lookup_col_elem _ _ _ Hnd Hin0) as Hs0.
    destruct (lookup_col_name (df_columns d) col) as [s Hs].
    { fold (column_names d). unfold d.
      rewrite drop_duplicates_column_names.
      eapply names_by_subset, Hin. }
    exists s. split.
    + apply getitem_lookup.
      rewrite (for_each_untouched (Main.categorical_column py_str)
                 (names_by cls "categorical" df) col
                 (fun col' d0 r0 d0' ev0 H Hne =>
                    categorical_column_untouched col col' d0 r0 d0' ev0 H Hne)
                 ltac:(intros Hc;
                       apply (names_by_iff cls "categorical" df col s0 Hnd Hs0)
                         in Hc; congruence)
                 d2 _ d4 ev4 H4).
      rewrite (for_each_untouched Main.numeric_column
                 (names_by cls "numeric" df) col
                 (fun col' d0 r0 d0' ev0 H Hne =>
                    numeric_column_untouched col col' d0 r0 d0' ev0 H Hne)
                 ltac:(intros Hc;
                       apply (names_by_iff cls "numeric" df col s0 Hnd Hs0)
                         in Hc; congruence)
                 d _ d2 ev2 H2).
      exact Hs.
    + apply (columns_ok_spec to_datetime _ _ df col s0 s Hok Hs0 Hs), Hclass.
Qed.

End conv_agreement.

(** * The median of small integers *)

Section small_integers.

Lemma small_integer_spec (q : Q) :
  small_integer (Num q) = true ->
  exists z : Z, (q == inject_Z z)%Q /\ (Z.abs z <= 2 ^ 52)%Z.
Proof.
  unfold small_integer. rewrite andb_true_iff, Z.eqb_eq, Z.leb_le.
  intros [Hrem Hle]. exists (Z.quot (Qnum q) (Z.pos (Qden q))).
  pose proof (Z.quot_rem' (Qnum q) (Z.pos (Qden q))) as Hdiv.
  rewrite Hrem, Z.add_0_r in Hdiv.
  set (z := Z.quot (Qnum q) (Z.pos (Qden q))) in *.
  split.
  - unfold Qeq. simpl. lia.
  - assert (0 < Z.pos (Qden q))%Z as Hpos by lia.
    rewrite Hdiv in Hle. nia.
Qed.

Lemma median_numbers_cases (qs : list Q) :
  qs <> [] ->
  exists m,
    pd.median_numbers qs = Num m
    /\ (m ∈ qs
        \/ exists a b, a ∈ qs /\ b ∈ qs /\ (m == (a + b) / 2)%Q).
Proof.
  intros Hne. unfold pd.median_numbers.
  pose proof (merge_sort_Permutation Qle qs) as Hperm.
  set (sorted := merge_sort Qle qs) in *.
  assert (forall i, i < length sorted -> nth i sorted 0%Q ∈ qs) as Hnth.
  { intros i Hi. rewrite <- Hperm. apply nth_elem_of, Hi. }
  assert (0 < length sorted) as Hpos.
  { rewrite (Permutation_length Hperm). destruct qs; [congruence | simpl; lia]. }
  destruct (length sorted) as [| n] eqn:Hn; [lia |].
  pose proof (Nat.div_lt (S n) 2 ltac:(lia) ltac:(lia)) as Hhalf.
  destruct (Nat.odd (S n)).
  - eexists. split; [reflexivity |]. left. apply Hnth. lia.
  - eexists. split; [reflexivity |]. right.
    exists (nth (S n / 2 - 1) sorted 0%Q), (nth (S n / 2) sorted 0%Q).
    split; [apply Hnth; lia |]. split; [apply Hnth; lia |].
    apply Qred_correct.
Qed.

(** The median of small integers is an integer or a half of one, which
    floating point holds exactly. *)
Lemma median_small_integers (vs : list value) (m : Q) :
  Forall (fun v => small_integer v = true) vs ->
  pd.numbers vs <> [] ->
  pd.median_numbers (pd.numbers vs) = Num m ->
  exact_half m.
Proof.
  intros Hsmall Hne Hm.
  assert (forall q, q ∈ pd.numbers vs ->
            exists z : Z, (q == inject_Z z)%Q /\ (Z.abs z <= 2 ^ 52)%Z) as Hint.
  { intros q Hq. apply small_integer_spec. rewrite Forall_forall in Hsmall.
    apply Hsmall, numbers_elem, Hq. }
  destruct (median_numbers_cases _ Hne) as (m' & Hm' & Hcases).
  rewrite Hm in Hm'. injection Hm' as <-.
  destruct Hcases as [Hin | (a & b & Ha & Hb & Heq)].
  - destruct (Hint m Hin) as (z & Hz & Hle). exists (2 * z)%Z. split.
    + rewrite Hz, inject_Z_mult. reflexivity.
    + lia.
  - destruct (Hint a Ha) as (za & Hza & Hlea).
    destruct (Hint b Hb) as (zb & Hzb & Hleb).
    exists (za + zb)%Z. split.
    + rewrite Heq, Hza, Hzb, inject_Z_plus. field.
    + lia.
Qed.

End small_integers.

(** * The cell-wise conversion as an instance

    [Module AutoEda] and [Module Main] are [Module Conv] at the conversion
    [pd.to_datetime parse]. *)

Section conv_instance.

Variable parse : string -> option Z.
Variable py_str : value -> string.
Variable drop_accepts_ignore_index : bool.

Lemma conv_instance_detect :
  Conv.detect_column_types (pd.to_datetime parse)
  = Main.detect_column_types parse
  /\ Conv.detect_column_types (pd.to_datetime parse)
     = AutoEda.detect_column_types parse.
Proof. split; reflexivity. Qed.

Lemma conv_instance_main_datetime_column (col : string) (df : DataFrame) :
  Conv.main_datetime_column (pd.to_datetime parse) col df
  = Main.datetime_column parse col df.
Proof.
  rewrite main_datetime_column_eq.
  destruct (frame.getitem df col) as [s | e] eqn:Hget.
  - rewrite (conv_main_datetime_column_ok (pd.to_datetime parse) col df s
               (mkSeries datetime64 (parsed_cells parse s)) Hget eq_refl
               eq_refl).
    reflexivity.
  - unfold Conv.main_datetime_column. run_statements. rewrite Hget.
    reflexivity.
Qed.

Lemma conv_instance_auto_datetime_column (col : string) (df : DataFrame) :
  Conv.auto_datetime_column (pd.to_datetime parse) col df
  = AutoEda.datetime_column parse col df.
Proof.
  rewrite auto_datetime_column_eq.
  destruct (frame.getitem df col) as [s | e] eqn:Hget.
  - rewrite (conv_auto_datetime_column_ok (pd.to_datetime parse) col df s
               (mkSeries datetime64 (parsed_cells parse s)) Hget eq_refl
               eq_refl).
    reflexivity.
  - unfold Conv.auto_datetime_column. run_statements. rewrite Hget.
    reflexivity.
Qed.

Lemma for_each_ext {A} (body1 body2 : A -> D unit) (xs : list A) :
  (forall x d, body1 x d = body2 x d) ->
  forall d, eff.for_each xs body1 d = eff.for_each xs body2 d.
Proof.
  intros Hext. induction xs as [| x xs IH]; intros d; [reflexivity |].
  simpl. unfold mbind, D_bind. rewrite Hext.
  destruct (body2 x d) as [[[[] | e] d'] ev]; [| reflexivity].
  rewrite IH. reflexivity.
Qed.

Lemma repair_columns_with_ext (body1 body2 : string -> D unit)
  (col_types : gmap string (list string)) (d : DataFrame) :
  (forall col d0, body1 col d0 = body2 col d0) ->
  repair_columns_with py_str body1 col_types d
  = repair_columns_with py_str body2 col_types d.
Proof.
  intros Hext. unfold repair_columns_with.
  apply bind_congr. intros cols1 d1 ev1 _.
  apply bind_congr. intros [] d2 ev2 _.
  apply bind_congr. intros cols3 d3 ev3 _.
  apply bind_congr. intros [] d4 ev4 _.
  apply bind_congr. intros cols5 d5 ev5 _.
  apply bind_congr_l. apply for_each_ext, Hext.
Qed.

Lemma conv_instance_repair_columns (col_types : gmap string (list string))
  (d : DataFrame) :
  Conv.main_repair_columns (pd.to_datetime parse) py_str col_types d
  = Main.repair_columns parse py_str col_types d
  /\ Conv.auto_repair_columns (pd.to_datetime parse) py_str col_types d
     = AutoEda.repair_columns parse py_str col_types d.
Proof.
  split.
  - change (repair_columns_with py_str
              (Conv.main_datetime_column (pd.to_datetime parse)) col_types d
            = repair_columns_with py_str (Main.datetime_column parse)
                col_types d).
    apply repair_columns_with_ext, conv_instance_main_datetime_column.
  - change (repair_columns_with py_str
              (Conv.auto_datetime_column (pd.to_datetime parse)) col_types d
            = repair_columns_with py_str (AutoEda.datetime_column parse)
                col_types d).
    apply repair_columns_with_ext, conv_instance_auto_datetime_column.
Qed.

(** The runs of the cleaners of [Module Main] and [Module AutoEda] are the
    runs over the cell-wise conversion. *)
Lemma conv_instance_runs (col_types : gmap string (list string)) (l : loc)
  (h : list DataFrame) (evs : list event) (d : DataFrame) :
  h !! l = Some d ->
  Conv.clean_data (pd.to_datetime parse) py_str drop_accepts_ignore_index
    col_types l (mkState h evs)
  = Main.clean_data parse py_str drop_accepts_ignore_index col_types l
      (mkState h evs)
  /\ Conv.auto_clean_dataset (pd.to_datetime parse) py_str
       drop_accepts_ignore_index l (mkState h evs)
     = AutoEda.auto_clean_dataset parse py_str drop_accepts_ignore_index l
         (mkState h evs).
Proof.
  intros Hl. split.
  - rewrite (conv_clean_data_run _ py_str _ col_types h evs l d Hl).
    rewrite (main_clean_data_run parse py_str _ col_types h evs l d Hl).
    rewrite (proj1 (conv_instance_repair_columns col_types _)). reflexivity.
  - rewrite (conv_auto_clean_dataset_run _ py_str _ h evs l d Hl).
    rewrite (auto_clean_dataset_run parse py_str _ h evs l d Hl).
    rewrite (proj2 (conv_instance_repair_columns _ _)). reflexivity.
Qed.

End conv_instance.

(** * Further properties of the code *)

(** X1: [detect_column_types] of both files, over the conversion
    [pd.to_datetime] performs.  Every column is put in exactly one of the
    four lists, in column order.  The result of the conversion is dropped:
    the lists depend on it through the columns on which it raises only.  A
    column is listed under ['categorical'] only when it is an object column
    on which the conversion raises; an object column on which it does not
    raise is listed under ['datetime'] when all its cells are strings of
    fewer than 50 characters, and under ['text'] otherwise.  The detectors
    of [Module AutoEda] and [Module Main] are the case of a conversion that
    applies one parser to every cell. *)
Theorem detector_lists_are_the_classes_in_column_order
  (to_datetime : Series -> result Series) (df : DataFrame) :
  let class := Conv.column_type to_datetime df in
  Conv.detect_column_types to_datetime df !! "numeric"
  = Some (names_by class "numeric" df)
  /\ Conv.detect_column_types to_datetime df !! "datetime"
     = Some (names_by class "datetime" df)
  /\ Conv.detect_column_types to_datetime df !! "categorical"
     = Some (names_by class "categorical" df)
  /\ Conv.detect_column_types to_datetime df !! "text"
     = Some (names_by class "text" df)
  /\ (names_by class "numeric" df ++ names_by class "datetime" df
      ++ names_by class "categorical" df ++ names_by class "text" df)%list
     ≡ₚ column_names df
  /\ (forall s, class s = "categorical" ->
        s_dtype s = object /\ raises (to_datetime s) = true)
  /\ (forall s, s_dtype s = object -> raises (to_datetime s) = false ->
        class s = if pd.apply_all short_str s then "datetime" else "text")
  /\ (forall to_datetime' : Series -> result Series,
        (forall cs, cs ∈ df_columns df ->
           raises (to_datetime' cs.2) = raises (to_datetime cs.2)) ->
        Conv.detect_column_types to_datetime' df
        = Conv.detect_column_types to_datetime df)
  /\ (forall parse,
        AutoEda.detect_column_types parse df
        = Conv.detect_column_types (pd.to_datetime parse) df
        /\ Main.detect_column_types parse df
           = Conv.detect_column_types (pd.to_datetime parse) df).
Proof.
  intros class. unfold class.
  split; [apply conv_detect_key; set_solver |].
  split; [apply conv_detect_key; set_solver |].
  split; [apply conv_detect_key; set_solver |].
  split; [apply conv_detect_key; set_solver |].
  split; [apply conv_classes_partition |].
  split; [| split; [| split]].
  - intros s Hs.
    destruct (conv_class_categorical to_datetime df s Hs) as [Hobj [e He]].
    rewrite He. auto.
  - intros s Hobj Hok. unfold Conv.column_type, pd.is_numeric_dtype,
      pd.is_datetime64_any_dtype. rewrite Hobj. simpl.
    destruct (to_datetime s); [reflexivity | discriminate].
  - intros to_datetime' Hsame. unfold Conv.detect_column_types.
    generalize empty_mapping.
    induction (df_columns df) as [| cs cols IH] using rev_ind; intros m;
      [reflexivity |].
    rewrite !foldl_snoc.
    rewrite IH by (intros cs' Hin; apply Hsame, elem_of_app; left; exact Hin).
    rewrite (conv_column_type_ext to_datetime' to_datetime df cs.2);
      [reflexivity |].
    apply Hsame, elem_of_app. right. left.
  - intros parse. split; reflexivity.
Qed.

(** X2: steps 2 to 5 of both cleaners, whatever the column types given and
    whether the steps end normally or raise, never add, remove, rename or
    reorder a column and never change the number of cells of a column or
    the length of the index. *)
Theorem repair_steps_keep_the_shape
  (parse : string -> option Z) (py_str : value -> string)
  (col_types : gmap string (list string)) (df : DataFrame) :
  frame_shape (Main.repair_columns parse py_str col_types df).1.2
  = frame_shape df
  /\ frame_shape (AutoEda.repair_columns parse py_str col_types df).1.2
     = frame_shape df.
Proof.
  split; [apply keeps_shape_main_repair | apply keeps_shape_auto_repair].
Qed.

(** X3: the table a cleaner returns has the columns of the input table, by
    name and in order, has at most as many rows, and is well formed when
    the input is. *)
Theorem cleaned_table_has_the_input_columns
  (parse : string -> option Z) (py_str : value -> string) (flag : bool)
  (h : list DataFrame) (evs : list event) (l : loc) (d : DataFrame) :
  h !! l = Some d ->
  (forall col_types out,
      returned_frame
        (Main.clean_data parse py_str flag col_types l (mkState h evs))
      = Some out ->
      rows_removed_from d out)
  /\ (forall out,
        returned_frame
          (AutoEda.auto_clean_dataset parse py_str flag l (mkState h evs))
        = Some out ->
        rows_removed_from d out).
Proof.
  intros Hl. split.
  - intros col_types out.
    apply (main_clean_data_rows_removed parse py_str flag col_types h evs l d out Hl).
  - intros out.
    apply (auto_clean_dataset_rows_removed parse py_str flag h evs l d out Hl).
Qed.

Lemma cleaned_table_has_the_input_columns_witness :
  rows_removed_from samples.sparse samples.sparse_repaired.
Proof.
  apply (proj1 (cleaned_table_has_the_input_columns pydate.parse_ymd
                  pydate.py_str_model false [samples.sparse] [] 0
                  samples.sparse ltac:(reflexivity))
           (Main.detect_column_types pydate.parse_ymd samples.sparse)).
  vm_compute; reflexivity.
Defined.

(** X4: step 1 of both cleaners.  On a well-formed table,
    [drop_duplicates] removes as many rows as [duplicated().sum()] counts
    and leaves no row that repeats an earlier one, so the difference
    [auto_clean_dataset] computes is that count; every run of either
    cleaner, however it ends, reports that count after what was printed
    before, and reports no removal when the count is zero. *)
Theorem deduplication_is_idempotent_and_counted
  (to_datetime : Series -> result Series) (py_str : value -> string)
  (flag : bool) (col_types : gmap string (list string))
  (h : list DataFrame) (evs : list event) (l : loc) (d : DataFrame) :
  h !! l = Some d ->
  wf_frame d ->
  df_len (frame.drop_duplicates d) + frame.duplicated_sum d = df_len d
  /\ frame.duplicated_sum (frame.drop_duplicates d) = 0
  /\ frame.drop_duplicates (frame.drop_duplicates d) = frame.drop_duplicates d
  /\ (exists rest,
        st_out
          (Conv.clean_data to_datetime py_str flag col_types l
             (mkState h evs)).2
        = (evs ++ dedup_events (frame.duplicated_sum d) ++ rest)%list)
  /\ (exists rest,
        st_out
          (Conv.auto_clean_dataset to_datetime py_str flag l
             (mkState h evs)).2
        = (evs ++ dedup_events (frame.duplicated_sum d) ++ rest)%list).
Proof.
  intros Hl Hwf.
  assert (frame.duplicated_sum (frame.drop_duplicates d) = 0) as H0.
  { apply count_true_all_false, duplicated_drop_duplicates, Hwf. }
  split; [apply drop_duplicates_count |].
  split; [exact H0 |].
  split; [apply drop_duplicates_idempotent, Hwf |].
  split.
  - rewrite (conv_clean_data_run to_datetime py_str flag col_types h evs l d Hl).
    destruct (Conv.main_repair_columns _ _ _ _) as [[[[] | e] d5] out5];
      cbv zeta.
    + destruct (prune_outcome_log flag (h ++ [d; d5])%list
                  ((evs ++ dedup_events (frame.duplicated_sum d)) ++ out5)%list
                  (S (length h)) d5) as [rest ->].
      exists (out5 ++ rest)%list. rewrite <- !app_assoc. reflexivity.
    + exists out5. simpl. rewrite <- !app_assoc. reflexivity.
  - rewrite (conv_auto_clean_dataset_run to_datetime py_str flag h evs l d Hl).
    rewrite H0, Nat.sub_0_r.
    destruct (Conv.auto_repair_columns _ _ _ _) as [[[[] | e] d5] out5];
      cbv zeta.
    + destruct (prune_outcome_log flag (h ++ [d; d5])%list
                  ((evs ++ dedup_events (frame.duplicated_sum d)) ++ out5)%list
                  (S (length h)) d5) as [rest ->].
      exists (out5 ++ rest)%list. rewrite <- !app_assoc. reflexivity.
    + exists out5. simpl. rewrite <- !app_assoc. reflexivity.
Qed.

Lemma deduplication_is_idempotent_and_counted_witness :
  frame.duplicated_sum tables.mixed = 1
  /\ df_len (frame.drop_duplicates tables.mixed) = 3
  /\ exists rest,
       st_out
         (Conv.auto_clean_dataset (pd.to_datetime pydate.parse_ymd)
            pydate.py_str_model false 0 (mkState [tables.mixed] [])).2
       = ([] ++ dedup_events (frame.duplicated_sum tables.mixed) ++ rest)%list.
Proof.
  split; [reflexivity |]. split; [reflexivity |].
  apply (deduplication_is_idempotent_and_counted
           (pd.to_datetime pydate.parse_ymd) pydate.py_str_model false
           (Conv.detect_column_types (pd.to_datetime pydate.parse_ymd)
              tables.mixed)
           [tables.mixed] [] 0 tables.mixed).
  - reflexivity.
  - repeat constructor.
Defined.

Section runs_end.

Variable parse : string -> option Z.
Variable py_str : value -> string.
Variable flag : bool.

Lemma prune_outcome_ends (h : list DataFrame) (a d5 : DataFrame)
  (evs : list event) :
  ends_without_key_error flag
    (prune_outcome flag (h ++ [a; d5])%list evs (S (length h)) d5).
Proof.
  unfold ends_without_key_error, prune_outcome, frame.drop.
  destruct (0 <? length (frame.sparse_rows d5)); [destruct flag |]; simpl.
  - rewrite lookup_snoc. eauto.
  - auto.
  - rewrite lookup_snoc2. eauto.
Qed.

End runs_end.

(** X5: [auto_clean_dataset] on a table with distinct column names never
    fails on a missing key or column and never fails in a repair step: the
    run returns a table, unless rows are selected for removal and
    [DataFrame.drop] rejects [ignore_index], which is the only exception
    it can end with. *)
Theorem auto_clean_dataset_ends_without_key_error
  (parse : string -> option Z) (py_str : value -> string) (flag : bool)
  (h : list DataFrame) (evs : list event) (l : loc) (d : DataFrame) :
  h !! l = Some d ->
  NoDup (column_names d) ->
  ends_without_key_error flag
    (AutoEda.auto_clean_dataset parse py_str flag l (mkState h evs)).
Proof.
  intros Hl Hnd. rewrite (auto_clean_dataset_run parse py_str flag h evs l d Hl).
  destruct (auto_repair_ok parse py_str d Hnd) as (d5 & out5 & ->).
  apply prune_outcome_ends.
Qed.

Lemma auto_clean_dataset_ends_without_key_error_witness :
  ends_without_key_error false
    (AutoEda.auto_clean_dataset pydate.parse_ymd pydate.py_str_model false 0
       (mkState [samples.unparsed] [])).
Proof.
  apply (auto_clean_dataset_ends_without_key_error pydate.parse_ymd
           pydate.py_str_model false [samples.unparsed] [] 0 samples.unparsed).
  - reflexivity.
  - apply (bool_decide_unpack _). vm_compute. exact I.
Defined.

(** X6: the same for [clean_data] of [main.py] when it runs, as in [main()]
    and the examples, on the table on which [detect_column_types] was last
    called. *)
Theorem clean_data_after_detect_ends_without_key_error
  (parse : string -> option Z) (py_str : value -> string) (flag : bool)
  (h : list DataFrame) (evs : list event) (l : loc) (d : DataFrame) :
  h !! l = Some d ->
  NoDup (column_names d) ->
  ends_without_key_error flag
    (Main.clean_data parse py_str flag (Main.detect_column_types parse d) l
       (mkState h evs)).
Proof.
  intros Hl Hnd.
  rewrite (main_clean_data_run parse py_str flag _ h evs l d Hl).
  destruct (main_repair_ok parse py_str d Hnd) as (d5 & out5 & ->).
  apply prune_outcome_ends.
Qed.

Lemma clean_data_after_detect_ends_without_key_error_witness :
  ends_without_key_error false
    (Main.clean_data pydate.parse_ymd pydate.py_str_model false
       (Main.detect_column_types pydate.parse_ymd samples.unparsed) 0
       (mkState [samples.unparsed] [])).
Proof.
  apply (clean_data_after_detect_ends_without_key_error pydate.parse_ymd
           pydate.py_str_model false [samples.unparsed] [] 0 samples.unparsed).
  - reflexivity.
  - apply (bool_decide_unpack _). vm_compute. exact I.
Defined.

(** X7: [clean_data] on a cleaner whose [col_types] has no ['numeric']
    entry, as after [__init__] when [detect_column_types] was never called,
    raises [KeyError] before any repair; the caller's table is untouched
    and the working copy is only deduplicated. *)
Theorem clean_data_without_detected_types_raises
  (parse : string -> option Z) (py_str : value -> string) (flag : bool)
  (col_types : gmap string (list string))
  (h : list DataFrame) (evs : list event) (l : loc) (d : DataFrame) :
  h !! l = Some d ->
  col_types !! "numeric" = None ->
  Main.clean_data parse py_str flag col_types l (mkState h evs)
  = (Raise KeyError,
     mkState (h ++ [d; frame.drop_duplicates d])%list
       (evs ++ dedup_events (frame.duplicated_sum d))%list).
Proof.
  intros Hl Hnone.
  rewrite (main_clean_data_run parse py_str flag col_types h evs l d Hl).
  unfold Main.repair_columns, eff.dict_get, eff.lift, mbind, D_bind.
  rewrite Hnone. rewrite app_nil_r. reflexivity.
Qed.

Lemma clean_data_without_detected_types_raises_witness :
  (Main.clean_data pydate.parse_ymd pydate.py_str_model true ∅ 0
     (mkState [samples.spaces] [])).1
  = Raise KeyError.
Proof.
  rewrite (clean_data_without_detected_types_raises pydate.parse_ymd
             pydate.py_str_model true ∅ [samples.spaces] [] 0 samples.spaces).
  - reflexivity.
  - reflexivity.
  - reflexivity.
Defined.

Section column_edge.

Variable parse : string -> option Z.
Variable py_str : value -> string.

Lemma lookup_col_absent (cols : list (string * Series)) (col : string) :
  col ∉ map fst cols -> frame.lookup_col cols col = None.
Proof.
  induction cols as [| [c s] cols IH]; simpl; [reflexivity |].
  intros Hnot. destruct (String.eqb_spec c col) as [-> | Hne].
  - exfalso. apply Hnot. left.
  - apply IH. intros Hin. apply Hnot. right. exact Hin.
Qed.

Lemma getitem_absent (df : DataFrame) (col : string) :
  col ∉ column_names df -> frame.getitem df col = Raise KeyError.
Proof.
  intros Hnot. unfold frame.getitem.
  rewrite (lookup_col_absent _ _ Hnot). reflexivity.
Qed.

End column_edge.

(** X8: a column name that is not in the table.  The numeric, categorical
    and text steps raise [KeyError] and leave the table as it is; the date
    step of [main.py] catches the error, prints the "could not parse" line
    and goes on, whereas the date step of [auto_eda_cleaner.py], which reads
    the column before its [try], raises. *)
Theorem missing_column_is_caught_only_by_the_main_date_step
  (parse : string -> option Z) (py_str : value -> string)
  (df : DataFrame) (col : string) :
  col ∉ column_names df ->
  Main.numeric_column col df = (Raise KeyError, df, [])
  /\ Main.categorical_column py_str col df = (Raise KeyError, df, [])
  /\ Main.text_column py_str col df = (Raise KeyError, df, [])
  /\ Main.datetime_column parse col df = (Ok tt, df, [CouldNotParse col])
  /\ AutoEda.datetime_column parse col df = (Raise KeyError, df, []).
Proof.
  intros Hnot. pose proof (getitem_absent df col Hnot) as Hget.
  rewrite numeric_column_eq, categorical_column_eq, text_column_eq,
    main_datetime_column_eq, auto_datetime_column_eq, Hget.
  repeat split.
Qed.

Lemma missing_column_is_caught_only_by_the_main_date_step_witness :
  Main.datetime_column pydate.parse_ymd "joined" samples.spaces
  = (Ok tt, samples.spaces, [CouldNotParse "joined"]).
Proof.
  apply (missing_column_is_caught_only_by_the_main_date_step pydate.parse_ymd
           pydate.py_str_model samples.spaces "joined").
  apply (bool_decide_unpack _). vm_compute. exact I.
Defined.

(** X9: the numeric step on a float column of small integers (magnitude
    at most [2 ^ 52]) that holds at least one number fills every absent
    cell with the median, changes no cell that is present, and leaves no
    cell absent; the median lies between any bounds that hold for the
    numbers of the column, and is an integer or the half of one, so that it
    is the value the floating-point median has. *)
Theorem numeric_fill_keeps_present_values
  (df : DataFrame) (col : string) (s : Series) (lo hi : Q) :
  frame.getitem df col = Ok s ->
  s_dtype s = float64 ->
  Forall (fun v => small_integer v = true) (s_values s) ->
  (exists q, Num q ∈ s_values s) ->
  (forall q, Num q ∈ s_values s -> (lo <= q <= hi)%Q) ->
  exists m,
    pd.median s = Ok (Num m)
    /\ (lo <= m <= hi)%Q
    /\ exact_half m
    /\ (Main.numeric_column col df).1
       = (Ok tt,
          frame.setitem df col
            (mkSeries float64
               (map (fun v => if isnull v then Num m else v) (s_values s))))
    /\ (NA ∉ map (fun v => if isnull v then Num m else v) (s_values s))
    /\ AutoEda.numeric_column col df = Main.numeric_column col df.
Proof.
  intros Hget Hdt Hsmall [q0 Hq0] Hbounds.
  assert (pd.numbers (s_values s) <> []) as Hne.
  { intros Hnil. apply numbers_elem in Hq0. rewrite Hnil in Hq0.
    apply elem_of_nil in Hq0 as []. }
  destruct (median_numbers_bounds (pd.numbers (s_values s)) lo hi Hne)
    as (m & Hm & Hrange).
  { intros q Hq. apply Hbounds, numbers_elem, Hq. }
  exists m. unfold pd.median. rewrite Hdt, Hm.
  split; [reflexivity |]. split; [exact Hrange |].
  split; [apply (median_small_integers (s_values s) m Hsmall Hne Hm) |].
  split; [| split; [apply map_fill_no_absent; discriminate | reflexivity]].
  rewrite numeric_column_eq, Hget. unfold pd.median. rewrite Hdt, Hm.
  destruct (0 <? pd.isnull_sum s) eqn:Hmissing; simpl.
  - rewrite Hdt. reflexivity.
  - rewrite map_fill_id by (apply isnull_sum_zero, Hmissing).
    rewrite <- Hdt, series_eta, (setitem_same df col s Hget). reflexivity.
Qed.

Lemma numeric_fill_keeps_present_values_witness :
  exists m,
    pd.median (samples.floats [Num 3; NA; Num 4]) = Ok (Num m)
    /\ (3 <= m <= 4)%Q
    /\ exact_half m.
Proof.
  destruct (numeric_fill_keeps_present_values
              (mkDataFrame 3 [("c", samples.floats [Num 3; NA; Num 4])])
              "c" (samples.floats [Num 3; NA; Num 4]) 3 4)
    as (m & Hmed & Hrange & Hhalf & _).
  - reflexivity.
  - reflexivity.
  - repeat constructor.
  - exists 3%Q. left.
  - intros q Hq.
    repeat (apply elem_of_cons in Hq as [Hq | Hq];
            [try discriminate; injection Hq as ->; split; vm_compute;
             discriminate |]).
    apply elem_of_nil in Hq as [].
  - exists m. split; [exact Hmed | split; [exact Hrange | exact Hhalf]].
Defined.

(** X10: a column in which every cell is absent is left as it is by the
    numeric step, its median being NaN; the step still prints that it
    filled the cells. *)
Theorem numeric_step_on_all_absent_column
  (df : DataFrame) (col : string) (s : Series) :
  frame.getitem df col = Ok s ->
  s_values s <> [] ->
  Forall (fun v => v = NA) (s_values s) ->
  Main.numeric_column col df
  = (Ok tt, df, [FilledNumeric col (length (s_values s))])
  /\ AutoEda.numeric_column col df = Main.numeric_column col df.
Proof.
  intros Hget Hne Hall. split; [| reflexivity].
  rewrite numeric_column_eq, Hget, (median_all_absent s Hall).
  unfold pd.isnull_sum. rewrite (count_null_all _ Hall).
  assert ((0 <? length (s_values s)) = true) as ->.
  { apply Nat.ltb_lt. destruct (s_values s); [congruence | simpl; lia]. }
  simpl. rewrite (setitem_same df col s Hget). reflexivity.
Qed.

Lemma numeric_step_on_all_absent_column_witness :
  Main.numeric_column "z" samples.lowcard
  = (Ok tt, samples.lowcard, [FilledNumeric "z" 4]).
Proof.
  apply (numeric_step_on_all_absent_column samples.lowcard "z"
           (samples.floats [NA; NA; NA; NA])).
  - reflexivity.
  - discriminate.
  - repeat constructor.
Defined.

(** X11: the text step on an object column of strings and absent cells
    strips every string, keeps its casing, writes ["Unknown"] in every
    absent cell, and leaves no cell absent. *)
Theorem text_step_strips_and_fills
  (py_str : value -> string) (df : DataFrame) (col : string) (s : Series) :
  frame.getitem df col = Ok s ->
  s_dtype s = object ->
  strings_or_absent s ->
  (Main.text_column py_str col df).1
  = (Ok tt,
     frame.setitem df col
       (mkSeries object
          (map (fun v => match v with
                         | Str x => Str (pystr.strip x)
                         | _ => Str "Unknown"
                         end) (s_values s))))
  /\ AutoEda.text_column py_str col df = Main.text_column py_str col df.
Proof.
  intros Hget Hobj Hstr. split; [| reflexivity].
  rewrite text_column_eq, Hget. cbn zeta.
  destruct (0 <? pd.isnull_sum s) eqn:Hmissing; cbn [fst].
  - simpl. rewrite Hobj. simpl. apply (f_equal (fun vs => (Ok tt, frame.setitem df col (mkSeries object vs)))).
    unfold pd.astype_str; simpl; rewrite !map_map.
    apply map_ext_in. intros v Hv. apply list_elem_of_In in Hv.
    unfold strings_or_absent in Hstr. rewrite Forall_forall in Hstr.
    destruct (Hstr v Hv) as [-> | Hs]; [reflexivity |].
    destruct v; try contradiction. reflexivity.
  - rewrite Hobj. simpl. apply (f_equal (fun vs => (Ok tt, frame.setitem df col (mkSeries object vs)))).
    unfold pd.astype_str; simpl; rewrite !map_map.
    apply map_ext_in. intros v Hv. apply list_elem_of_In in Hv.
    unfold strings_or_absent in Hstr. rewrite Forall_forall in Hstr.
    destruct (Hstr v Hv) as [-> | Hs].
    + exfalso. apply (isnull_sum_zero s Hmissing), Hv.
    + destruct v; try contradiction. reflexivity.
Qed.

Lemma text_step_strips_and_fills_witness :
  (Main.text_column pydate.py_str_model "name" samples.spaces).1
  = (Ok tt,
     frame.setitem samples.spaces "name"
       (samples.objects [Str "x"; Str "x"; Str "Unknown"])).
Proof.
  apply (text_step_strips_and_fills pydate.py_str_model samples.spaces "name"
           (samples.objects [Str " x"; Str "x"; NA])).
  - reflexivity.
  - reflexivity.
  - unfold strings_or_absent. simpl.
    repeat (constructor; [first [left; reflexivity | right; exact I] |]).
    constructor.
Defined.

(** X12: the categorical step on a column in which every cell is absent,
    whatever its dtype: the mode is empty, every cell becomes the literal
    ["Unknown"], and the column is an object column. *)
Theorem categorical_step_on_all_absent_column
  (py_str : value -> string) (df : DataFrame) (col : string) (s : Series) :
  frame.getitem df col = Ok s ->
  s_values s <> [] ->
  Forall (fun v => v = NA) (s_values s) ->
  Main.categorical_column py_str col df
  = (Ok tt,
     frame.setitem df col
       (mkSeries object (map (fun _ => Str "Unknown") (s_values s))),
     [FilledCategorical col (length (s_values s)) (Str "Unknown")])
  /\ AutoEda.categorical_column py_str col df
     = Main.categorical_column py_str col df.
Proof.
  intros Hget Hne Hall. split; [| reflexivity].
  rewrite categorical_column_eq, Hget. cbn zeta.
  unfold pd.isnull_sum. rewrite (count_null_all _ Hall).
  assert ((0 <? length (s_values s)) = true) as ->.
  { apply Nat.ltb_lt. destruct (s_values s); [congruence | simpl; lia]. }
  assert (categorical_fill s = Str "Unknown") as ->.
  { unfold categorical_fill, pd.mode. rewrite (dropna_all_absent _ Hall).
    reflexivity. }
  rewrite (fill_unknown_all_absent s Hne Hall).
  unfold pd.str_title, pd.str_strip, pd.str_map, pd.astype_str. simpl.
  rewrite !map_map. reflexivity.
Qed.

Lemma categorical_step_on_all_absent_column_witness :
  Main.categorical_column pydate.py_str_model "z" samples.lowcard
  = (Ok tt,
     frame.setitem samples.lowcard "z"
       (samples.objects
          [Str "Unknown"; Str "Unknown"; Str "Unknown"; Str "Unknown"]),
     [FilledCategorical "z" 4 (Str "Unknown")]).
Proof.
  apply (categorical_step_on_all_absent_column pydate.py_str_model
           samples.lowcard "z" (samples.floats [NA; NA; NA; NA])).
  - reflexivity.
  - discriminate.
  - repeat constructor.
Defined.

(** X13: the date step of [auto_eda_cleaner.py] on a column without
    absent cells, where it counts before the conversion and so fills
    nothing.  When [pd.to_datetime] gives a datetime64 column, every cell
    it turned into NaT ends as an absent cell and nothing is printed; when
    it gives a column of another dtype, that column stays in the table and
    the failure of [.dt] is reported; when it raises, the table is as it
    was and the failure is reported. *)
Theorem auto_date_step_leaves_unparsed_cells_absent
  (to_datetime : Series -> result Series) (df : DataFrame) (col : string)
  (s : Series) :
  frame.getitem df col = Ok s ->
  NA ∉ s_values s ->
  match to_datetime s with
  | Ok parsed =>
      if dtype_eqb (s_dtype parsed) datetime64 then
        Conv.auto_datetime_column to_datetime col df
        = (Ok tt, frame.setitem df col (pd.dt_strftime parsed), [])
        /\ forall i,
            s_values parsed !! i = Some NA ->
            s_values (pd.dt_strftime parsed) !! i = Some NA
      else
        Conv.auto_datetime_column to_datetime col df
        = (Ok tt, frame.setitem df col parsed, [CouldNotParse col])
  | Raise _ =>
      Conv.auto_datetime_column to_datetime col df
      = (Ok tt, df, [CouldNotParse col])
  end.
Proof.
  intros Hget Hnot.
  assert (pd.isnull_sum s = 0) as Hzero.
  { destruct (pd.isnull_sum s) eqn:Hn; [reflexivity |]. exfalso.
    apply Hnot, isnull_sum_pos. lia. }
  destruct (to_datetime s) as [parsed | e] eqn:Hconv.
  - destruct (dtype_eqb (s_dtype parsed) datetime64) eqn:Hdt.
    + assert (s_dtype parsed = datetime64) as Hdt'
        by (destruct (s_dtype parsed); try discriminate; reflexivity).
      split.
      * rewrite (conv_auto_datetime_column_ok to_datetime col df s parsed
                   Hget Hconv Hdt').
        unfold formatted_dates. rewrite Hzero. reflexivity.
      * intros i Hi. simpl. change (map ?f ?l) with (f <$> l).
        rewrite list_lookup_fmap, Hi. reflexivity.
    + apply (conv_datetime_column_other_dtype to_datetime col df s parsed
               Hget Hconv); [| exact Hzero].
      intros H. rewrite H in Hdt. discriminate.
  - apply (conv_datetime_column_raise to_datetime col df s e Hget Hconv).
Qed.

Lemma auto_date_step_leaves_unparsed_cells_absent_witness :
  Conv.auto_datetime_column (pd.to_datetime pydate.parse_ymd) "joined"
    samples.dates
  = (Ok tt,
     frame.setitem samples.dates "joined"
       (samples.objects [Str "2023-01-01"; Str "2023-01-03"; NA]),
     []).
Proof.
  apply (auto_date_step_leaves_unparsed_cells_absent
           (pd.to_datetime pydate.parse_ymd) samples.dates "joined"
           samples.joined).
  - reflexivity.
  - intros H. simpl in H.
    repeat (apply elem_of_cons in H as [H | H]; [discriminate |]).
    apply elem_of_nil in H as [].
Defined.

(** X14: on a table with at least one row and one column, the quality score
    of both files is 100 exactly when no cell is absent and no row repeats
    an earlier one. *)
Theorem score_is_100_exactly_for_a_complete_table (df : DataFrame) :
  0 < df_len df -> 0 < frame.ncols df ->
  (pyfloat_ops.eq (quality_score (Main.perform_eda df)) (Fin 100)
   <-> frame.missing_total df = 0 /\ frame.duplicated_sum df = 0)
  /\ (pyfloat_ops.eq (quality_score (AutoEda.perform_eda df)) (Fin 100)
      <-> frame.missing_total df = 0 /\ frame.duplicated_sum df = 0).
Proof.
  intros Hr Hc.
  pose proof (raw_score_100_iff df Hr Hc) as Hraw.
  pose proof (clamp_100_iff (spec.raw_score df) (raw_score_le_100 df)) as Hclamp.
  split.
  - rewrite (float_eq_fin _ _ 100 (main_score_nonempty df Hr Hc)).
    unfold spec.quality_score. rewrite Hclamp. exact Hraw.
  - rewrite (float_eq_fin _ _ 100 (auto_score_nonempty df Hr Hc)).
    unfold spec.quality_score. rewrite Hclamp. exact Hraw.
Qed.

Lemma score_is_100_exactly_for_a_complete_table_witness :
  pyfloat_ops.eq (quality_score (Main.perform_eda samples.sparse_repaired))
    (Fin 100).
Proof.
  apply (proj1 (score_is_100_exactly_for_a_complete_table
                  samples.sparse_repaired ltac:(vm_compute; lia)
                  ltac:(vm_compute; lia))).
  split; vm_compute; reflexivity.
Defined.

(** X15: a well-formed table with at least one row and one column in which
    every cell is absent has the quality score 0 in both files. *)
Theorem score_of_an_all_absent_table_is_0 (df : DataFrame) :
  wf_frame df -> all_absent df ->
  0 < df_len df -> 0 < frame.ncols df ->
  pyfloat_ops.eq (quality_score (Main.perform_eda df)) (Fin 0)
  /\ pyfloat_ops.eq (quality_score (AutoEda.perform_eda df)) (Fin 0).
Proof.
  intros Hwf Hall Hr Hc.
  assert (spec.quality_score df == 0)%Q as Hzero.
  { unfold spec.quality_score, spec.raw_score, spec.missing_ratio.
    rewrite (missing_total_all_absent df Hwf Hall).
    pose proof (ratio_self (df_len df * frame.ncols df) ltac:(lia)) as Hone.
    pose proof (ratio_nonneg (frame.duplicated_sum df) (df_len df)) as Hd.
    unfold spec.duplicate_ratio, spec.clamp.
    set (m := spec.ratio (df_len df * frame.ncols df) _) in *.
    set (d := spec.ratio (frame.duplicated_sum df) _) in *.
    destruct (Qlt_le_dec _ 0); [reflexivity |].
    destruct (Qlt_le_dec 100 _); lra. }
  split.
  - apply (float_eq_fin _ _ 0 (main_score_nonempty df Hr Hc)), Hzero.
  - apply (float_eq_fin _ _ 0 (auto_score_nonempty df Hr Hc)), Hzero.
Qed.

Lemma score_of_an_all_absent_table_is_0_witness :
  pyfloat_ops.eq
    (quality_score
       (Main.perform_eda (mkDataFrame 2 [("y", samples.objects [NA; NA])])))
    (Fin 0).
Proof.
  apply (score_of_an_all_absent_table_is_0
           (mkDataFrame 2 [("y", samples.objects [NA; NA])])).
  - repeat constructor.
  - repeat constructor.
  - vm_compute; lia.
  - vm_compute; lia.
Defined.

(** X16: with the column types detected on the table itself, distinct
    column names, no column listed as categorical, float columns of small
    integers, and a conversion that raises or gives a datetime64 column of
    dates at midnight on every column of the date class as deduplication
    leaves it: steps 2 to 5 of both files end normally, and every column of
    the result is a function of the same column of the deduplicated table
    alone, chosen by the class of the column in the input: the median fill
    for a float column, the date repair of the file for a column of the
    date class, the ['Unknown'] fill and the strip for a text column. *)
Theorem repair_steps_map_each_column_by_its_class
  (to_datetime : Series -> result Series) (py_str : value -> string)
  (df : DataFrame) :
  NoDup (column_names df) ->
  Conv.detect_column_types to_datetime df !! "categorical" = Some [] ->
  columns_ok to_datetime small_integers
    (raises_or_converts_with dates_at_midnight to_datetime) df = true ->
  exists dm em da ea,
    Conv.main_repair_columns to_datetime py_str
      (Conv.detect_column_types to_datetime df) (frame.drop_duplicates df)
    = (Ok tt, dm, em)
    /\ Conv.auto_repair_columns to_datetime py_str
         (Conv.detect_column_types to_datetime df) (frame.drop_duplicates df)
       = (Ok tt, da, ea)
    /\ forall c s0 s,
        frame.lookup_col (df_columns df) c = Some s0 ->
        frame.lookup_col (df_columns (frame.drop_duplicates df)) c = Some s ->
        frame.lookup_col (df_columns dm) c
        = Some (repaired_by_class (main_date_repair to_datetime) py_str
                  (Conv.column_type to_datetime df s0) s)
        /\ frame.lookup_col (df_columns da) c
           = Some (repaired_by_class (auto_date_repair to_datetime) py_str
                     (Conv.column_type to_datetime df s0) s).
Proof.
  intros Hnd Hnocat Hok.
  set (R := fun s =>
              raises_or_converts_with dates_at_midnight to_datetime s = true).
  assert (forall c s0 s,
    frame.lookup_col (df_columns df) c = Some s0 ->
    frame.lookup_col (df_columns (frame.drop_duplicates df)) c = Some s ->
    Conv.column_type to_datetime df s0 = "datetime" -> R s) as Hdates.
  { intros c s0 s Hs0 Hs Hclass.
    apply (columns_ok_spec to_datetime _ _ df c s0 s Hok Hs0 Hs), Hclass. }
  destruct (conv_repair_by_class to_datetime py_str
              (Conv.main_datetime_column to_datetime)
              (main_date_repair to_datetime) R df)
    as (dm & em & Hm & _ & Hmcols); [| | exact Hnd | exact Hnocat | exact Hdates |].
  { intros col d0 s. apply conv_main_datetime_column_repairs. }
  { intros s Hs. apply (date_repair_length to_datetime _ s Hs). }
  destruct (conv_repair_by_class to_datetime py_str
              (Conv.auto_datetime_column to_datetime)
              (auto_date_repair to_datetime) R df)
    as (da & ea & Ha & _ & Hacols); [| | exact Hnd | exact Hnocat | exact Hdates |].
  { intros col d0 s. apply conv_auto_datetime_column_repairs. }
  { intros s Hs. apply (date_repair_length to_datetime _ s Hs). }
  exists dm, em, da, ea.
  rewrite conv_main_repair_columns_with, conv_auto_repair_columns_with.
  split; [exact Hm |]. split; [exact Ha |].
  intros c s0 s Hs0 Hs. split; [apply Hmcols | apply Hacols]; assumption.
Qed.

Lemma repair_steps_map_each_column_by_its_class_witness :
  exists dm em da ea,
    Conv.main_repair_columns (pd.to_datetime pydate.parse_ymd)
      pydate.py_str_model
      (Conv.detect_column_types (pd.to_datetime pydate.parse_ymd) tables.mixed)
      (frame.drop_duplicates tables.mixed) = (Ok tt, dm, em)
    /\ Conv.auto_repair_columns (pd.to_datetime pydate.parse_ymd)
         pydate.py_str_model
         (Conv.detect_column_types (pd.to_datetime pydate.parse_ymd)
            tables.mixed)
         (frame.drop_duplicates tables.mixed)
       = (Ok tt, da, ea)
    /\ forall c s0 s,
        frame.lookup_col (df_columns tables.mixed) c = Some s0 ->
        frame.lookup_col (df_columns (frame.drop_duplicates tables.mixed)) c
        = Some s ->
        frame.lookup_col (df_columns dm) c
        = Some (repaired_by_class
                  (main_date_repair (pd.to_datetime pydate.parse_ymd))
                  pydate.py_str_model
                  (Conv.column_type (pd.to_datetime pydate.parse_ymd)
                     tables.mixed s0) s)
        /\ frame.lookup_col (df_columns da) c
           = Some (repaired_by_class
                     (auto_date_repair (pd.to_datetime pydate.parse_ymd))
                     pydate.py_str_model
                     (Conv.column_type (pd.to_datetime pydate.parse_ymd)
                        tables.mixed s0) s).
Proof.
  apply (repair_steps_map_each_column_by_its_class
           (pd.to_datetime pydate.parse_ymd) pydate.py_str_model tables.mixed).
  - apply (bool_decide_unpack _). vm_compute. exact I.
  - vm_compute. reflexivity.
  - vm_compute. reflexivity.
Defined.

(** X17: [clean_data] of [main.py], run on the table on which the column
    types were detected.  When the table is well formed with distinct
    column names, no column is listed as categorical, every float column
    holds a number and only small integers, and every column of the date
    class, as deduplication leaves it, converts to a datetime64 column that
    holds a timestamp, then the run returns a table, whether or not
    [DataFrame.drop] accepts [ignore_index]; the table has the rows that
    deduplication keeps, and none of its cells is absent. *)
Theorem clean_data_returns_a_complete_table
  (to_datetime : Series -> result Series) (py_str : value -> string)
  (flag : bool) (h : list DataFrame) (evs : list event) (l : loc)
  (d : DataFrame) :
  h !! l = Some d ->
  wf_frame d ->
  NoDup (column_names d) ->
  Conv.detect_column_types to_datetime d !! "categorical" = Some [] ->
  columns_ok to_datetime holds_small_integers
    (converts_with holds_date to_datetime) d = true ->
  exists out,
    returned_frame
      (Conv.clean_data to_datetime py_str flag
         (Conv.detect_column_types to_datetime d) l (mkState h evs))
    = Some out
    /\ df_len out + frame.duplicated_sum d = df_len d
    /\ complete out.
Proof.
  intros Hl Hwf Hnd Hnocat Hok.
  rewrite (conv_clean_data_run to_datetime py_str flag _ h evs l d Hl).
  rewrite conv_main_repair_columns_with.
  destruct (conv_repair_complete to_datetime py_str
              (Conv.main_datetime_column to_datetime)
              (main_date_repair to_datetime) holds_small_integers
              (converts_with holds_date to_datetime) d)
    as (d5 & ev5 & Hrun & Hshape & Hnone & Hsparse);
    [| | | | exact Hwf | exact Hnd | exact Hnocat | exact Hok |].
  { intros col d0 s. apply conv_main_datetime_column_local. }
  { intros s. apply main_date_repair_length. }
  { intros s. apply main_date_repair_no_absent. }
  { intros s Hs. unfold holds_small_integers in Hs.
    apply andb_true_iff in Hs as [Hs _]. apply holds_number_spec, Hs. }
  rewrite Hrun. cbv zeta. rewrite (no_sparse_rows_outcome flag _ _ _ _ Hsparse).
  exists d5. unfold returned_frame. simpl. rewrite lookup_snoc2.
  split; [reflexivity |]. split; [| exact Hnone].
  injection Hshape as Hlen _. rewrite Hlen. apply drop_duplicates_count.
Qed.

Lemma clean_data_returns_a_complete_table_witness :
  exists out,
    returned_frame
      (Conv.clean_data (pd.to_datetime pydate.parse_ymd) pydate.py_str_model
         false
         (Conv.detect_column_types (pd.to_datetime pydate.parse_ymd)
            tables.mixed) 0
         (mkState [tables.mixed] [])) = Some out
    /\ df_len out + frame.duplicated_sum tables.mixed = df_len tables.mixed
    /\ complete out.
Proof.
  apply (clean_data_returns_a_complete_table (pd.to_datetime pydate.parse_ymd)
           pydate.py_str_model false [tables.mixed] [] 0 tables.mixed).
  - reflexivity.
  - repeat constructor.
  - apply (bool_decide_unpack _). vm_compute. exact I.
  - vm_compute. reflexivity.
  - vm_compute. reflexivity.
Defined.

(** X18: [auto_clean_dataset] under the same conditions, where every
    column of the date class, as deduplication leaves it, converts to a
    datetime64 column and either has an absent cell and a cell that
    converts, or consists of cells that all convert: the run returns a
    table with the rows that deduplication keeps and without an absent
    cell. *)
Theorem auto_clean_dataset_returns_a_complete_table
  (to_datetime : Series -> result Series) (py_str : value -> string)
  (flag : bool) (h : list DataFrame) (evs : list event) (l : loc)
  (d : DataFrame) :
  h !! l = Some d ->
  wf_frame d ->
  NoDup (column_names d) ->
  Conv.detect_column_types to_datetime d !! "categorical" = Some [] ->
  columns_ok to_datetime holds_small_integers
    (converts_with dated_or_absent to_datetime) d = true ->
  exists out,
    returned_frame
      (Conv.auto_clean_dataset to_datetime py_str flag l (mkState h evs))
    = Some out
    /\ df_len out + frame.duplicated_sum d = df_len d
    /\ complete out.
Proof.
  intros Hl Hwf Hnd Hnocat Hok.
  rewrite (conv_auto_clean_dataset_run to_datetime py_str flag h evs l d Hl).
  rewrite conv_auto_repair_columns_with.
  destruct (conv_repair_complete to_datetime py_str
              (Conv.auto_datetime_column to_datetime)
              (auto_date_repair to_datetime) holds_small_integers
              (converts_with dated_or_absent to_datetime) d)
    as (d5 & ev5 & Hrun & Hshape & Hnone & Hsparse);
    [| | | | exact Hwf | exact Hnd | exact Hnocat | exact Hok |].
  { intros col d0 s. apply conv_auto_datetime_column_local. }
  { intros s. apply auto_date_repair_length. }
  { intros s. apply auto_date_repair_no_absent. }
  { intros s Hs. unfold holds_small_integers in Hs.
    apply andb_true_iff in Hs as [Hs _]. apply holds_number_spec, Hs. }
  rewrite Hrun. cbv zeta. rewrite (no_sparse_rows_outcome flag _ _ _ _ Hsparse).
  exists d5. unfold returned_frame. simpl. rewrite lookup_snoc2.
  split; [reflexivity |]. split; [| exact Hnone].
  injection Hshape as Hlen _. rewrite Hlen. apply drop_duplicates_count.
Qed.

Lemma auto_clean_dataset_returns_a_complete_table_witness :
  exists out,
    returned_frame
      (Conv.auto_clean_dataset (pd.to_datetime pydate.parse_ymd)
         pydate.py_str_model false 0 (mkState [tables.dated] []))
    = Some out
    /\ df_len out + frame.duplicated_sum tables.dated = df_len tables.dated
    /\ complete out.
Proof.
  apply (auto_clean_dataset_returns_a_complete_table
           (pd.to_datetime pydate.parse_ymd) pydate.py_str_model false
           [tables.dated] [] 0 tables.dated).
  - reflexivity.
  - repeat constructor.
  - apply (bool_decide_unpack _). vm_compute. exact I.
  - vm_compute. reflexivity.
  - vm_compute. reflexivity.
Defined.

(** X19: the date steps of the two files on a column that exists.  When
    [pd.to_datetime] raises, both report the failure and leave the table as
    it was.  When it gives a datetime64 column, the two steps give the same
    table and report the same count exactly when the conversion lost no
    cell, that is, the column has as many absent cells after it as before
    it; a cell that the conversion turned into NaT is counted and filled
    by [main.py] only. *)
Theorem date_steps_agree_iff_no_cell_is_lost
  (to_datetime : Series -> result Series) (col : string) (df : DataFrame)
  (s : Series) :
  frame.getitem df col = Ok s ->
  match to_datetime s with
  | Ok parsed =>
      s_dtype parsed = datetime64 ->
      (Conv.auto_datetime_column to_datetime col df
       = Conv.main_datetime_column to_datetime col df
       <-> count_null (s_values parsed) = count_null (s_values s))
  | Raise _ =>
      Conv.auto_datetime_column to_datetime col df
      = (Ok tt, df, [CouldNotParse col])
      /\ Conv.main_datetime_column to_datetime col df
         = (Ok tt, df, [CouldNotParse col])
  end.
Proof.
  intros Hget. destruct (to_datetime s) as [parsed | e] eqn:Hconv.
  - intros Hdt.
    apply (conv_datetime_columns_agree_iff to_datetime col df s parsed
             Hget Hconv Hdt).
  - destruct (conv_datetime_column_raise to_datetime col df s e Hget Hconv)
      as [Hmain Hauto].
    split; assumption.
Qed.

Lemma date_steps_agree_iff_no_cell_is_lost_witness :
  Conv.auto_datetime_column (pd.to_datetime pydate.parse_ymd) "joined"
    samples.dates64
  = Conv.main_datetime_column (pd.to_datetime pydate.parse_ymd) "joined"
      samples.dates64.
Proof.
  refine (proj2 (date_steps_agree_iff_no_cell_is_lost
                   (pd.to_datetime pydate.parse_ymd) "joined" samples.dates64
                   samples.joined64 eq_refl eq_refl) _).
  vm_compute. reflexivity.
Defined.

(** X20: the two cleaners are one pipeline on tables whose dates convert
    without loss.  On a well-formed table with distinct column names, when
    on every column of the date class, as deduplication leaves it, the
    conversion raises or gives a datetime64 column with as many absent
    cells as the column had, [auto_clean_dataset] and [clean_data] after
    [detect_column_types] on that table end in the same way, with the same
    tables in the store and the same repairs reported with the same
    counts.  The numeric, categorical and text steps are the same
    statements in the two files; the date steps differ in where they count
    the absent cells. *)
Theorem cleaners_agree_when_dates_convert
  (to_datetime : Series -> result Series) (py_str : value -> string)
  (flag : bool) (h : list DataFrame) (evs : list event) (l : loc)
  (d : DataFrame) :
  h !! l = Some d ->
  wf_frame d ->
  NoDup (column_names d) ->
  columns_ok to_datetime any_column
    (raises_or_converts_with no_cell_lost to_datetime) d = true ->
  Conv.auto_clean_dataset to_datetime py_str flag l (mkState h evs)
  = Conv.clean_data to_datetime py_str flag
      (Conv.detect_column_types to_datetime d) l (mkState h evs).
Proof.
  intros Hl Hwf Hnd Hok.
  rewrite (conv_auto_clean_dataset_run to_datetime py_str flag h evs l d Hl).
  rewrite (conv_clean_data_run to_datetime py_str flag _ h evs l d Hl).
  rewrite (conv_repair_columns_agree to_datetime py_str d Hnd Hok).
  rewrite (count_true_all_false _ (duplicated_drop_duplicates d Hwf)
           : frame.duplicated_sum (frame.drop_duplicates d) = 0).
  rewrite Nat.sub_0_r. reflexivity.
Qed.

Lemma cleaners_agree_when_dates_convert_witness :
  Conv.auto_clean_dataset (pd.to_datetime pydate.parse_ymd)
    pydate.py_str_model false 0 (mkState [tables.dated] [])
  = Conv.clean_data (pd.to_datetime pydate.parse_ymd) pydate.py_str_model
      false
      (Conv.detect_column_types (pd.to_datetime pydate.parse_ymd) tables.dated)
      0 (mkState [tables.dated] []).
Proof.
  apply (cleaners_agree_when_dates_convert (pd.to_datetime pydate.parse_ymd)
           pydate.py_str_model false [tables.dated] [] 0 tables.dated).
  - reflexivity.
  - repeat constructor.
  - apply (bool_decide_unpack _). vm_compute. exact I.
  - vm_compute. reflexivity.
Defined.
